(** * Bedtime story generator: storyteller, judge, reviser and customization menu

    A shallow embedding of [main.py].  Python text is modelled as the UTF-8
    byte string of its characters, Python [int] as [Z], the [Dict[str, Any]]
    verdict as a finite map from keys to decoded JSON values, and the three
    effects of the program (writing to the terminal, reading a line from it,
    calling the chat completion service) as an explicit world that every
    effectful function threads. *)

From Stdlib Require Import ZArith QArith String Ascii List Lia.
From stdpp Require Import base option list gmap strings fin_maps pretty.

#[local] Set Warnings "-register-all".
#[local] Open Scope string_scope.
#[local] Open Scope list_scope.
#[local] Open Scope Z_scope.

(** ** Text *)

Module Text.

(** The characters the source writes with an escape. *)
Definition nl : string := String "010"%char EmptyString.
Definition dq : string := String "034"%char EmptyString.

(** A source literal that ends in a newline. *)
Definition ln (s : string) : string := s +:+ nl.

Definition is_continuation (c : ascii) : bool :=
  let n := nat_of_ascii c in ((128 <=? n) && (n <=? 191))%nat.

(** The characters of a text: every byte that is followed by UTF-8
    continuation bytes is grouped with them. *)
Fixpoint characters (s : string) : list string :=
  match s with
  | EmptyString => []
  | String c s' =>
      match characters s' with
      | String c' g :: gs =>
          if is_continuation c' then String c (String c' g) :: gs
          else String c EmptyString :: String c' g :: gs
      | gs => String c EmptyString :: gs
      end
  end.

Definition bytes (l : list nat) : string :=
  string_of_list_ascii (map ascii_of_nat l).

(** The characters for which Python's [str.isspace] holds. *)
Definition whitespace : list string :=
  map bytes
    [ [9]; [10]; [11]; [12]; [13]; [28]; [29]; [30]; [31]; [32];
      [194; 133]; [194; 160]; [225; 154; 128];
      [226; 128; 128]; [226; 128; 129]; [226; 128; 130]; [226; 128; 131];
      [226; 128; 132]; [226; 128; 133]; [226; 128; 134]; [226; 128; 135];
      [226; 128; 136]; [226; 128; 137]; [226; 128; 138];
      [226; 128; 168]; [226; 128; 169]; [226; 128; 175];
      [226; 129; 159]; [227; 128; 128] ]%nat.

Definition is_space (ch : string) : bool := bool_decide (ch ∈ whitespace).

Fixpoint drop_spaces (chs : list string) : list string :=
  match chs with
  | ch :: chs' => if is_space ch then drop_spaces chs' else chs
  | [] => []
  end.

(** [str.strip()] with no argument. *)
Definition strip (s : string) : string :=
  String.concat EmptyString
    (rev (drop_spaces (rev (drop_spaces (characters s))))).

(** [s.startswith(p)]. *)
Definition starts_with (p s : string) : bool := String.prefix p s.

(** [needle in s]. *)
Definition contains (needle s : string) : bool :=
  bool_decide (is_Some (String.index 0 needle s)).

End Text.

Import Text.

(** ** Python values *)

(** What [json.loads] can return.  A float is kept as the decimal
    [mantissa * 10 ^ exponent] that its literal denotes; Python keeps the
    double nearest to it. *)
Inductive py_value : Type :=
| PNone
| PBool (b : bool)
| PInt (z : Z)
| PFloat (mantissa exponent : Z)
| PNaN
| PInfinity (negative : bool)
| PStr (s : string)
| PList (l : list py_value)
| PDict (d : gmap string py_value).

(** The double nearest to [mantissa * 10 ^ exponent] is zero: the decimal
    is at most [2 ^ -1075] in absolute value, half the least positive
    double. *)
Definition rounds_to_zero (mantissa exponent : Z) : bool :=
  if 0 <=? exponent then mantissa =? 0
  else Z.abs mantissa * 2 ^ 1075 <=? 10 ^ (- exponent).

(** Truth value of an object, as [if] tests it. *)
Definition truthy (v : py_value) : bool :=
  match v with
  | PNone => false
  | PBool b => b
  | PInt z => negb (z =? 0)
  | PFloat m e => negb (rounds_to_zero m e)
  | PNaN => true
  | PInfinity _ => true
  | PStr s => negb (String.eqb s EmptyString)
  | PList l => match l with [] => false | _ => true end
  | PDict d => negb (bool_decide (d = ∅))
  end.

(** [d.setdefault(k, v)], keeping the dictionary. *)
Definition setdefault (k : string) (v : py_value)
    (d : gmap string py_value) : gmap string py_value :=
  match d !! k with
  | Some _ => d
  | None => <[k := v]> d
  end.

(** [d.get(k, v)]. *)
Definition dict_get (k : string) (v : py_value)
    (d : gmap string py_value) : py_value :=
  default v (d !! k).

(** ** Reading level helpers *)

Definition level_labels : gmap string string :=
  {[ "1" := "very simple language for ages 5–6, with short sentences (6–10 words) and very basic everyday vocabulary";
     "2" := "simple language for ages 7–8, with mostly short sentences (8–14 words) and easy everyday vocabulary";
     "3" := "clear spoken language for ages 9–10, still gentle, with mostly short sentences and no literary or complex phrasing" ]}.

Definition get_reading_level_label (level : string) : string :=
  let mapping := level_labels in
  default (mapping !!! "2") (mapping !! level).

Definition get_spoken_style_instructions (level : string) : string :=
  if String.eqb level "1" then
    ln "- Pretend you are talking out loud to a 5-year-old." +:+
    ln "- Use very short, simple sentences (6–10 words)." +:+
    ln "- Use only familiar everyday words." +:+
    ln "- Keep the tone warm, gentle, and playful."
  else if String.eqb level "2" then
    ln "- Pretend you are talking to a 7-year-old." +:+
    ln "- Use short sentences (8–14 words) and simple vocabulary." +:+
    ln "- Avoid complex clauses." +:+
    ln "- Keep the tone friendly and clear."
  else
    ln "- Pretend you are talking to a 9-year-old." +:+
    ln "- Use mostly short, clear spoken sentences." +:+
    ln "- Avoid overly poetic or complex language." +:+
    ln "- Keep the tone friendly and easy to follow.".

Definition get_length_instructions (level : string) : string :=
  if String.eqb level "1" then
    ln "Formatting and length:" +:+
    ln "- Write the story in 3 to 5 paragraphs." +:+
    ln "- Each paragraph should have at least 3 short sentences." +:+
    ln "- Do NOT end the story after only 1 or 2 paragraphs."
  else if String.eqb level "2" then
    ln "Formatting and length:" +:+
    ln "- Write the story in 4 to 6 paragraphs." +:+
    ln "- Each paragraph should have 3–5 sentences." +:+
    ln "- Do NOT end the story after only 1 or 2 paragraphs."
  else
    ln "Formatting and length:" +:+
    ln "- Write the story in 5 to 7 paragraphs." +:+
    ln "- Each paragraph should have 3–6 sentences.".

(** ** The world the program runs in *)

(** One entry of [messages]. *)
Record message : Type := { role : string; content : string }.

(** The arguments of [client.chat.completions.create]. *)
Record chat_call : Type :=
  { model : string; messages : list message;
    max_tokens : Z; temperature : Q }.

(** The service answers with the content of its first choice, or the call
    fails (network, authentication, quota). *)
Inductive chat_reply : Type :=
| Content (text : string)
| Failure.

Inductive event : Type :=
| Wrote (text : string)
| Read (line : string)
| Chatted (call : chat_call) (reply : chat_reply).

(** The lines still to come on standard input, and what has happened. *)
Record world : Type := { stdin : list string; trace : list event }.

Definition record (e : event) (w : world) : world :=
  {| stdin := stdin w; trace := trace w ++ [e] |}.

Inductive exn : Type := EOFError | TransportError.

(** A call returns, raises, or (in this model only) stops because the bound
    given to a [while True] loop is used up; the loops below are given a
    bound they never reach. *)
Inductive outcome (A : Type) : Type :=
| Returned (a : A) (w : world)
| Raised (e : exn) (w : world)
| Exhausted (w : world).
Arguments Returned {A} a w.
Arguments Raised {A} e w.
Arguments Exhausted {A} w.

Definition final_world {A : Type} (r : outcome A) : world :=
  match r with Returned _ w => w | Raised _ w => w | Exhausted w => w end.

Definition io (A : Type) : Type := world -> outcome A.

#[global] Instance io_ret : MRet io := fun A a w => Returned a w.
#[global] Instance io_bind : MBind io := fun A B f m w =>
  match m w with
  | Returned a w' => f a w'
  | Raised e w' => Raised e w'
  | Exhausted w' => Exhausted w'
  end.

(** [print(text)]. *)
Definition print (text : string) : io unit :=
  fun w => Returned tt (record (Wrote (ln text)) w).

(** [input(prompt)]: at the end of the input it raises [EOFError]. *)
Definition input (prompt : string) : io string :=
  fun w =>
    let w := record (Wrote prompt) w in
    match stdin w with
    | line :: rest =>
        Returned line {| stdin := rest; trace := trace w ++ [Read line] |}
    | [] => Raised EOFError w
    end.

(** [while True: body], run for at most [fuel] iterations.  The body answers
    [inl s] to go round again with the variables [s] and [inr a] to return
    [a]. *)
Fixpoint while_true {S A : Type} (fuel : nat) (body : S -> io (S + A)) (s : S)
    : io A :=
  match fuel with
  | O => fun w => Exhausted w
  | Datatypes.S fuel =>
      r ← body s;
      match r with
      | inl s' => while_true fuel body s'
      | inr a => mret a
      end
  end.

(** What the program takes from outside its own text: the chat completion
    service, whose answer may depend on everything that happened before, and
    two functions of the Python library, [json.loads] ([None] when it raises)
    and [repr]. *)
Class Runtime : Type :=
  { completion : list event -> chat_call -> chat_reply;
    json_loads : string -> option py_value;
    py_repr : py_value -> string }.

(** ** The program *)

Section Program.

Context `{!Runtime}.

(** [str(v)], as an f-string formats a value. *)
Definition py_str (v : py_value) : string :=
  match v with
  | PStr s => s
  | _ => py_repr v
  end.

(** The request that [call_chat] sends. *)
Definition chat_request (messages : list message) (max_tokens : Z)
    (temperature : Q) : chat_call :=
  {| model := "gpt-3.5-turbo"; messages := messages;
     max_tokens := max_tokens; temperature := temperature |}.

Definition call_chat (messages : list message) (max_tokens : Z)
    (temperature : Q) : io string :=
  fun w =>
    let call := chat_request messages max_tokens temperature in
    let reply := completion (trace w) call in
    let w := record (Chatted call reply) w in
    match reply with
    | Content text => Returned text w
    | Failure => Raised TransportError w
    end.

(** *** Story generator agent *)

(** The [system_prompt] of [generate_story]. *)
Definition generate_story_system_prompt (reading_level : string) : string :=
  let level_description := get_reading_level_label reading_level in
  let spoken_style := get_spoken_style_instructions reading_level in
  let length_instructions := get_length_instructions reading_level in
  ln "You are a warm, imaginative children's storyteller who tells bedtime stories for kids ages 5 to 10." +:+
  "Target style: " +:+ level_description +:+ nl +:+
  spoken_style +:+
  ln "Story structure (you must follow this):" +:+
  ln "1) Beginning:" +:+
  ln "   - Introduce the main character with a specific name." +:+
  ln "   - Describe one clear setting (e.g., school hallway, playground, bedroom)." +:+
  nl +:+
  ln "2) Build-up:" +:+
  ln "   - Show the main character trying something new or facing a small challenge." +:+
  ln "   - Introduce 1–2 supporting characters with names." +:+
  nl +:+
  ln "3) Specific Conflict (the climax):" +:+
  ln "   - Include ONE concrete problem that happens in a clear, visual scene." +:+
  ln "   - Examples: going to the wrong classroom, losing a game," +:+
  ln "     getting into a conflict with another character, misunderstanding instructions." +:+
  ln "   - The problem must actually happen, not just be mentioned as a feeling." +:+
  nl +:+
  ln "4) Resolution:" +:+
  ln "   - Show how the character(s) solve the problem together." +:+
  ln ("   - Use simple cause-and-effect (" +:+ dq +:+ "because she... then he..." +:+ dq +:+ " or " +:+ dq +:+ "with help from..." +:+ dq +:+ ").") +:+
  nl +:+
  ln "5) Cozy Ending:" +:+
  ln "   - End with a calm, sleepy moment (bedtime, peaceful thought)." +:+
  ln "   - State the moral in ONE short, simple sentence a child can repeat." +:+
  nl +:+
  length_instructions +:+
  ln "Additional content rules:" +:+
  ln "- The story must be safe and appropriate." +:+
  ln "- No violence, horror, or disturbing content." +:+
  ln "- Gentle conflict only with a warm resolution." +:+
  ln "- Use concrete actions, simple dialogue, and simple sensory details." +:+
  ln "- Include at least two lines of dialogue with quotation marks." +:+
  ln "- At least two characters must have names." +:+
  ln "- The moral should clearly match what happens in the story." +:+
  nl +:+
  ln "Before you begin writing, silently check:" +:+
  ln "- Do you have a named main character?" +:+
  ln "- Do you have a specific, concrete problem that happens in a scene?" +:+
  ln "- Do you include dialogue in at least two places?" +:+
  ln "- Do you have a clear, simple moral at the end?" +:+
  ln "Only begin writing once all four conditions are satisfied." +:+
  nl +:+
  ln "Write the story now. Separate paragraphs with blank lines.".

Definition generate_story_messages (user_request reading_level : string)
    : list message :=
  let system_prompt := generate_story_system_prompt reading_level in
  let user_message :=
    ln "The user requested this bedtime story:" +:+
    dq +:+ user_request +:+ ln dq +:+
    nl +:+
    "Please tell the story now. Return ONLY the story text." in
  [ {| role := "system"; content := system_prompt |};
    {| role := "user"; content := user_message |} ].

Definition generate_story (user_request reading_level : string) : io string :=
  call_chat (generate_story_messages user_request reading_level) 1500 (7 # 10).

Definition generate_request (user_request reading_level : string) : chat_call :=
  chat_request (generate_story_messages user_request reading_level) 1500 (7 # 10).

(** *** Judge agent *)

(** The [system_prompt] of [judge_story]. *)
Definition judge_story_system_prompt (reading_level : string) : string :=
  let level_description := get_reading_level_label reading_level in
  let spoken_style := get_spoken_style_instructions reading_level in
  ln "You are a children's book editor reviewing a bedtime story." +:+
  "Target reading level: " +:+ level_description +:+ nl +:+
  spoken_style +:+
  ln "You must evaluate these criteria:" +:+
  ln "1) Plot and conflict:" +:+
  ln "   - Is there a clear beginning, build-up, specific conflict scene, resolution, and happy ending?" +:+
  ln "   - Does ONE concrete problem actually happen in a scene (not just general feelings)?" +:+
  nl +:+
  ln "2) Characters and dialogue:" +:+
  ln "   - Is there a named main child character?" +:+
  ln "   - Are there supporting named characters (at least one, ideally two)?" +:+
  ln "   - Is there dialogue (quoted speech) in at least two places?" +:+
  nl +:+
  ln "3) Moral and tone:" +:+
  ln "   - Is there a clear, short moral sentence at or near the end, and does it match the story?" +:+
  ln "   - Is the tone gentle, calm, and bedtime-friendly?" +:+
  ln "   - Is all content safe for ages 5–10?" +:+
  nl +:+
  ln "4) Language simplicity:" +:+
  ln "   - Are sentences short and easy to follow for the target reading level?" +:+
  ln "   - Are words common and child-friendly (no overly fancy or academic words)?" +:+
  nl +:+
  ln "Return ONLY JSON in this format:" +:+
  ln "{" +:+
  ln ("  " +:+ dq +:+ "score" +:+ dq +:+ ": number,  // 0-10 overall quality") +:+
  ln ("  " +:+ dq +:+ "needs_revision" +:+ dq +:+ ": boolean,") +:+
  ln ("  " +:+ dq +:+ "feedback_for_author" +:+ dq +:+ ": string,") +:+
  ln ("  " +:+ dq +:+ "safety_warnings" +:+ dq +:+ ": string") +:+
  ln "}" +:+
  ln "In feedback_for_author, explicitly mention if any of the following are missing:" +:+
  ln "- specific conflict scene," +:+
  ln "- named main character," +:+
  ln "- dialogue," +:+
  ln "- clear moral sentence," +:+
  ln "- or if the language is too complex.".

Definition judge_story_messages (user_request story reading_level : string)
    : list message :=
  let system_prompt := judge_story_system_prompt reading_level in
  let user_message :=
    ln "User request:" +:+ user_request +:+ nl +:+ nl +:+
    ln "Story:" +:+ story in
  [ {| role := "system"; content := system_prompt |};
    {| role := "user"; content := user_message |} ].

(** The dictionary of the [except] branch. *)
Definition fail_closed_verdict : gmap string py_value :=
  {[ "score" := PInt 0;
     "needs_revision" := PBool true;
     "feedback_for_author" :=
       PStr ("Could not parse judge response. Recommend clearer plot with a specific conflict, " +:+
             "named characters, dialogue, simpler language, and an explicit moral.");
     "safety_warnings" := PStr "Parsing failed." ]}.

(** Only a dictionary has [setdefault]: on any other decoded value the
    first call raises [AttributeError]. *)
Definition as_dict (v : py_value) : option (gmap string py_value) :=
  match v with
  | PDict d => Some d
  | _ => None
  end.

(** The [try] block: [None] when one of its statements raises. *)
Definition parse_verdict (raw : string) : option (gmap string py_value) :=
  parsed ← json_loads raw;
  parsed ← as_dict parsed;
  let parsed := setdefault "score" (PInt 0) parsed in
  let parsed := setdefault "needs_revision" (PBool false) parsed in
  let parsed := setdefault "feedback_for_author" (PStr EmptyString) parsed in
  let parsed := setdefault "safety_warnings" (PStr EmptyString) parsed in
  Some parsed.

Definition judge_story (user_request story reading_level : string)
    : io (gmap string py_value) :=
  raw ← call_chat (judge_story_messages user_request story reading_level) 800 0;
  match parse_verdict raw with
  | Some parsed => mret parsed
  | None => mret fail_closed_verdict
  end.

(** The request of the judge, and what the judge makes of an answer. *)
Definition judge_request (user_request story reading_level : string)
    : chat_call :=
  chat_request (judge_story_messages user_request story reading_level) 800 0.

Definition verdict_of_response (raw : string) : gmap string py_value :=
  match parse_verdict raw with
  | Some parsed => parsed
  | None => fail_closed_verdict
  end.

(** The [try] block on a response that decodes to an object. *)
Definition with_defaults (d : gmap string py_value) : gmap string py_value :=
  setdefault "safety_warnings" (PStr EmptyString)
    (setdefault "feedback_for_author" (PStr EmptyString)
       (setdefault "needs_revision" (PBool false)
          (setdefault "score" (PInt 0) d))).

(** *** Revision agent *)

(** The [system_prompt] of [revise_story]. *)
Definition revise_story_system_prompt (reading_level : string) : string :=
  let level_description := get_reading_level_label reading_level in
  let spoken_style := get_spoken_style_instructions reading_level in
  let length_instructions := get_length_instructions reading_level in
  ln "Revise the bedtime story using the editor's feedback and the user's suggestions." +:+
  "Keep the reading level: " +:+ level_description +:+ nl +:+
  spoken_style +:+
  ln "Required structure (do not change this):" +:+
  ln "- Named main child character." +:+
  ln "- 1–2 supporting named characters." +:+
  ln "- One specific, concrete problem in a scene (the climax)." +:+
  ln "- Dialogue in at least two places." +:+
  ln "- Cozy ending with a clear, short moral sentence." +:+
  length_instructions +:+
  ln "When revising:" +:+
  ln "- Strengthen the plot into clear steps (beginning, build-up, conflict, resolution, cozy ending)." +:+
  ln "- Simplify language to sound like calm bedtime talk." +:+
  ln "- Use short sentences and common words." +:+
  ln "- Maintain safe, gentle tone." +:+
  ln "Return ONLY the revised story text.".

Definition revise_story_messages (user_request original_story : string)
    (judge_feedback : gmap string py_value) (reading_level : string)
    (user_modification_instruction : option string) : list message :=
  let system_prompt := revise_story_system_prompt reading_level in
  let extra_instr :=
    match user_modification_instruction with
    | Some instr =>
        if String.eqb instr EmptyString then "No extra user requests." else instr
    | None => "No extra user requests."
    end in
  let user_message :=
    ln "Original request:" +:+ user_request +:+ nl +:+ nl +:+
    ln "Original story:" +:+ original_story +:+ nl +:+ nl +:+
    ln "Editor feedback:" +:+
    py_str (dict_get "feedback_for_author" (PStr EmptyString) judge_feedback) +:+
    nl +:+ nl +:+
    ln "User refinements:" +:+ extra_instr +:+ nl +:+ nl +:+
    "Please revise the story to satisfy all requirements." in
  [ {| role := "system"; content := system_prompt |};
    {| role := "user"; content := user_message |} ].

Definition revise_story (user_request original_story : string)
    (judge_feedback : gmap string py_value) (reading_level : string)
    (user_modification_instruction : option string) : io string :=
  call_chat
    (revise_story_messages user_request original_story judge_feedback
       reading_level user_modification_instruction)
    1500 (7 # 10).

Definition revise_request (user_request original_story : string)
    (judge_feedback : gmap string py_value) (reading_level : string)
    (user_modification_instruction : option string) : chat_call :=
  chat_request
    (revise_story_messages user_request original_story judge_feedback
       reading_level user_modification_instruction)
    1500 (7 # 10).

(** *** Generate, judge and revise once *)

Definition generate_story_with_judge (user_request reading_level : string)
    : io (string * gmap string py_value) :=
  story ← generate_story user_request reading_level;
  verdict ← judge_story user_request story reading_level;
  if truthy (dict_get "needs_revision" (PBool false) verdict) then
    story ← revise_story user_request story verdict reading_level None;
    verdict ← judge_story user_request story reading_level;
    mret (story, verdict)
  else
    mret (story, verdict).

(** *** UI helpers *)

Definition select_reading_level_body (_ : unit) : io (unit + string) :=
  line ← input "Enter 1, 2, or 3: ";
  let lvl := strip line in
  if bool_decide (lvl ∈ ({[ "1"; "2"; "3" ]} : gset string)) then
    mret (inr lvl)
  else
    print "Please enter a valid choice (1, 2, or 3).";;
    mret (inl tt).

(** Every round of the loop reads a line, so the loop ends within one more
    round than there are lines. *)
Definition select_reading_level : io string :=
  print "Choose a reading level:";;
  print "1. Very simple (ages 5–6)";;
  print "2. Simple (ages 7–8)";;
  print "3. Standard (ages 9–10)";;
  ((fun w => while_true (S (length (stdin w))) select_reading_level_body tt w)
     : io string).

(** *** Customization menu *)

(** The local variables of [customization_menu] that the loop assigns. *)
Record session : Type :=
  { story : string;
    verdict : gmap string py_value;
    current_request : string;
    reading_level : string;
    customizations_used : Z }.

Definition set_customizations_used (n : Z) (s : session) : session :=
  {| story := story s; verdict := verdict s;
     current_request := current_request s;
     reading_level := reading_level s; customizations_used := n |}.

Definition set_story_verdict (sv : string * gmap string py_value)
    (s : session) : session :=
  {| story := sv.1; verdict := sv.2;
     current_request := current_request s;
     reading_level := reading_level s;
     customizations_used := customizations_used s |}.

Definition set_reading_level (lvl : string) (s : session) : session :=
  {| story := story s; verdict := verdict s;
     current_request := current_request s;
     reading_level := lvl; customizations_used := customizations_used s |}.

Definition set_current_request (req : string) (s : session) : session :=
  {| story := story s; verdict := verdict s;
     current_request := req;
     reading_level := reading_level s;
     customizations_used := customizations_used s |}.

(** Where the loop body stands: at its first statement, or just after
    [customizations_used += 1], about to act on [choice]. *)
Inductive control : Type :=
| Menu
| Action (choice : string).

Section Menu.

Variable show_judge_info : bool.
Variable max_customizations : Z.

(** From the top of the loop body to [customizations_used += 1]. *)
Definition menu_step (s : session) : io (control * session + session) :=
  let remaining := max_customizations - customizations_used s in
  print (nl +:+ "What would you like to do next?");;
  print "1. I'm happy with this story! (exit)";;
  print "2. Add suggestions to improve this story.";;
  print "3. Change the reading level & regenerate.";;
  print "4. Change the original story request & regenerate.";;
  print ("You have " +:+ pretty remaining +:+ " customization(s) remaining.");;
  if remaining <=? 0 then
    print (nl +:+ "You’ve reached the maximum number of customizations.");;
    print "Keeping the current story as your final version. 🌟";;
    mret (inr s)
  else
    line ← input "Enter 1–4: ";
    let choice := strip line in
    if String.eqb choice "1" then
      mret (inr s)
    else if negb (bool_decide (choice ∈ ({[ "2"; "3"; "4" ]} : gset string))) then
      print "Please enter a valid option (1, 2, 3, or 4).";;
      mret (inl (Menu, s))
    else
      mret (inl (Action choice,
                 set_customizations_used (customizations_used s + 1) s)).

(** The end of the loop body, reached by every action that was not
    cancelled. *)
Definition show_update (s : session) : io (control * session + session) :=
  print (nl +:+ "========== UPDATED BEDTIME STORY ==========" +:+ nl);;
  print (story s);;
  print (nl +:+ "==========================================" +:+ nl);;
  (if show_judge_info then
     print "Judge Summary:";;
     print ("- Score: " +:+ py_str (dict_get "score" PNone (verdict s)));;
     print ("- Needs revision? " +:+ py_str (dict_get "needs_revision" PNone (verdict s)));;
     print ("- Safety notes: " +:+ py_str (dict_get "safety_warnings" PNone (verdict s)));;
     print ("- Feedback: " +:+ py_str (dict_get "feedback_for_author" PNone (verdict s)))
   else mret tt);;
  mret (inl (Menu, s)).

(** From the test of [choice] to the end of the loop body. *)
Definition action_step (choice : string) (s : session)
    : io (control * session + session) :=
  if String.eqb choice "2" then
    print (nl +:+ ln "How would you like to change this story?" +:+
           ln "For example: 'make it sillier', 'shorter', 'add a dragon friend', etc.");;
    line ← input "Your suggestions (or press Enter to cancel): ";
    let mod_ := strip line in
    if String.eqb mod_ EmptyString then
      print "No suggestions provided. Keeping the story as is.";;
      mret (inl (Menu, set_customizations_used (customizations_used s - 1) s))
    else
      print (nl +:+ "Revising your story based on your suggestions..." +:+ nl);;
      new_story ← revise_story (current_request s) (story s) (verdict s)
                    (reading_level s) (Some mod_);
      new_verdict ← judge_story (current_request s) new_story (reading_level s);
      show_update (set_story_verdict (new_story, new_verdict) s)
  else if String.eqb choice "3" then
    print (nl +:+ "Okay! Let's pick a new reading level." +:+ nl);;
    lvl ← select_reading_level;
    let s := set_reading_level lvl s in
    print (nl +:+ "Regenerating the story with the new reading level..." +:+ nl);;
    sv ← generate_story_with_judge (current_request s) (reading_level s);
    show_update (set_story_verdict sv s)
  else if String.eqb choice "4" then
    print (nl +:+ ln "What would you like your new main story request to be?" +:+
           ln "You can completely change it or build on your previous idea.");;
    line ← input "New main request (or press Enter to cancel): ";
    let new_req := strip line in
    if String.eqb new_req EmptyString then
      print "No new request provided. Keeping the previous request.";;
      mret (inl (Menu, set_customizations_used (customizations_used s - 1) s))
    else
      let s := set_current_request new_req s in
      print (nl +:+ "Regenerating the story with your new request..." +:+ nl);;
      sv ← generate_story_with_judge (current_request s) (reading_level s);
      show_update (set_story_verdict sv s)
  else
    show_update s.

(** One stretch of the loop body, between two of its control points. *)
Definition loop_step (cs : control * session)
    : io (control * session + session) :=
  match cs.1 with
  | Menu => menu_step cs.2
  | Action choice => action_step choice cs.2
  end.

Definition initial_session (initial_request initial_story : string)
    (initial_verdict : gmap string py_value) (reading_level : string)
    : session :=
  {| story := initial_story; verdict := initial_verdict;
     current_request := initial_request;
     reading_level := reading_level; customizations_used := 0 |}.

(** Every stretch that does not return reads a line, so the loop ends
    within one more stretch than there are lines. *)
Definition customization_menu (initial_request initial_story : string)
    (initial_verdict : gmap string py_value) (reading_level : string)
    : io (string * gmap string py_value) :=
  let s := initial_session initial_request initial_story initial_verdict
             reading_level in
  s ← ((fun w => while_true (S (length (stdin w))) loop_step (Menu, s) w)
         : io session);
  mret (story s, verdict s).

End Menu.

End Program.

(** ** A JSON decoder

    [Json.loads] decodes a document the way [json.loads] does: white space
    around tokens, [null], [true], [false], [NaN], [Infinity], [-Infinity],
    numbers (an integer literal gives an [int], a fraction or an exponent a
    float), strings with their escapes, arrays, and objects in which the last
    of several equal keys wins.  [None] stands for [JSONDecodeError].  Two
    limits of the interpreter are left out: the one on the depth of nesting
    and the one on the number of digits of an integer literal. *)

Module Json.

Definition is_ws (c : ascii) : bool :=
  bool_decide (nat_of_ascii c ∈ [32; 9; 10; 13]%nat).

Fixpoint skip_ws (s : string) : string :=
  match s with
  | String c s' => if is_ws c then skip_ws s' else s
  | EmptyString => s
  end.

Definition digit (c : ascii) : option Z :=
  let n := Z.of_nat (nat_of_ascii c) in
  if (48 <=? n) && (n <=? 57) then Some (n - 48) else None.

Definition hex_digit (c : ascii) : option Z :=
  let n := Z.of_nat (nat_of_ascii c) in
  if (48 <=? n) && (n <=? 57) then Some (n - 48)
  else if (65 <=? n) && (n <=? 70) then Some (n - 55)
  else if (97 <=? n) && (n <=? 102) then Some (n - 87)
  else None.

(** The longest run of digits at the head of [s]: their value so far, how
    many there are, and the rest. *)
Fixpoint digits (acc : Z) (count : Z) (s : string) : Z * Z * string :=
  match s with
  | String c s' =>
      match digit c with
      | Some d => digits (10 * acc + d) (count + 1) s'
      | None => (acc, count, s)
      end
  | EmptyString => (acc, count, s)
  end.

(** The integer part [0|[1-9][0-9]*]. *)
Definition integer_part (s : string) : option (Z * string) :=
  match s with
  | String c s' =>
      match digit c with
      | Some 0 => Some (0, s')
      | Some d => let '(n, _, rest) := digits d 1 s' in Some (n, rest)
      | None => None
      end
  | EmptyString => None
  end.

(** The fraction [\.[0-9]+], when there is one. *)
Definition fraction_part (s : string) : option (Z * Z * string) :=
  match s with
  | String "."%char s' =>
      let '(n, count, rest) := digits 0 0 s' in
      if 0 <? count then Some (n, count, rest) else None
  | _ => None
  end.

(** The exponent [[eE][-+]?[0-9]+], when there is one. *)
Definition exponent_part (s : string) : option (Z * string) :=
  let signed (sign : Z) (s' : string) :=
    let '(n, count, rest) := digits 0 0 s' in
    if 0 <? count then Some (sign * n, rest) else None in
  match s with
  | String c s' =>
      if bool_decide (c = "e"%char ∨ c = "E"%char) then
        match s' with
        | String "-"%char s'' => signed (-1) s''
        | String "+"%char s'' => signed 1 s''
        | _ => signed 1 s'
        end
      else None
  | EmptyString => None
  end.

(** A number, read with the sign [sign]. *)
Definition number (sign : Z) (s : string) : option (py_value * string) :=
  '(int, rest) ← integer_part s;
  match fraction_part rest with
  | Some (frac, count, rest) =>
      let mantissa := sign * (int * 10 ^ count + frac) in
      match exponent_part rest with
      | Some (e, rest) => Some (PFloat mantissa (e - count), rest)
      | None => Some (PFloat mantissa (- count), rest)
      end
  | None =>
      match exponent_part rest with
      | Some (e, rest) => Some (PFloat (sign * int) e, rest)
      | None => Some (PInt (sign * int), rest)
      end
  end.

Definition byte (n : Z) : ascii := ascii_of_nat (Z.to_nat n).

(** The UTF-8 bytes of a code point, put in front of [s]. *)
Definition utf8 (u : Z) (s : string) : string :=
  if u <? 128 then String (byte u) s
  else if u <? 2048 then
    String (byte (192 + u / 64)) (String (byte (128 + u mod 64)) s)
  else if u <? 65536 then
    String (byte (224 + u / 4096))
      (String (byte (128 + (u / 64) mod 64))
         (String (byte (128 + u mod 64)) s))
  else
    String (byte (240 + u / 262144))
      (String (byte (128 + (u / 4096) mod 64))
         (String (byte (128 + (u / 64) mod 64))
            (String (byte (128 + u mod 64)) s))).

(** Four hexadecimal digits. *)
Definition hex4 (s : string) : option (Z * string) :=
  match s with
  | String a (String b (String c (String d rest))) =>
      a ← hex_digit a; b ← hex_digit b; c ← hex_digit c; d ← hex_digit d;
      Some (((a * 16 + b) * 16 + c) * 16 + d, rest)
  | _ => None
  end.

(** The code point of a [\u] escape whose four digits gave [u]: a high
    surrogate followed by the escape of a low one makes one character. *)
Definition code_point (u : Z) (rest : string) : Z * string :=
  if (55296 <=? u) && (u <=? 56319) then
    match rest with
    | String "\"%char (String "u"%char rest') =>
        match hex4 rest' with
        | Some (u2, rest'') =>
            if (56320 <=? u2) && (u2 <=? 57343)
            then (65536 + (u - 55296) * 1024 + (u2 - 56320), rest'')
            else (u, rest)
        | None => (u, rest)
        end
    | _ => (u, rest)
    end
  else (u, rest).

(** The body of a string, after its opening quote; [fuel] bounds the number
    of characters read. *)
Fixpoint string_body (fuel : nat) (s : string) : option (string * string) :=
  match fuel, s with
  | S fuel, String c s' =>
      if bool_decide (c = "034"%char) then Some (EmptyString, s')
      else if bool_decide (c = "\"%char) then
        match s' with
        | String e s'' =>
            let simple (b : Z) :=
              '(text, rest) ← string_body fuel s''; Some (String (byte b) text, rest) in
            if bool_decide (e = "034"%char) then simple 34
            else if bool_decide (e = "\"%char) then simple 92
            else if bool_decide (e = "/"%char) then simple 47
            else if bool_decide (e = "b"%char) then simple 8
            else if bool_decide (e = "f"%char) then simple 12
            else if bool_decide (e = "n"%char) then simple 10
            else if bool_decide (e = "r"%char) then simple 13
            else if bool_decide (e = "t"%char) then simple 9
            else if bool_decide (e = "u"%char) then
              '(u, rest) ← hex4 s'';
              let '(u, rest) := code_point u rest in
              '(text, rest) ← string_body fuel rest;
              Some (utf8 u text, rest)
            else None
        | EmptyString => None
        end
      else if (nat_of_ascii c <? 32)%nat then None
      else '(text, rest) ← string_body fuel s'; Some (String c text, rest)
  | _, _ => None
  end.

Definition literal (word : string) (v : py_value) (s : string)
    : option (py_value * string) :=
  if String.prefix word s
  then Some (v, String.substring (String.length word) (String.length s) s)
  else None.

(** A value at the head of [s], then the elements of an array after its
    first bracket, then the members of an object from a key on. *)
Fixpoint value (fuel : nat) (s : string) : option (py_value * string) :=
  match fuel, s with
  | S fuel, String c s' =>
      if bool_decide (c = "034"%char) then
        '(text, rest) ← string_body (String.length s') s'; Some (PStr text, rest)
      else if bool_decide (c = "{"%char) then
        match skip_ws s' with
        | String "}"%char rest => Some (PDict ∅, rest)
        | rest => '(d, rest) ← members fuel ∅ rest; Some (PDict d, rest)
        end
      else if bool_decide (c = "["%char) then
        match skip_ws s' with
        | String "]"%char rest => Some (PList [], rest)
        | rest => '(l, rest) ← elements fuel [] rest; Some (PList l, rest)
        end
      else if bool_decide (c = "n"%char) then literal "null" PNone s
      else if bool_decide (c = "t"%char) then literal "true" (PBool true) s
      else if bool_decide (c = "f"%char) then literal "false" (PBool false) s
      else
        match (if bool_decide (c = "-"%char) then number (-1) s' else number 1 s) with
        | Some r => Some r
        | None =>
            if bool_decide (c = "N"%char) then literal "NaN" PNaN s
            else if bool_decide (c = "I"%char) then literal "Infinity" (PInfinity false) s
            else if bool_decide (c = "-"%char) then literal "-Infinity" (PInfinity true) s
            else None
        end
  | _, _ => None
  end
with elements (fuel : nat) (acc : list py_value) (s : string)
    : option (list py_value * string) :=
  match fuel with
  | S fuel =>
      '(v, rest) ← value fuel s;
      match skip_ws rest with
      | String "]"%char rest => Some (acc ++ [v], rest)
      | String ","%char rest => elements fuel (acc ++ [v]) (skip_ws rest)
      | _ => None
      end
  | O => None
  end
with members (fuel : nat) (acc : gmap string py_value) (s : string)
    : option (gmap string py_value * string) :=
  match fuel, s with
  | S fuel, String c s' =>
      if bool_decide (c = "034"%char) then
        '(key, rest) ← string_body (String.length s') s';
        match skip_ws rest with
        | String ":"%char rest =>
            '(v, rest) ← value fuel (skip_ws rest);
            match skip_ws rest with
            | String "}"%char rest => Some (<[key := v]> acc, rest)
            | String ","%char rest =>
                members fuel (<[key := v]> acc) (skip_ws rest)
            | _ => None
            end
        | _ => None
        end
      else None
  | _, _ => None
  end.

Definition loads (s : string) : option py_value :=
  let s := skip_ws s in
  '(v, rest) ← value (S (String.length s)) s;
  match skip_ws rest with
  | EmptyString => Some v
  | _ => None
  end.

End Json.

(** ** Observations on a run *)

Definition chat_calls (evs : list event) : list chat_call :=
  flat_map (fun e => match e with Chatted call _ => [call] | _ => [] end) evs.

Definition lines_read (evs : list event) : list string :=
  flat_map (fun e => match e with Read line => [line] | _ => [] end) evs.

Definition system_prompt_of (call : chat_call) : string :=
  match messages call with
  | m :: _ => content m
  | [] => EmptyString
  end.

(** A call made by [revise_story]: its system prompt opens with the
    reviser's instruction. *)
Definition is_revision_call (call : chat_call) : bool :=
  starts_with "Revise the bedtime story" (system_prompt_of call).

Definition revisions (evs : list event) : nat :=
  length (List.filter is_revision_call (chat_calls evs)).

(** What the menu prints before it looks at the budget. *)
Definition menu_lines (remaining : Z) : list string :=
  [ nl +:+ "What would you like to do next?";
    "1. I'm happy with this story! (exit)";
    "2. Add suggestions to improve this story.";
    "3. Change the reading level & regenerate.";
    "4. Change the original story request & regenerate.";
    "You have " +:+ pretty remaining +:+ " customization(s) remaining." ].

Definition printed (texts : list string) : list event :=
  map (fun text => Wrote (ln text)) texts.

(** A call finishes when it returns or raises: the bound of a loop of the
    model was not reached. *)
Definition finishes {A : Type} (r : outcome A) : Prop :=
  match r with
  | Exhausted _ => False
  | _ => True
  end.

(** The fields of the verdict and what the judge is told to put in them:
    [score] a number from 0 to 10, [needs_revision] a boolean, the other two
    text. *)
Definition verdict_keys : list string :=
  ["score"; "needs_revision"; "feedback_for_author"; "safety_warnings"].

(** A float is compared as the decimal that its literal denotes. *)
Definition in_range_0_10 (v : py_value) : bool :=
  match v with
  | PInt z => (0 <=? z) && (z <=? 10)
  | PFloat m e =>
      (0 <=? m) &&
      (if 0 <=? e then m * 10 ^ e <=? 10 else m <=? 10 * 10 ^ (- e))
  | _ => false
  end.

Definition is_number (v : py_value) : bool :=
  match v with PInt _ | PFloat _ _ => true | _ => false end.

Definition is_boolean (v : py_value) : bool :=
  match v with PBool _ => true | _ => false end.

Definition is_text (v : py_value) : bool :=
  match v with PStr _ => true | _ => false end.

Definition field_well_typed (k : string) (v : py_value) : bool :=
  if String.eqb k "score" then in_range_0_10 v
  else if String.eqb k "needs_revision" then is_boolean v
  else if String.eqb k "feedback_for_author" then is_text v
  else if String.eqb k "safety_warnings" then is_text v
  else true.

(** A decoded response has the format the judge was asked for. *)
Definition expected_structure (v : py_value) : bool :=
  match v with
  | PDict d =>
      forallb (fun k => match d !! k with
                        | Some x => if String.eqb k "score" then is_number x
                                    else field_well_typed k x
                        | None => false
                        end) verdict_keys
  | _ => false
  end.

(** A response the judge's caller can parse as that format. *)
Definition parses_as_expected `{!Runtime} (raw : string) : bool :=
  match json_loads raw with
  | Some v => expected_structure v
  | None => false
  end.

(** ** Runs of the customization loop *)

Section Runs.

Context `{!Runtime}.
Variable show_judge_info : bool.
Variable max_customizations : Z.

(** A point of a run: the loop stands at a control point with its
    variables, or the function has returned with them. *)
Definition config : Type := (control * session + session)%type.

Definition session_of (c : config) : session :=
  match c with inl cs => cs.2 | inr s => s end.

Definition menus_of (cs : control * session) : nat :=
  match cs.1 with Menu => 1 | Action _ => 0 end.

(** The world in which the menu stretch looks at the choice [line]. *)
Definition after_choice (s : session) (w : world) (line : string)
    (rest : list string) : world :=
  {| stdin := rest;
     trace :=
       (trace
          (foldl (fun w e => record e w) w
             (printed
                (menu_lines (max_customizations - customizations_used s))))
        ++ [Wrote "Enter 1–4: "]) ++ [Read line] |}.

(** [execution n c w c' w']: from [c] in the world [w] the loop gets to
    [c'] in [w'], presenting the menu [n] times on the way. *)
Inductive execution : nat -> config -> world -> config -> world -> Prop :=
| execution_here c w : execution 0 c w c w
| execution_step cs w c' w' n c'' w'' :
    loop_step show_judge_info max_customizations cs w = Returned c' w' ->
    execution n c' w' c'' w'' ->
    execution (menus_of cs + n) (inl cs) w c'' w''.

(** The lines a requester types for one action that is not cancelled:
    accept; a suggestion; a new reading level, after any number of refused
    entries; a new request. *)
Inductive turn : list string -> Prop :=
| turn_accept l : strip l = "1" -> turn [l]
| turn_suggest l text :
    strip l = "2" -> strip text ≠ EmptyString -> turn [l; text]
| turn_level l refused lvl :
    strip l = "3" ->
    Forall (fun x => strip x ∉ ({[ "1"; "2"; "3" ]} : gset string)) refused ->
    strip lvl ∈ ({[ "1"; "2"; "3" ]} : gset string) ->
    turn (l :: refused ++ [lvl])
| turn_request l text :
    strip l = "4" -> strip text ≠ EmptyString -> turn [l; text].

Definition accepts (lines : list string) : Prop :=
  match lines with
  | l :: _ => strip l = "1"
  | [] => False
  end.

(** The loop stands at the menu with [customizations_used] within the
    budget, or after the increment with it between 1 and the budget, on a
    choice that is one of 2, 3 and 4. *)
Definition within_budget (cs : control * session) : Prop :=
  match cs.1 with
  | Menu => 0 <= customizations_used cs.2 <= max_customizations
  | Action choice =>
      1 <= customizations_used cs.2 <= max_customizations /\
      choice ∈ ({[ "2"; "3"; "4" ]} : gset string)
  end.

Definition config_within_budget (c : config) : Prop :=
  match c with
  | inl cs => within_budget cs
  | inr s => 0 <= customizations_used s <= max_customizations
  end.

(** The choice that the action stretch acts on is one of the three that
    lead to it. *)
Definition choice_known (cs : control * session) : Prop :=
  match cs.1 with
  | Menu => True
  | Action choice => choice ∈ ({[ "2"; "3"; "4" ]} : gset string)
  end.

End Runs.

(** The service never fails. *)
Definition reliable `{!Runtime} : Prop :=
  forall history call, completion history call ≠ Failure.

(** ** A runtime to run the program on

    The service answers from a script: its [n]-th call gets the [n]-th
    entry, and [fallback] after the script.  [repr] is exact on [None],
    booleans and integers, which is all the runs below format. *)

Definition scripted (script : list chat_reply) (fallback : chat_reply)
    (history : list event) (_ : chat_call) : chat_reply :=
  nth (length (chat_calls history)) script fallback.

Definition sample_repr (v : py_value) : string :=
  match v with
  | PNone => "None"
  | PBool true => "True"
  | PBool false => "False"
  | PInt z => pretty z
  | _ => "..."
  end.

Definition sample_runtime (script : list chat_reply) (fallback : chat_reply)
    : Runtime :=
  {| completion := scripted script fallback;
     json_loads := Json.loads;
     py_repr := sample_repr |}.

Definition start (lines : list string) : world :=
  {| stdin := lines; trace := [] |}.

(** Responses as the service would send them: an object with the one field
    score, of value 42, and an object with the four fields of the verdict. *)
Definition json_score_42 : string :=
  "{" +:+ dq +:+ "score" +:+ dq +:+ ": 42}".

Definition json_verdict (score : string) (needs_revision : string) : string :=
  "{" +:+ dq +:+ "score" +:+ dq +:+ ": " +:+ score +:+ ", " +:+
  dq +:+ "needs_revision" +:+ dq +:+ ": " +:+ needs_revision +:+ ", " +:+
  dq +:+ "feedback_for_author" +:+ dq +:+ ": " +:+ dq +:+ "Fine." +:+ dq +:+ ", " +:+
  dq +:+ "safety_warnings" +:+ dq +:+ ": " +:+ dq +:+ dq +:+ "}".

(** The service sends back a text that is no JSON document. *)
Definition chatty : Runtime := sample_runtime [Content "Not JSON at all"] Failure.

(** The service sends back the empty object. *)
Definition terse : Runtime := sample_runtime [Content "{}"] Failure.

(** The service sends back a score of 42. *)
Definition generous : Runtime := sample_runtime [Content json_score_42] Failure.

(** Every answer of the service is the same short story; read as a verdict
    it does not parse. *)
Definition storyteller : Runtime :=
  sample_runtime [] (Content "Once upon a time, Mia found a kite.").

(** The storyteller writes, the judge asks for a revision, the reviser
    writes, and the judge asks for a revision again. *)
Definition demanding : Runtime :=
  sample_runtime
    [ Content "A story."; Content (json_verdict "3" "true");
      Content "A better story."; Content (json_verdict "4" "true") ]
    Failure.

Definition sample_session (used : Z) : session :=
  {| story := "A story."; verdict := fail_closed_verdict;
     current_request := "a cat"; reading_level := "2";
     customizations_used := used |}.

(** ** The rest of the script: the client, the second question, [main] *)

(** [str.lower()] on the letters A to Z.  Python also lowers letters outside
    ASCII; none of them becomes a letter of the words that the answer below
    is compared with, so the comparison is the one Python makes. *)
Definition lower_char (c : ascii) : ascii :=
  let n := nat_of_ascii c in
  if ((65 <=? n) && (n <=? 90))%nat then ascii_of_nat (n + 32) else c.

Fixpoint lower (s : string) : string :=
  match s with
  | EmptyString => EmptyString
  | String c s' => String (lower_char c) (lower s')
  end.

(** What [get_client] gives: the client, known here by its key, or the
    [RuntimeError] it raises. *)
Inductive client_result : Type :=
| Client (api_key : string)
| RuntimeError (message : string).

(** [get_client], on the environment of the process as [load_dotenv] leaves
    it.  [os.getenv] gives [None] for a variable that is not set, and
    [not api_key] holds for [None] and for the empty string. *)
Definition get_client (environ : gmap string string) : client_result :=
  let api_key := environ !! "OPENAI_API_KEY" in
  match api_key with
  | Some key =>
      if String.eqb key EmptyString then
        RuntimeError "OPENAI_API_KEY is not set. Please add it to your .env file or environment."
      else Client key
  | None =>
      RuntimeError "OPENAI_API_KEY is not set. Please add it to your .env file or environment."
  end.

Definition ask_show_judge_info_body (_ : unit) : io (unit + bool) :=
  line ← input "> ";
  let ans := lower (strip line) in
  if bool_decide (ans ∈ ({[ "y"; "yes" ]} : gset string)) then
    mret (inr true)
  else if bool_decide (ans ∈ ({[ "n"; "no" ]} : gset string)) then
    mret (inr false)
  else
    print "Please type 'y' or 'n'.";;
    mret (inl tt).

(** Every round of the loop reads a line, as in [select_reading_level]. *)
Definition ask_show_judge_info : io bool :=
  print (nl +:+ "Would you like to see behind-the-scenes judge ratings and safety notes?");;
  print "This is mostly for parents or adults. (y/n)";;
  ((fun w => while_true (S (length (stdin w))) ask_show_judge_info_body tt w)
     : io bool).

Section Main.

Context `{!Runtime}.

Definition main : io unit :=
  print ("🌙 Welcome to the Hippocratic Bedtime Story Generator! 🌙" +:+ nl);;
  print ("This tool creates safe, cozy bedtime stories for kids ages 5–10." +:+ nl);;
  user_request ← input "What kind of bedtime story would you like? ";
  reading_level ← select_reading_level;
  show_judge ← ask_show_judge_info;
  print (nl +:+ "Generating your story with our storyteller and judge..." +:+ nl);;
  sv ← generate_story_with_judge user_request reading_level;
  print ("========== YOUR BEDTIME STORY ==========" +:+ nl);;
  print sv.1;;
  print (nl +:+ "========================================" +:+ nl);;
  (if show_judge then
     print "Judge Summary:";;
     print ("- Score: " +:+ py_str (dict_get "score" PNone sv.2));;
     print ("- Needs revision? " +:+ py_str (dict_get "needs_revision" PNone sv.2));;
     print ("- Safety notes: " +:+ py_str (dict_get "safety_warnings" PNone sv.2));;
     print ("- Feedback: " +:+ py_str (dict_get "feedback_for_author" PNone sv.2))
   else mret tt);;
  customization_menu show_judge 3 user_request sv.1 sv.2 reading_level;;
  print (nl +:+ "🌟 Final story selected. Sweet dreams! 🌟").

(** The module from top to bottom: [client = get_client()] runs when the
    module is loaded, before [main()]. *)
Inductive run : Type :=
| Aborted (message : string)
| Ran (r : outcome unit).

Definition script (environ : gmap string string) (w : world) : run :=
  match get_client environ with
  | RuntimeError message => Aborted message
  | Client _ => Ran (main w)
  end.

(** A request that one of the three agents builds for a reading level of
    the selector. *)
Definition agent_request (call : chat_call) : Prop :=
  exists lvl,
    lvl ∈ ({[ "1"; "2"; "3" ]} : gset string) /\
    ((exists req, call = generate_request req lvl) \/
     (exists req story, call = judge_request req story lvl) \/
     (exists req story feedback instr,
        call = revise_request req story feedback lvl instr)).

End Main.

(** How the two questions read a line: the level it names, the answer it
    gives, or nothing. *)
Definition level_of (line : string) : option string :=
  if bool_decide (strip line ∈ ({[ "1"; "2"; "3" ]} : gset string))
  then Some (strip line) else None.

Definition answer_of (line : string) : option bool :=
  if bool_decide (lower (strip line) ∈ ({[ "y"; "yes" ]} : gset string))
  then Some true
  else if bool_decide (lower (strip line) ∈ ({[ "n"; "no" ]} : gset string))
  then Some false
  else None.

Section Accounts.

Context `{!Runtime}.

(** Every request that the three agents build for the level [lvl] has the
    property [P]. *)
Definition serves (P : chat_call -> Prop) (lvl : string) : Prop :=
  forall req story feedback instr,
    P (generate_request req lvl) /\
    P (judge_request req story lvl) /\
    P (revise_request req story feedback lvl instr).

(** From [w] to [w'] the trace has only grown, by at most [n] requests to
    the service, each with the property [P]. *)
Definition spent (P : chat_call -> Prop) (n : Z) (w w' : world) : Prop :=
  exists evs,
    trace w' = trace w ++ evs /\
    Forall P (chat_calls evs) /\
    Z.of_nat (length (chat_calls evs)) <= n.

(** The trace of [w] holds the judge's request about this story, for this
    request and level, and [verdict] is what the judge made of the answer. *)
Definition judged (req story lvl : string) (verdict : gmap string py_value)
    (w : world) : Prop :=
  exists raw,
    Chatted (judge_request req story lvl) (Content raw) ∈ trace w /\
    verdict = verdict_of_response raw.

Definition session_judged (s : session) (w : world) : Prop :=
  judged (current_request s) (story s) (reading_level s) (verdict s) w.

(** What the action stretch leaves when it returns: a cancellation, an
    action carried out, or nothing for a choice that is no action. *)
Definition action_post (P : chat_call -> Prop) (choice : string) (s : session)
    (w : world) (c : control * session + session) (w' : world) : Prop :=
  exists s',
    c = inl (Menu, s') /\
    (((choice = "2" \/ choice = "4") /\
      s' = set_customizations_used (customizations_used s - 1) s /\
      spent P 0 w w') \/
     (customizations_used s' = customizations_used s /\
      spent P 4 w w' /\
      session_judged s' w' /\
      ((choice = "2" /\ current_request s' = current_request s /\
        reading_level s' = reading_level s) \/
       (choice = "3" /\ current_request s' = current_request s /\
        reading_level s' ∈ ({[ "1"; "2"; "3" ]} : gset string)) \/
       (choice = "4" /\ reading_level s' = reading_level s /\
        current_request s' ≠ EmptyString))) \/
     ((choice ∉ ({[ "2"; "3"; "4" ]} : gset string)) /\ s' = s /\
      spent P 0 w w')).

(** What holds whenever the loop of the menu, started in [w0] on the story
    [story0] with the verdict [verdict0], stands at a control point: the
    budget is kept, the requests so far number at most four for each action
    carried out, and the story is the first one or has been judged. *)
Definition menu_invariant (P : chat_call -> Prop) (max_customizations : Z)
    (w0 : world) (story0 : string) (verdict0 : gmap string py_value)
    (cs : control * session) (w : world) : Prop :=
  within_budget max_customizations cs /\
  serves P (reading_level cs.2) /\
  spent P
    (4 * (customizations_used cs.2 -
          match cs.1 with Menu => 0 | Action _ => 1 end)) w0 w /\
  ((story cs.2, verdict cs.2) = (story0, verdict0) \/ session_judged cs.2 w).

End Accounts.

(** What holds of a call's outcome: [Q] of the value and the world when it
    returns, [E] of the world when it stops otherwise. *)
Definition ensures {A : Type} (r : outcome A) (Q : A -> world -> Prop)
    (E : world -> Prop) : Prop :=
  match r with
  | Returned a w' => Q a w'
  | Raised _ w' => E w'
  | Exhausted w' => E w'
  end.

(** The events that a call adds to the trace. *)
Definition extends_by (w w' : world) (evs : list event) : Prop :=
  trace w' = trace w ++ evs.

(** A reply of the service with content. *)
Definition answered (e : event) : Prop :=
  match e with
  | Chatted _ Failure => False
  | _ => True
  end.

(** * Properties *)

(** ** The world and the monad *)

Lemma stdin_record e w : stdin (record e w) = stdin w.
Proof. reflexivity. Qed.

Lemma trace_record e w : trace (record e w) = trace w ++ [e].
Proof. reflexivity. Qed.

Lemma chat_calls_app evs evs' :
  chat_calls (evs ++ evs') = chat_calls evs ++ chat_calls evs'.
Proof. apply flat_map_app. Qed.

Lemma lines_read_app evs evs' :
  lines_read (evs ++ evs') = lines_read evs ++ lines_read evs'.
Proof. apply flat_map_app. Qed.

Lemma revisions_app evs evs' :
  revisions (evs ++ evs') = (revisions evs + revisions evs')%nat.
Proof.
  unfold revisions. by rewrite chat_calls_app, List.filter_app, length_app.
Qed.

Lemma bind_returned {A B : Type} (m : io A) (f : A -> io B) w b w'' :
  (m ≫= f) w = Returned b w'' ->
  exists a w', m w = Returned a w' /\ f a w' = Returned b w''.
Proof.
  unfold mbind, io_bind. destruct (m w) as [a w'|e w'|w']; [eauto|done..].
Qed.

Lemma bind_step {A B : Type} (m : io A) (f : A -> io B) w a w' :
  m w = Returned a w' -> (m ≫= f) w = f a w'.
Proof. unfold mbind, io_bind. by intros ->. Qed.

Lemma bind_print {B : Type} text (k : io B) w :
  (print text;; k) w = k (record (Wrote (ln text)) w).
Proof. reflexivity. Qed.

Lemma bind_input {B : Type} prompt (k : string -> io B) w line rest :
  stdin w = line :: rest ->
  (input prompt ≫= k) w =
  k line {| stdin := rest; trace := (trace w ++ [Wrote prompt]) ++ [Read line] |}.
Proof.
  intros Hin. unfold mbind, io_bind, input. simpl. by rewrite Hin.
Qed.

(** The observations that the claims below are about, on a world reached by
    writing and reading only. *)
Ltac observe :=
  repeat first
    [ progress rewrite ?stdin_record, ?trace_record, ?chat_calls_app,
        ?lines_read_app, ?revisions_app
    | progress cbn [stdin trace chat_calls lines_read flat_map app]
    | progress rewrite ?app_nil_r ].

(** ** Calls to the service *)

Section Service.

Context `{!Runtime}.

Lemma call_chat_outcome messages max_tokens temperature w :
  call_chat messages max_tokens temperature w =
  let call := chat_request messages max_tokens temperature in
  let w' := record (Chatted call (completion (trace w) call)) w in
  match completion (trace w) call with
  | Content text => Returned text w'
  | Failure => Raised TransportError w'
  end.
Proof. reflexivity. Qed.

Lemma call_chat_returned messages max_tokens temperature w text w' :
  call_chat messages max_tokens temperature w = Returned text w' ->
  completion (trace w) (chat_request messages max_tokens temperature) =
    Content text /\
  w' = record (Chatted (chat_request messages max_tokens temperature)
                 (Content text)) w.
Proof.
  rewrite call_chat_outcome. cbv zeta.
  destruct (completion _ _) as [text'|]; [|done].
  intros [= -> <-]. done.
Qed.

Lemma call_chat_final_world messages max_tokens temperature w :
  final_world (call_chat messages max_tokens temperature w) =
  record (Chatted (chat_request messages max_tokens temperature)
            (completion (trace w)
               (chat_request messages max_tokens temperature))) w.
Proof.
  rewrite call_chat_outcome. cbv zeta. by destruct (completion _ _).
Qed.

Lemma judge_story_outcome user_request story reading_level w :
  judge_story user_request story reading_level w =
  let call := judge_request user_request story reading_level in
  let w' := record (Chatted call (completion (trace w) call)) w in
  match completion (trace w) call with
  | Content raw => Returned (verdict_of_response raw) w'
  | Failure => Raised TransportError w'
  end.
Proof.
  unfold judge_story, mbind, io_bind. rewrite call_chat_outcome. cbv zeta.
  fold (judge_request user_request story reading_level).
  destruct (completion _ _) as [raw|]; [|done].
  unfold verdict_of_response. by destruct (parse_verdict raw).
Qed.

Lemma judge_story_returned user_request story reading_level w v w' :
  judge_story user_request story reading_level w = Returned v w' ->
  exists raw,
    completion (trace w) (judge_request user_request story reading_level) =
      Content raw /\
    v = verdict_of_response raw /\
    w' = record (Chatted (judge_request user_request story reading_level)
                   (Content raw)) w.
Proof.
  rewrite judge_story_outcome. cbv zeta.
  destruct (completion _ _) as [raw|]; [|done].
  intros [= <- <-]. eauto.
Qed.

Lemma setdefault_lookup k v d k' :
  setdefault k v d !! k' =
  match d !! k' with
  | Some x => Some x
  | None => if decide (k = k') then Some v else None
  end.
Proof.
  unfold setdefault. destruct (d !! k) as [x|] eqn:Hk.
  - destruct (d !! k') as [x'|] eqn:Hk'; [done|].
    case_decide; [congruence|done].
  - rewrite lookup_insert. case_decide as Heq.
    + subst k'. by rewrite Hk.
    + by destruct (d !! k').
Qed.

End Service.

(** ** The customization loop, one stretch at a time *)

Section Stretches.

Context `{!Runtime}.
Variable show_judge_info : bool.
Variable max_customizations : Z.

Lemma set_customizations_used_undo (s : session) :
  set_customizations_used
    (customizations_used
       (set_customizations_used (customizations_used s + 1) s) - 1)
    (set_customizations_used (customizations_used s + 1) s) = s.
Proof.
  destruct s as [st v rq lv u]. unfold set_customizations_used. cbn.
  f_equal. lia.
Qed.

(** The menu stretch when the budget is used up. *)
Lemma menu_step_exhausted (s : session) (w : world) :
  max_customizations - customizations_used s <= 0 ->
  menu_step max_customizations s w =
  Returned (inr s)
    (foldl (fun w e => record e w) w
       (printed
          (menu_lines (max_customizations - customizations_used s) ++
           [ nl +:+ "You’ve reached the maximum number of customizations.";
             "Keeping the current story as your final version. 🌟" ]))).
Proof.
  intros Hle. unfold menu_step. rewrite !bind_print.
  destruct (Z.leb_spec (max_customizations - customizations_used s) 0); [|lia].
  by rewrite !bind_print.
Qed.

(** The menu stretch when there is budget left and a line to read. *)
Lemma menu_step_choice (s : session) (w : world) line rest :
  0 < max_customizations - customizations_used s ->
  stdin w = line :: rest ->
  menu_step max_customizations s w =
  (let choice := strip line in
   if String.eqb choice "1" then mret (inr s)
   else if negb (bool_decide (choice ∈ ({[ "2"; "3"; "4" ]} : gset string))) then
     print "Please enter a valid option (1, 2, 3, or 4).";;
     mret (inl (Menu, s))
   else
     mret (inl (Action choice,
                set_customizations_used (customizations_used s + 1) s)))
    (after_choice max_customizations s w line rest).
Proof.
  intros Hlt Hin. unfold menu_step. rewrite !bind_print.
  destruct (Z.leb_spec (max_customizations - customizations_used s) 0); [lia|].
  by erewrite bind_input.
Qed.

Lemma after_choice_chat_calls s w line rest :
  chat_calls (trace (after_choice max_customizations s w line rest)) = chat_calls (trace w).
Proof.
  unfold after_choice, menu_lines, printed. cbn [map foldl]. by observe.
Qed.

Lemma after_choice_lines_read s w line rest :
  lines_read (trace (after_choice max_customizations s w line rest)) =
  lines_read (trace w) ++ [line].
Proof.
  unfold after_choice, menu_lines, printed. cbn [map foldl]. by observe.
Qed.



(** C8.  A choice other than 1, 2, 3 and 4 is refused: the loop is back at
    the top of its body, where it shows the menu again, with every variable
    (story, verdict, request, reading level, [customizations_used]) as it
    was; the service is not called. *)
Theorem invalid_choice_reprompts (s : session) (w : world) line rest :
  0 < max_customizations - customizations_used s ->
  stdin w = line :: rest ->
  strip line ∉ ({[ "1"; "2"; "3"; "4" ]} : gset string) ->
  exists w',
    menu_step max_customizations s w = Returned (inl (Menu, s)) w' /\
    execution show_judge_info max_customizations 1
      (inl (Menu, s)) w (inl (Menu, s)) w' /\
    stdin w' = rest /\
    chat_calls (trace w') = chat_calls (trace w) /\
    trace w' =
      trace (after_choice max_customizations s w line rest) ++
      printed ["Please enter a valid option (1, 2, 3, or 4)."].
Proof.
  intros Hlt Hin Hout.
  assert (Hstep : menu_step max_customizations s w =
            Returned (inl (Menu, s))
              (record (Wrote (ln "Please enter a valid option (1, 2, 3, or 4)."))
                 (after_choice max_customizations s w line rest))).
  { rewrite (menu_step_choice s w line rest Hlt Hin). cbv zeta.
    destruct (String.eqb_spec (strip line) "1") as [Heq|_];
      [rewrite Heq in Hout; set_solver|].
    rewrite bool_decide_eq_false_2; [reflexivity|].
      intros Hsome. apply Hout. revert Hsome.
      rewrite !elem_of_union, !elem_of_singleton. tauto. }
  eexists. split; [exact Hstep|]. split; [|split; [|split]].
  - change 1%nat with (menus_of (Menu, s) + 0)%nat.
    eapply execution_step; [exact Hstep|constructor].
  - reflexivity.
  - rewrite trace_record, chat_calls_app, after_choice_chat_calls.
    by observe.
  - reflexivity.
Qed.

(** C4.  Suggest edits (choice 2) or change the request (choice 4)
    followed by an empty line, or by white space only, is a cancellation:
    after the two stretches the loop is back at the top of its body with
    every variable as it was, [customizations_used] included, and the
    service has not been called. *)
Theorem cancel_is_free (s : session) (w : world) line text rest :
  0 < max_customizations - customizations_used s ->
  stdin w = line :: text :: rest ->
  strip line = "2" \/ strip line = "4" ->
  strip text = EmptyString ->
  exists w',
    execution show_judge_info max_customizations 1
      (inl (Menu, s)) w (inl (Menu, s)) w' /\
    stdin w' = rest /\
    lines_read (trace w') = lines_read (trace w) ++ [line; text] /\
    chat_calls (trace w') = chat_calls (trace w).
Proof.
  intros Hlt Hin Hchoice Hempty.
  set (s1 := set_customizations_used (customizations_used s + 1) s).
  assert (Hmenu : menu_step max_customizations s w =
            Returned (inl (Action (strip line), s1))
              (after_choice max_customizations s w line (text :: rest))).
  { rewrite (menu_step_choice s w line (text :: rest) Hlt Hin). cbv zeta.
    destruct Hchoice as [-> | ->]; reflexivity. }
  assert (Haction : exists w',
            action_step show_judge_info (strip line) s1
              (after_choice max_customizations s w line (text :: rest)) =
            Returned (inl (Menu, s)) w' /\
            stdin w' = rest /\
            lines_read (trace w') = lines_read (trace w) ++ [line; text] /\
            chat_calls (trace w') = chat_calls (trace w)).
  { unfold action_step.
    destruct Hchoice as [-> | ->]; cbn [String.eqb Ascii.eqb Bool.eqb];
      rewrite bind_print;
      (erewrite bind_input by reflexivity); cbv zeta; rewrite Hempty;
      cbn [String.eqb]; rewrite bind_print;
      unfold s1; rewrite set_customizations_used_undo;
      (eexists; split; [reflexivity|]);
      (split; [reflexivity|]);
      observe; rewrite after_choice_chat_calls, after_choice_lines_read;
      rewrite <- ?app_assoc; done. }
  destruct Haction as (w' & Haction & Hstdin & Hread & Hcalls).
  exists w'. split; [|done].
  change 1%nat with (menus_of (Menu, s) + (menus_of (Action (strip line), s1) + 0))%nat.
  eapply execution_step; [exact Hmenu|].
  eapply execution_step; [exact Haction|constructor].
Qed.

End Stretches.

(** ** The judge *)

Section Judge.

Context `{!Runtime}.

Lemma parse_verdict_object raw d :
  json_loads raw = Some (PDict d) -> parse_verdict raw = Some (with_defaults d).
Proof. intros Hd. unfold parse_verdict. by rewrite Hd. Qed.

Lemma parse_verdict_cases raw :
  (parse_verdict raw = None /\
   (json_loads raw = None \/
    exists v, json_loads raw = Some v /\ as_dict v = None)) \/
  (exists d, json_loads raw = Some (PDict d) /\
             parse_verdict raw = Some (with_defaults d)).
Proof.
  unfold parse_verdict. destruct (json_loads raw) as [v|] eqn:Hv; [|by left; eauto].
  destruct v; try by (left; split; [done|right; eauto]).
  right. eauto.
Qed.

Lemma with_defaults_lookup d k :
  k ∈ verdict_keys ->
  exists x, with_defaults d !! k = Some x /\
            (d !! k = Some x \/ d !! k = None /\ field_well_typed k x = true).
Proof.
  intros Hk. unfold with_defaults. rewrite !setdefault_lookup.
  destruct (d !! k) as [x|]; [by eauto|].
  unfold verdict_keys in Hk.
  repeat (apply elem_of_cons in Hk as [->|Hk]);
    [..|by apply elem_of_nil in Hk];
    (eexists; split; [reflexivity|right; split; [done|reflexivity]]).
Qed.

Lemma fail_closed_lookup k :
  k ∈ verdict_keys ->
  exists x, fail_closed_verdict !! k = Some x /\ field_well_typed k x = true.
Proof.
  intros Hk. unfold verdict_keys in Hk.
  repeat (apply elem_of_cons in Hk as [->|Hk]);
    [..|by apply elem_of_nil in Hk];
    (eexists; split; [reflexivity|reflexivity]).
Qed.

(** C1, as the code has it.  When [json.loads] raises on the evaluator's
    response, or decodes it to anything but an object, [judge_story] returns
    (it does not raise) the fixed fail-closed verdict: score 0,
    [needs_revision] true, the feedback that names conflict, named characters,
    dialogue, simpler language and moral, and the note that parsing failed. *)
Theorem undecodable_response_fails_closed
    (user_request story reading_level : string) (w : world) (raw : string) :
  completion (trace w) (judge_request user_request story reading_level) =
    Content raw ->
  (json_loads raw = None \/
   exists v, json_loads raw = Some v /\ as_dict v = None) ->
  judge_story user_request story reading_level w =
    Returned fail_closed_verdict
      (record (Chatted (judge_request user_request story reading_level)
                 (Content raw)) w) /\
  fail_closed_verdict !! "score" = Some (PInt 0) /\
  fail_closed_verdict !! "needs_revision" = Some (PBool true) /\
  (exists feedback,
     fail_closed_verdict !! "feedback_for_author" = Some (PStr feedback) /\
     Forall (fun word => contains word feedback = true)
       ["conflict"; "named characters"; "dialogue"; "simpler language"; "moral"]) /\
  fail_closed_verdict !! "safety_warnings" = Some (PStr "Parsing failed.").
Proof.
  intros Hreply Hbad. split; [|split; [|split; [|split]]].
  - rewrite judge_story_outcome. cbv zeta. rewrite Hreply.
    unfold verdict_of_response.
    destruct (parse_verdict_cases raw) as [[-> _]|(d & Hd & _)]; [done|].
    destruct Hbad as [Hnone|(v & Hv & Hnot)]; [congruence|].
    rewrite Hd in Hv. by injection Hv as <-.
  - reflexivity.
  - reflexivity.
  - eexists. split; [reflexivity|]. repeat constructor.
  - reflexivity.
Qed.

(** C9, as the code has it.  A verdict that [judge_story] returns has the
    four fields.  When the evaluator's response decodes to an object, every
    field that the object supplies is in the verdict with the supplied
    value, whatever it is, and a field of the four that the object leaves
    out has the default of the code: score the number 0, [needs_revision]
    the boolean [False], the two others the empty text.  In every other
    case the verdict is the fail-closed one: score the number 0,
    [needs_revision] the boolean [True], the two others text. *)
Theorem verdict_has_every_field
    (user_request story reading_level : string) (w : world)
    (v : gmap string py_value) (w' : world) :
  judge_story user_request story reading_level w = Returned v w' ->
  exists raw,
    completion (trace w) (judge_request user_request story reading_level) =
      Content raw /\
    (forall k, k ∈ verdict_keys ->
       exists x, v !! k = Some x /\
         (field_well_typed k x = true \/
          exists d, json_loads raw = Some (PDict d) /\ d !! k = Some x)) /\
    match json_loads raw with
    | Some (PDict d) =>
        (forall k x, d !! k = Some x -> v !! k = Some x) /\
        (d !! "score" = None -> v !! "score" = Some (PInt 0)) /\
        (d !! "needs_revision" = None ->
         v !! "needs_revision" = Some (PBool false)) /\
        (d !! "feedback_for_author" = None ->
         v !! "feedback_for_author" = Some (PStr EmptyString)) /\
        (d !! "safety_warnings" = None ->
         v !! "safety_warnings" = Some (PStr EmptyString))
    | _ =>
        v !! "score" = Some (PInt 0) /\
        v !! "needs_revision" = Some (PBool true) /\
        (exists feedback, v !! "feedback_for_author" = Some (PStr feedback)) /\
        v !! "safety_warnings" = Some (PStr "Parsing failed.")
    end.
Proof.
  intros Hrun.
  apply judge_story_returned in Hrun as (raw & Hreply & -> & _).
  exists raw. split; [done|]. unfold verdict_of_response. split.
  { intros k Hk.
    destruct (parse_verdict_cases raw) as [[-> _]|(d & Hd & ->)].
    - destruct (fail_closed_lookup k Hk) as (x & Hx & Hty). eauto.
    - destruct (with_defaults_lookup d k Hk) as (x & Hx & [Hsupplied|[_ Hty]]).
      + exists x. split; [done|]. right. eauto.
      + eauto. }
  destruct (parse_verdict_cases raw)
    as [[-> [Hnone|(x & Hx & Hnot)]]|(d & Hd & ->)].
  - rewrite Hnone. split; [done|]. split; [done|]. split; [by eexists|done].
  - rewrite Hx. destruct x; try done.
    all: split; [done|]; split; [done|]; split; [by eexists|done].
  - rewrite Hd. split.
    { intros k x Hk. unfold with_defaults. rewrite !setdefault_lookup.
      by rewrite Hk. }
    unfold with_defaults.
    repeat split; intros Hk; rewrite !setdefault_lookup, Hk; reflexivity.
Qed.

End Judge.

(** ** Reading levels *)

Lemma level_labels_unknown (level : string) :
  level ∉ ({[ "1"; "2"; "3" ]} : gset string) -> level_labels !! level = None.
Proof.
  intros Hout. unfold level_labels.
  rewrite !lookup_insert_ne, lookup_singleton_ne; [done|set_solver..].
Qed.

(** C10, as the code has it.  For a reading level other than 1, 2 and 3,
    [get_reading_level_label] returns the label of level 2, and that label is
    the target level named in the prompts of the storyteller, the judge and
    the reviser. *)
Theorem unknown_level_gets_level_2_label (level : string) :
  level ∉ ({[ "1"; "2"; "3" ]} : gset string) ->
  get_reading_level_label level =
    "simple language for ages 7–8, with mostly short sentences (8–14 words) and easy everyday vocabulary" /\
  get_reading_level_label level = get_reading_level_label "2" /\
  (exists rest,
     generate_story_system_prompt level =
     ln "You are a warm, imaginative children's storyteller who tells bedtime stories for kids ages 5 to 10." +:+
     "Target style: " +:+ get_reading_level_label "2" +:+ nl +:+ rest) /\
  (exists rest,
     judge_story_system_prompt level =
     ln "You are a children's book editor reviewing a bedtime story." +:+
     "Target reading level: " +:+ get_reading_level_label "2" +:+ nl +:+ rest) /\
  (exists rest,
     revise_story_system_prompt level =
     ln "Revise the bedtime story using the editor's feedback and the user's suggestions." +:+
     "Keep the reading level: " +:+ get_reading_level_label "2" +:+ nl +:+ rest).
Proof.
  intros Hout.
  assert (Hlabel : get_reading_level_label level = get_reading_level_label "2").
  { unfold get_reading_level_label. cbv zeta.
    by rewrite (level_labels_unknown level Hout). }
  split; [by rewrite Hlabel|]. split; [done|].
  unfold generate_story_system_prompt, judge_story_system_prompt,
    revise_story_system_prompt. cbv zeta. rewrite Hlabel.
  repeat split; eexists; reflexivity.
Qed.

(** ** The pipeline *)

Section Pipeline.

Context `{!Runtime}.

Lemma generate_request_is_no_revision user_request reading_level :
  is_revision_call (generate_request user_request reading_level) = false.
Proof. reflexivity. Qed.

Lemma judge_request_is_no_revision user_request story reading_level :
  is_revision_call (judge_request user_request story reading_level) = false.
Proof. reflexivity. Qed.

Lemma revise_request_is_revision user_request story feedback reading_level instr :
  is_revision_call
    (revise_request user_request story feedback reading_level instr) = true.
Proof. reflexivity. Qed.

Lemma revisions_cons_chatted call reply evs :
  revisions (Chatted call reply :: evs) =
  ((if is_revision_call call then 1 else 0) + revisions evs)%nat.
Proof.
  unfold revisions. cbn [chat_calls flat_map app List.filter].
  by destruct (is_revision_call call).
Qed.

Ltac count_revisions :=
  repeat match goal with x := _ |- _ => subst x end;
  rewrite !revisions_cons_chatted, ?generate_request_is_no_revision,
    ?judge_request_is_no_revision, ?revise_request_is_revision;
  cbn [revisions chat_calls flat_map List.filter length Nat.add];
  try lia.

(** C3.  One call of the pipeline makes at most one call of the reviser,
    however the call ends, and it ends in one of two ways only: it returns,
    every request answered, or it raises the failure of the service at the
    request that failed.  Step by step: it generates a first story and
    judges it; the reviser is called exactly when the first verdict asks for
    a revision, also on a run that fails afterwards; the revision is judged
    once and returned with its verdict, whatever that verdict says;
    otherwise the first story and verdict are returned. *)
Theorem pipeline_revises_at_most_once (user_request reading_level : string)
    (w : world) :
  exists evs,
    trace (final_world (generate_story_with_judge user_request reading_level w))
      = trace w ++ evs /\
    (revisions evs <= 1)%nat /\
    ((exists sv w',
        generate_story_with_judge user_request reading_level w =
          Returned sv w' /\
        Forall answered evs) \/
     (exists call evs' w',
        generate_story_with_judge user_request reading_level w =
          Raised TransportError w' /\
        evs = evs' ++ [Chatted call Failure] /\
        Forall answered evs')) /\
    match generate_story user_request reading_level w with
    | Returned story1 w1 =>
        match judge_story user_request story1 reading_level w1 with
        | Returned verdict1 w2 =>
            if truthy (dict_get "needs_revision" (PBool false) verdict1) then
              revisions evs = 1%nat /\
              match
                revise_story user_request story1 verdict1 reading_level None w2
              with
              | Returned story2 w3 =>
                  match judge_story user_request story2 reading_level w3 with
                  | Returned verdict2 w4 =>
                      generate_story_with_judge user_request reading_level w =
                        Returned (story2, verdict2) w4
                  | Raised e w4 =>
                      generate_story_with_judge user_request reading_level w =
                        Raised e w4
                  | Exhausted _ => False
                  end
              | Raised e w3 =>
                  generate_story_with_judge user_request reading_level w =
                    Raised e w3
              | Exhausted _ => False
              end
            else
              revisions evs = 0%nat /\
              generate_story_with_judge user_request reading_level w =
                Returned (story1, verdict1) w2
        | Raised e w2 =>
            revisions evs = 0%nat /\
            generate_story_with_judge user_request reading_level w = Raised e w2
        | Exhausted _ => False
        end
    | Raised e w1 =>
        revisions evs = 0%nat /\
        generate_story_with_judge user_request reading_level w = Raised e w1
    | Exhausted _ => False
    end.
Proof.
  unfold generate_story_with_judge, generate_story, revise_story, mbind, io_bind.
  rewrite call_chat_outcome. cbv zeta.
  fold (generate_request user_request reading_level).
  set (gen := generate_request user_request reading_level).
  destruct (completion (trace w) gen) as [story1|] eqn:Hgen; cbv beta iota.
  2:{ exists [Chatted gen Failure]. split; [done|]. split; [count_revisions|].
      split; [|split; [count_revisions|done]].
      right. eexists gen, [], _. split; [done|]. split; [done|]. constructor. }
  set (w1 := record (Chatted gen (Content story1)) w).
  rewrite judge_story_outcome. cbv zeta.
  set (judge1 := judge_request user_request story1 reading_level).
  destruct (completion (trace w1) judge1) as [raw1|] eqn:Hjudge1; cbv beta iota.
  2:{ exists [Chatted gen (Content story1); Chatted judge1 Failure].
      split; [by cbn; rewrite <- app_assoc|]. split; [count_revisions|].
      split; [|split; [count_revisions|done]].
      right. eexists judge1, [Chatted gen (Content story1)], _.
      split; [done|]. split; [done|]. by repeat constructor. }
  set (verdict1 := verdict_of_response raw1).
  set (w2 := record (Chatted judge1 (Content raw1)) w1).
  destruct (truthy (dict_get "needs_revision" (PBool false) verdict1)) eqn:Hneeds.
  2:{ exists [Chatted gen (Content story1); Chatted judge1 (Content raw1)].
      split; [by cbn; rewrite <- app_assoc|]. split; [count_revisions|].
      split; [|split; [count_revisions|done]].
      left. eexists _, _. split; [done|]. by repeat constructor. }
  rewrite call_chat_outcome. cbv zeta.
  fold (revise_request user_request story1 verdict1 reading_level None).
  set (rev := revise_request user_request story1 verdict1 reading_level None).
  destruct (completion (trace w2) rev) as [story2|] eqn:Hrev; cbv beta iota.
  2:{ exists [Chatted gen (Content story1); Chatted judge1 (Content raw1);
              Chatted rev Failure].
      split; [by cbn; rewrite <- !app_assoc|]. split; [count_revisions|].
      split; [|split; [count_revisions|done]].
      right. eexists rev, [Chatted gen (Content story1);
                          Chatted judge1 (Content raw1)], _.
      split; [done|]. split; [done|]. by repeat constructor. }
  set (w3 := record (Chatted rev (Content story2)) w2).
  rewrite judge_story_outcome. cbv zeta.
  set (judge2 := judge_request user_request story2 reading_level).
  destruct (completion (trace w3) judge2) as [raw2|] eqn:Hjudge2; cbv beta iota.
  2:{ exists [Chatted gen (Content story1); Chatted judge1 (Content raw1);
              Chatted rev (Content story2); Chatted judge2 Failure].
      split; [by cbn; rewrite <- !app_assoc|]. split; [count_revisions|].
      split; [|split; [count_revisions|done]].
      right. eexists judge2, [Chatted gen (Content story1);
                             Chatted judge1 (Content raw1);
                             Chatted rev (Content story2)], _.
      split; [done|]. split; [done|]. by repeat constructor. }
  exists [Chatted gen (Content story1); Chatted judge1 (Content raw1);
          Chatted rev (Content story2); Chatted judge2 (Content raw2)].
  split; [by cbn; rewrite <- !app_assoc|]. split; [count_revisions|].
  split; [|split; [count_revisions|done]].
  left. eexists _, _. split; [done|]. by repeat constructor.
Qed.

End Pipeline.

(** ** What a call does to the input *)

Lemma finishes_bind {A B : Type} (m : io A) (f : A -> io B) w :
  finishes (m w) ->
  (forall a w', m w = Returned a w' -> finishes (f a w')) ->
  finishes ((m ≫= f) w).
Proof.
  unfold mbind, io_bind. destruct (m w) as [a w'|e w'|w']; [|done..].
  intros _ Hf. by apply Hf.
Qed.

Lemma input_returned prompt w line w' :
  input prompt w = Returned line w' ->
  stdin w = line :: stdin w' /\
  trace w' = (trace w ++ [Wrote prompt]) ++ [Read line].
Proof.
  unfold input. cbn. destruct (stdin w) as [|l rest]; [done|].
  by intros [= -> <-].
Qed.

Lemma finishes_input prompt w : finishes (input prompt w).
Proof. unfold input. cbn. by destruct (stdin w). Qed.

(** A loop whose body reads a line whenever it goes round again ends within
    one more round than there are lines. *)
Lemma while_true_finishes {S A : Type} (body : S -> io (S + A))
    (valid : S -> Prop) :
  (forall s w, valid s -> finishes (body s w)) ->
  (forall s w s' w',
     valid s -> body s w = Returned (inl s') w' ->
     valid s' /\ (length (stdin w') < length (stdin w))%nat) ->
  forall fuel s w,
    valid s -> (length (stdin w) < fuel)%nat ->
    finishes (while_true fuel body s w).
Proof.
  intros Hfin Hreads fuel.
  induction fuel as [|fuel IH]; intros s w Hvalid Hfuel; [lia|].
  cbn [while_true]. apply finishes_bind; [by apply Hfin|].
  intros [s'|a] w' Hbody; [|done].
  destruct (Hreads s w s' w' Hvalid Hbody) as [Hvalid' Hless].
  apply IH; [done|lia].
Qed.

Section Input.

Context `{!Runtime}.

Lemma call_chat_stdin messages max_tokens temperature w text w' :
  call_chat messages max_tokens temperature w = Returned text w' ->
  stdin w' = stdin w /\ lines_read (trace w') = lines_read (trace w).
Proof.
  intros Hcall. apply call_chat_returned in Hcall as [_ ->]. by observe.
Qed.

Lemma finishes_call_chat messages max_tokens temperature w :
  finishes (call_chat messages max_tokens temperature w).
Proof. rewrite call_chat_outcome. cbv zeta. by destruct (completion _ _). Qed.

Lemma judge_story_stdin user_request story reading_level w v w' :
  judge_story user_request story reading_level w = Returned v w' ->
  stdin w' = stdin w /\ lines_read (trace w') = lines_read (trace w).
Proof.
  intros Hrun. apply judge_story_returned in Hrun as (raw & _ & _ & ->).
  by observe.
Qed.

Lemma finishes_judge_story user_request story reading_level w :
  finishes (judge_story user_request story reading_level w).
Proof. rewrite judge_story_outcome. cbv zeta. by destruct (completion _ _). Qed.

Lemma pipeline_stdin user_request reading_level w sv w' :
  generate_story_with_judge user_request reading_level w = Returned sv w' ->
  stdin w' = stdin w /\ lines_read (trace w') = lines_read (trace w).
Proof.
  unfold generate_story_with_judge, generate_story, revise_story.
  intros Hrun.
  apply bind_returned in Hrun as (story1 & w1 & Hgen & Hrun).
  apply call_chat_stdin in Hgen as [Hin1 Hread1].
  apply bind_returned in Hrun as (verdict1 & w2 & Hjudge & Hrun).
  apply judge_story_stdin in Hjudge as [Hin2 Hread2].
  destruct (truthy _).
  - apply bind_returned in Hrun as (story2 & w3 & Hrev & Hrun).
    apply call_chat_stdin in Hrev as [Hin3 Hread3].
    apply bind_returned in Hrun as (verdict2 & w4 & Hjudge2 & Hrun).
    apply judge_story_stdin in Hjudge2 as [Hin4 Hread4].
    injection Hrun as _ <-. split; congruence.
  - injection Hrun as _ <-. split; congruence.
Qed.

Lemma finishes_pipeline user_request reading_level w :
  finishes (generate_story_with_judge user_request reading_level w).
Proof.
  unfold generate_story_with_judge, generate_story, revise_story.
  apply finishes_bind; [apply finishes_call_chat|]. intros story1 w1 _.
  apply finishes_bind; [apply finishes_judge_story|]. intros verdict1 w2 _.
  destruct (truthy _); [|done].
  apply finishes_bind; [apply finishes_call_chat|]. intros story2 w3 _.
  apply finishes_bind; [apply finishes_judge_story|]. done.
Qed.

(** One round of [select_reading_level]. *)
Lemma select_reading_level_body_returned u w r w' :
  select_reading_level_body u w = Returned r w' ->
  exists line, stdin w = line :: stdin w' /\
    match r with
    | inl _ => strip line ∉ ({[ "1"; "2"; "3" ]} : gset string)
    | inr lvl => lvl = strip line /\ lvl ∈ ({[ "1"; "2"; "3" ]} : gset string)
    end.
Proof.
  unfold select_reading_level_body. intros Hrun.
  apply bind_returned in Hrun as (line & w1 & Hin & Hrun).
  apply input_returned in Hin as [Hin _]. exists line.
  cbv zeta in Hrun. case_bool_decide as Hlvl.
  - injection Hrun as <- <-. done.
  - rewrite bind_print in Hrun. injection Hrun as <- <-. done.
Qed.

Lemma finishes_select_reading_level_body u w :
  finishes (select_reading_level_body u w).
Proof.
  unfold select_reading_level_body.
  apply finishes_bind; [apply finishes_input|]. intros line w1 _.
  cbv zeta. by case_bool_decide.
Qed.

Lemma select_reading_level_returned w lvl w' :
  select_reading_level w = Returned lvl w' ->
  lvl ∈ ({[ "1"; "2"; "3" ]} : gset string) /\
  (length (stdin w') < length (stdin w))%nat.
Proof.
  unfold select_reading_level. rewrite !bind_print.
  set (w0 := record _ _). change (stdin w) with (stdin w0).
  generalize (S (length (stdin w0))) as fuel. clearbody w0. revert w0.
  intros w0 fuel. revert w0.
  induction fuel as [|fuel IH]; intros w0; [done|].
  cbn [while_true]. intros Hrun.
  apply bind_returned in Hrun as (r & w1 & Hbody & Hrun).
  apply select_reading_level_body_returned in Hbody as (line & Hin & Hr).
  destruct r as [[]|lvl'].
  - apply IH in Hrun as [Hlvl Hless]. split; [done|]. rewrite Hin. cbn. lia.
  - injection Hrun as <- <-. destruct Hr as [_ Hlvl]. split; [done|].
    rewrite Hin. cbn. lia.
Qed.

Lemma finishes_select_reading_level w : finishes (select_reading_level w).
Proof.
  unfold select_reading_level. rewrite !bind_print.
  apply (while_true_finishes select_reading_level_body (fun _ => True));
    [intros; apply finishes_select_reading_level_body| |done|lia].
  intros [] w1 [] w2 _ Hbody.
  apply select_reading_level_body_returned in Hbody as (line & Hin & _).
  split; [done|]. rewrite Hin. cbn. lia.
Qed.

(** The requester enters a valid level after any number of refused
    entries. *)
Lemma select_reading_level_reads refused lvl rest w :
  Forall (fun x => strip x ∉ ({[ "1"; "2"; "3" ]} : gset string)) refused ->
  strip lvl ∈ ({[ "1"; "2"; "3" ]} : gset string) ->
  stdin w = refused ++ lvl :: rest ->
  exists w',
    select_reading_level w = Returned (strip lvl) w' /\
    stdin w' = rest /\
    chat_calls (trace w') = chat_calls (trace w).
Proof.
  intros Hrefused Hlvl Hin.
  unfold select_reading_level. rewrite !bind_print.
  set (w0 := record _ _).
  assert (Hin0 : stdin w0 = refused ++ lvl :: rest) by done.
  assert (Hcalls0 : chat_calls (trace w0) = chat_calls (trace w))
    by (unfold w0; by observe).
  rewrite <- Hcalls0.
  assert (Hfuel : (length refused < S (length (stdin w0)))%nat)
    by (rewrite Hin0, length_app; lia).
  revert Hfuel. generalize (S (length (stdin w0))) as fuel.
  clearbody w0. clear Hin Hcalls0 w. revert w0 Hin0.
  induction Hrefused as [|x refused Hx Hrefused IH]; intros w0 Hin0 fuel Hfuel.
  - destruct fuel as [|fuel]; [cbn in Hfuel; lia|].
    cbn [while_true].
    erewrite bind_step; last first.
    { unfold select_reading_level_body.
      erewrite bind_input by exact Hin0. cbv zeta.
      rewrite bool_decide_eq_true_2 by done. reflexivity. }
    eexists. split; [reflexivity|]. split; [done|]. by observe.
  - destruct fuel as [|fuel]; [cbn in Hfuel; lia|].
    cbn [while_true].
    erewrite bind_step; last first.
    { unfold select_reading_level_body.
      erewrite bind_input by exact Hin0. cbv zeta.
      rewrite bool_decide_eq_false_2 by done.
      rewrite bind_print. reflexivity. }
    edestruct (IH (record (Wrote (ln "Please enter a valid choice (1, 2, or 3)."))
                     {| stdin := refused ++ lvl :: rest;
                        trace := (trace w0 ++ [Wrote "Enter 1, 2, or 3: "]) ++ [Read x] |})
                 eq_refl fuel) as (w' & Hrun & Hrest & Hcalls);
      [cbn in Hfuel; lia|].
    exists w'. split; [exact Hrun|]. split; [done|].
    rewrite Hcalls. by observe.
Qed.

End Input.

(** ** The customization loop as a whole *)

Section Loop.

Context `{!Runtime}.
Variable show_judge_info : bool.
Variable max_customizations : Z.

Lemma show_update_outcome (s : session) (w : world) :
  exists w',
    show_update show_judge_info s w = Returned (inl (Menu, s)) w' /\
    stdin w' = stdin w /\
    chat_calls (trace w') = chat_calls (trace w).
Proof.
  unfold show_update. rewrite !bind_print.
  destruct show_judge_info.
  - unfold mbind at 1, io_bind. rewrite !bind_print.
    eexists. split; [reflexivity|]. split; [done|]. by observe.
  - eexists. split; [reflexivity|]. split; [done|]. by observe.
Qed.

Lemma show_update_returned (s : session) (w : world) c w' :
  show_update show_judge_info s w = Returned c w' ->
  c = inl (Menu, s) /\ stdin w' = stdin w.
Proof.
  destruct (show_update_outcome s w) as (w1 & -> & Hin & _).
  by intros [= <- <-].
Qed.

(** What the menu stretch can return. *)
Lemma menu_step_returned (s : session) (w : world) c w' :
  menu_step max_customizations s w = Returned c w' ->
  (max_customizations - customizations_used s <= 0 /\
   c = inr s /\ stdin w' = stdin w) \/
  (0 < max_customizations - customizations_used s /\
   exists line,
     stdin w = line :: stdin w' /\
     ((strip line = "1" /\ c = inr s) \/
      ((strip line ∉ ({[ "1"; "2"; "3"; "4" ]} : gset string)) /\
        c = inl (Menu, s)) \/
      ((strip line ∈ ({[ "2"; "3"; "4" ]} : gset string)) /\
        c = inl (Action (strip line),
                 set_customizations_used (customizations_used s + 1) s)))).
Proof.
  intros Hrun.
  destruct (Z.le_gt_cases (max_customizations - customizations_used s) 0)
    as [Hle|Hlt].
  - left. rewrite (menu_step_exhausted _ s w Hle) in Hrun.
    injection Hrun as <- <-. done.
  - right. split; [lia|].
    destruct (stdin w) as [|line rest] eqn:Hin.
    + exfalso. revert Hrun. unfold menu_step. rewrite !bind_print.
      destruct (Z.leb_spec (max_customizations - customizations_used s) 0);
        [lia|].
      unfold mbind, io_bind, input. cbn. by rewrite Hin.
    + rewrite (menu_step_choice _ s w line rest) in Hrun by (done || lia).
      cbv zeta in Hrun. exists line.
      destruct (String.eqb_spec (strip line) "1") as [Hone|Hone].
      { injection Hrun as <- <-. split; [done|]. by left. }
      case_bool_decide as Hchoice; cbn [negb] in Hrun.
      * injection Hrun as <- <-. split; [done|]. right. by right.
      * rewrite bind_print in Hrun. injection Hrun as <- <-.
        split; [done|]. right. left. split; [|done].
        rewrite !elem_of_union, !elem_of_singleton in *. tauto.
Qed.

Lemma finishes_menu_step (s : session) (w : world) :
  finishes (menu_step max_customizations s w).
Proof.
  unfold menu_step. rewrite !bind_print.
  destruct (_ <=? _); [by rewrite !bind_print|].
  apply finishes_bind; [apply finishes_input|]. intros line w1 _.
  cbv zeta. destruct (String.eqb _ _); [done|].
  by destruct (negb _).
Qed.

(** What the action stretch can return: the loop is back at the menu, with
    [customizations_used] as it was or, after a cancellation, one less; for
    the three choices that lead here a line was read. *)
Lemma action_step_returned choice (s : session) (w : world) c w' :
  action_step show_judge_info choice s w = Returned c w' ->
  exists s',
    c = inl (Menu, s') /\
    (customizations_used s' = customizations_used s \/
     customizations_used s' = customizations_used s - 1) /\
    (choice ∈ ({[ "2"; "3"; "4" ]} : gset string) ->
     (length (stdin w') < length (stdin w))%nat).
Proof.
  unfold action_step. intros Hrun.
  destruct (String.eqb_spec choice "2") as [->|Hne2].
  { rewrite bind_print in Hrun.
    apply bind_returned in Hrun as (line & w1 & Hin & Hrun).
    apply input_returned in Hin as [Hin _]. cbn [stdin record] in Hin.
    cbv zeta in Hrun. destruct (String.eqb _ _).
    - rewrite bind_print in Hrun. injection Hrun as <- <-.
      eexists. split; [reflexivity|]. split; [by right|].
      intros _. rewrite Hin. cbn. lia.
    - rewrite bind_print in Hrun.
      apply bind_returned in Hrun as (new_story & w2 & Hrev & Hrun).
      apply call_chat_stdin in Hrev as [Hin2 _].
      apply bind_returned in Hrun as (new_verdict & w3 & Hjudge & Hrun).
      apply judge_story_stdin in Hjudge as [Hin3 _].
      apply show_update_returned in Hrun as [-> Hin4].
      eexists. split; [reflexivity|]. split; [by left|].
      intros _. rewrite Hin, Hin4, Hin3, Hin2. cbn. lia. }
  destruct (String.eqb_spec choice "3") as [->|Hne3].
  { rewrite bind_print in Hrun.
    apply bind_returned in Hrun as (lvl & w1 & Hsel & Hrun).
    apply select_reading_level_returned in Hsel as [_ Hless].
    cbn [stdin record] in Hless.
    cbv zeta in Hrun. rewrite bind_print in Hrun.
    apply bind_returned in Hrun as (sv & w2 & Hpipe & Hrun).
    apply pipeline_stdin in Hpipe as [Hin2 _]. cbn [stdin record] in Hin2.
    apply show_update_returned in Hrun as [-> Hin3].
    eexists. split; [reflexivity|]. split; [by left|].
    intros _. rewrite Hin3, Hin2. lia. }
  destruct (String.eqb_spec choice "4") as [->|Hne4].
  { rewrite bind_print in Hrun.
    apply bind_returned in Hrun as (line & w1 & Hin & Hrun).
    apply input_returned in Hin as [Hin _]. cbn [stdin record] in Hin.
    cbv zeta in Hrun. destruct (String.eqb _ _).
    - rewrite bind_print in Hrun. injection Hrun as <- <-.
      eexists. split; [reflexivity|]. split; [by right|].
      intros _. rewrite Hin. cbn. lia.
    - rewrite bind_print in Hrun.
      apply bind_returned in Hrun as (sv & w2 & Hpipe & Hrun).
      apply pipeline_stdin in Hpipe as [Hin2 _]. cbn [stdin record] in Hin2.
      apply show_update_returned in Hrun as [-> Hin3].
      eexists. split; [reflexivity|]. split; [by left|].
      intros _. rewrite Hin, Hin3, Hin2. cbn. lia. }
  apply show_update_returned in Hrun as [-> _].
  eexists. split; [reflexivity|]. split; [by left|].
  rewrite !elem_of_union, !elem_of_singleton. tauto.
Qed.

Lemma finishes_show_update (s : session) (w : world) :
  finishes (show_update show_judge_info s w).
Proof. by destruct (show_update_outcome s w) as (w' & -> & _). Qed.

Lemma finishes_action_step choice (s : session) (w : world) :
  finishes (action_step show_judge_info choice s w).
Proof.
  unfold action_step.
  destruct (String.eqb choice "2").
  { rewrite bind_print. apply finishes_bind; [apply finishes_input|].
    intros line w1 _. cbv zeta. destruct (String.eqb _ _); [done|].
    rewrite bind_print. apply finishes_bind; [apply finishes_call_chat|].
    intros new_story w2 _.
    apply finishes_bind; [apply finishes_judge_story|].
    intros; apply finishes_show_update. }
  destruct (String.eqb choice "3").
  { rewrite bind_print.
    apply finishes_bind; [apply finishes_select_reading_level|].
    intros lvl w1 _. cbv zeta. rewrite bind_print.
    apply finishes_bind; [apply finishes_pipeline|].
    intros; apply finishes_show_update. }
  destruct (String.eqb choice "4").
  { rewrite bind_print. apply finishes_bind; [apply finishes_input|].
    intros line w1 _. cbv zeta. destruct (String.eqb _ _); [done|].
    rewrite bind_print. apply finishes_bind; [apply finishes_pipeline|].
    intros; apply finishes_show_update. }
  apply finishes_show_update.
Qed.

Lemma loop_step_within_budget cs w c w' :
  within_budget max_customizations cs ->
  loop_step show_judge_info max_customizations cs w = Returned c w' ->
  config_within_budget max_customizations c.
Proof.
  destruct cs as [[|choice] s]; unfold loop_step, within_budget;
    cbn [fst snd]; intros Hinv Hrun.
  - apply menu_step_returned in Hrun
      as [(_ & -> & _)|(Hlt & line & _ & [[_ ->]|[[_ ->]|[Hchoice ->]]])];
      cbn; try done.
    unfold within_budget. cbn. split; [lia|done].
  - apply action_step_returned in Hrun as (s' & -> & Hused & _).
    cbn. unfold within_budget. cbn. lia.
Qed.

Lemma execution_within_budget n c w c' w' :
  execution show_judge_info max_customizations n c w c' w' ->
  config_within_budget max_customizations c -> config_within_budget max_customizations c'.
Proof.
  induction 1 as [|cs w c1 w1 n c2 w2 Hstep _ IH]; [done|].
  intros Hinv. apply IH. by eapply loop_step_within_budget.
Qed.

(** C2.  With a budget that is not negative, at every control point that a
    run of the loop reaches, and when it has returned, [customizations_used]
    is between 0 and [max_customizations]: at the top of the loop body, and
    also between the increment and the decrement of a cancelled action. *)
Theorem budget_invariant
    (initial_request initial_story : string)
    (initial_verdict : gmap string py_value) (reading_level : string)
    (w : world) (n : nat) (c : config) (w' : world) :
  0 <= max_customizations ->
  execution show_judge_info max_customizations n
    (inl (Menu, initial_session initial_request initial_story initial_verdict
                  reading_level)) w c w' ->
  0 <= customizations_used (session_of c) <= max_customizations.
Proof.
  intros Hmax Hrun.
  apply execution_within_budget in Hrun; [|cbn; unfold within_budget; cbn; lia].
  destruct c as [[[|choice] s]|s]; cbn in *; unfold within_budget in *;
    cbn in *; lia.
Qed.

(** *** The loop ends *)

(** A stretch that does not return reads a line. *)
Lemma loop_step_reads cs w cs' w' :
  choice_known cs ->
  loop_step show_judge_info max_customizations cs w = Returned (inl cs') w' ->
  choice_known cs' /\ (length (stdin w') < length (stdin w))%nat.
Proof.
  destruct cs as [[|choice] s]; unfold loop_step, choice_known;
    cbn [fst snd]; intros Hinv Hrun.
  - apply menu_step_returned in Hrun
      as [(_ & ? & _)|(Hlt & line & Hin & Hc)]; [done|].
    split; [|rewrite Hin; cbn; lia].
    destruct Hc as [[_ [=]]|[[_ [= ->]]|[Hchoice [= ->]]]]; done.
  - apply action_step_returned in Hrun as (s' & [= ->] & _ & Hless).
    split; [done|]. by apply Hless.
Qed.

Lemma finishes_loop_step cs w :
  finishes (loop_step show_judge_info max_customizations cs w).
Proof.
  destruct cs as [[|choice] s]; unfold loop_step; cbn [fst snd].
  - apply finishes_menu_step.
  - apply finishes_action_step.
Qed.

(** The bound given to the loop is enough: a run that reaches the end of the
    function is the run of [while_true]. *)
Lemma execution_while_true n c w c' w' :
  execution show_judge_info max_customizations n c w c' w' ->
  forall cs s',
    c = inl cs -> c' = inr s' -> choice_known cs ->
    forall fuel,
      (length (stdin w) < fuel)%nat ->
      while_true fuel (loop_step show_judge_info max_customizations) cs w =
      Returned s' w'.
Proof.
  induction 1 as [|cs0 w c1 w1 n c2 w2 Hstep Hrest IH];
    intros cs s' Hc Hc' Hinv fuel Hfuel; [congruence|].
  injection Hc as ->. destruct fuel as [|fuel]; [lia|].
  cbn [while_true]. rewrite (bind_step _ _ _ _ _ Hstep).
  destruct c1 as [cs1|s1].
  - destruct (loop_step_reads cs w cs1 w1 Hinv Hstep) as [Hinv1 Hless].
    apply (IH cs1 s' eq_refl Hc' Hinv1). lia.
  - inversion Hrest; by simplify_eq.
Qed.

(** The model never stops a run of the menu for want of rounds. *)
Lemma customization_menu_finishes
    (initial_request initial_story : string)
    (initial_verdict : gmap string py_value) (reading_level : string)
    (w : world) :
  finishes
    (customization_menu show_judge_info max_customizations initial_request
       initial_story initial_verdict reading_level w).
Proof.
  unfold customization_menu. cbv zeta.
  apply finishes_bind; [|done].
  apply (while_true_finishes _ choice_known).
  - intros; apply finishes_loop_step.
  - intros cs w0 cs' w1 Hinv Hstep. by apply (loop_step_reads cs w0 cs' w1).
  - done.
  - lia.
Qed.

(** *** Actions that are not cancelled *)

Lemma call_chat_reliable messages max_tokens temperature w :
  reliable ->
  exists text w',
    call_chat messages max_tokens temperature w = Returned text w' /\
    stdin w' = stdin w.
Proof.
  intros Hrel. rewrite call_chat_outcome. cbv zeta.
  destruct (completion _ _) as [text|] eqn:Hreply; [by eauto|].
  by apply Hrel in Hreply.
Qed.

Lemma judge_story_reliable user_request story reading_level w :
  reliable ->
  exists v w',
    judge_story user_request story reading_level w = Returned v w' /\
    stdin w' = stdin w.
Proof.
  intros Hrel. rewrite judge_story_outcome. cbv zeta.
  destruct (completion _ _) as [raw|] eqn:Hreply; [by eauto|].
  by apply Hrel in Hreply.
Qed.

Lemma pipeline_reliable user_request reading_level w :
  reliable ->
  exists sv w',
    generate_story_with_judge user_request reading_level w = Returned sv w' /\
    stdin w' = stdin w.
Proof.
  intros Hrel. unfold generate_story_with_judge, generate_story, revise_story.
  destruct (call_chat_reliable
              (generate_story_messages user_request reading_level) 1500
              (7 # 10) w Hrel) as (story1 & w1 & Hgen & Hin1).
  rewrite (bind_step _ _ _ _ _ Hgen).
  destruct (judge_story_reliable user_request story1 reading_level w1 Hrel)
    as (verdict1 & w2 & Hjudge & Hin2).
  rewrite (bind_step _ _ _ _ _ Hjudge).
  destruct (truthy _).
  - destruct (call_chat_reliable
                (revise_story_messages user_request story1 verdict1
                   reading_level None) 1500 (7 # 10) w2 Hrel)
      as (story2 & w3 & Hrev & Hin3).
    rewrite (bind_step _ _ _ _ _ Hrev).
    destruct (judge_story_reliable user_request story2 reading_level w3 Hrel)
      as (verdict2 & w4 & Hjudge2 & Hin4).
    rewrite (bind_step _ _ _ _ _ Hjudge2).
    eexists _, _. split; [reflexivity|]. congruence.
  - eexists _, _. split; [reflexivity|]. congruence.
Qed.

(** The action stretch on a suggestion that is not empty. *)
Lemma action_step_suggest (s : session) (w : world) text rest :
  reliable ->
  strip text ≠ EmptyString ->
  stdin w = text :: rest ->
  exists s' w',
    action_step show_judge_info "2" s w = Returned (inl (Menu, s')) w' /\
    customizations_used s' = customizations_used s /\
    stdin w' = rest.
Proof.
  intros Hrel Htext Hin. unfold action_step.
  cbn [String.eqb Ascii.eqb Bool.eqb]. rewrite bind_print.
  erewrite bind_input by exact Hin. cbv zeta.
  destruct (String.eqb_spec (strip text) EmptyString) as [|_]; [done|].
  rewrite bind_print. unfold revise_story.
  edestruct call_chat_reliable as (new_story & w2 & Hrev & Hin2); [exact Hrel|].
  rewrite (bind_step _ _ _ _ _ Hrev).
  edestruct judge_story_reliable as (new_verdict & w3 & Hjudge & Hin3);
    [exact Hrel|].
  rewrite (bind_step _ _ _ _ _ Hjudge).
  edestruct show_update_outcome as (w4 & Hshow & Hin4 & _).
  rewrite Hshow. eexists _, _. split; [reflexivity|]. split; [done|].
  rewrite Hin4, Hin3, Hin2. done.
Qed.

(** The action stretch on a new reading level. *)
Lemma action_step_level (s : session) (w : world) refused lvl rest :
  reliable ->
  Forall (fun x => strip x ∉ ({[ "1"; "2"; "3" ]} : gset string)) refused ->
  strip lvl ∈ ({[ "1"; "2"; "3" ]} : gset string) ->
  stdin w = refused ++ lvl :: rest ->
  exists s' w',
    action_step show_judge_info "3" s w = Returned (inl (Menu, s')) w' /\
    customizations_used s' = customizations_used s /\
    stdin w' = rest.
Proof.
  intros Hrel Hrefused Hlvl Hin. unfold action_step.
  cbn [String.eqb Ascii.eqb Bool.eqb]. rewrite bind_print.
  edestruct (select_reading_level_reads refused lvl rest) as (w1 & Hsel & Hin1 & _);
    [exact Hrefused|exact Hlvl| |].
  { rewrite stdin_record. exact Hin. }
  rewrite (bind_step _ _ _ _ _ Hsel). cbv zeta. rewrite bind_print.
  edestruct pipeline_reliable as (sv & w2 & Hpipe & Hin2); [exact Hrel|].
  rewrite (bind_step _ _ _ _ _ Hpipe).
  edestruct show_update_outcome as (w3 & Hshow & Hin3 & _).
  rewrite Hshow. eexists _, _. split; [reflexivity|]. split; [done|].
  rewrite Hin3, Hin2. done.
Qed.

(** The action stretch on a new request that is not empty. *)
Lemma action_step_request (s : session) (w : world) text rest :
  reliable ->
  strip text ≠ EmptyString ->
  stdin w = text :: rest ->
  exists s' w',
    action_step show_judge_info "4" s w = Returned (inl (Menu, s')) w' /\
    customizations_used s' = customizations_used s /\
    stdin w' = rest.
Proof.
  intros Hrel Htext Hin. unfold action_step.
  cbn [String.eqb Ascii.eqb Bool.eqb]. rewrite bind_print.
  erewrite bind_input by exact Hin. cbv zeta.
  destruct (String.eqb_spec (strip text) EmptyString) as [|_]; [done|].
  rewrite bind_print.
  edestruct pipeline_reliable as (sv & w2 & Hpipe & Hin2); [exact Hrel|].
  rewrite (bind_step _ _ _ _ _ Hpipe).
  edestruct show_update_outcome as (w3 & Hshow & Hin3 & _).
  rewrite Hshow. eexists _, _. split; [reflexivity|]. split; [done|].
  rewrite Hin3, Hin2. done.
Qed.

(** One action that is not cancelled, taken at the menu with budget left:
    the loop returns, or it is back at the menu having presented it once,
    with [customizations_used] one more, so [remaining] one less. *)
Lemma turn_progress (s : session) (w : world) lines rest :
  reliable ->
  0 < max_customizations - customizations_used s ->
  turn lines ->
  stdin w = lines ++ rest ->
  exists c w',
    execution show_judge_info max_customizations 1 (inl (Menu, s)) w c w' /\
    stdin w' = rest /\
    match c with
    | inr s' => accepts lines /\ s' = s
    | inl cs' =>
        ¬ accepts lines /\ cs'.1 = Menu /\
        customizations_used cs'.2 = customizations_used s + 1
    end.
Proof.
  intros Hrel Hlt Hturn Hin.
  destruct Hturn as [l Hl|l text Hl Htext|l refused lvl Hl Hrefused Hlvl
                     |l text Hl Htext]; cbn [app] in Hin.
  - exists (inr s), (after_choice max_customizations s w l rest).
    split; [|by split].
    change 1%nat with (menus_of (Menu, s) + 0)%nat.
    eapply execution_step; [|constructor].
    unfold loop_step. cbn [fst snd].
    rewrite (menu_step_choice _ s w l rest Hlt Hin). cbv zeta. by rewrite Hl.
  - destruct (action_step_suggest
                (set_customizations_used (customizations_used s + 1) s)
                (after_choice max_customizations s w l (text :: rest))
                text rest Hrel Htext eq_refl) as (s' & w' & Hact & Hused & Hrest).
    exists (inl (Menu, s')), w'. split; [|split; [done|]].
    + change 1%nat with (menus_of (Menu, s) + (menus_of (Action "2", set_customizations_used (customizations_used s + 1) s) + 0))%nat.
      eapply execution_step.
      { unfold loop_step. cbn [fst snd].
        rewrite (menu_step_choice _ s w l (text :: rest) Hlt Hin). cbv zeta.
        rewrite Hl. reflexivity. }
      eapply execution_step; [exact Hact|constructor].
    + cbn. rewrite Hl. split; [done|]. split; [done|]. by rewrite Hused.
  - rewrite <- app_assoc in Hin. cbn [app] in Hin.
    destruct (action_step_level
                (set_customizations_used (customizations_used s + 1) s)
                (after_choice max_customizations s w l (refused ++ lvl :: rest))
                refused lvl rest Hrel Hrefused Hlvl eq_refl)
      as (s' & w' & Hact & Hused & Hrest).
    exists (inl (Menu, s')), w'. split; [|split; [done|]].
    + change 1%nat with (menus_of (Menu, s) + (menus_of (Action "3", set_customizations_used (customizations_used s + 1) s) + 0))%nat.
      eapply execution_step.
      { unfold loop_step. cbn [fst snd].
        rewrite (menu_step_choice _ s w l (refused ++ lvl :: rest) Hlt Hin).
        cbv zeta. rewrite Hl. reflexivity. }
      eapply execution_step; [exact Hact|constructor].
    + cbn. rewrite Hl. split; [done|]. split; [done|]. by rewrite Hused.
  - destruct (action_step_request
                (set_customizations_used (customizations_used s + 1) s)
                (after_choice max_customizations s w l (text :: rest))
                text rest Hrel Htext eq_refl) as (s' & w' & Hact & Hused & Hrest).
    exists (inl (Menu, s')), w'. split; [|split; [done|]].
    + change 1%nat with (menus_of (Menu, s) + (menus_of (Action "4", set_customizations_used (customizations_used s + 1) s) + 0))%nat.
      eapply execution_step.
      { unfold loop_step. cbn [fst snd].
        rewrite (menu_step_choice _ s w l (text :: rest) Hlt Hin). cbv zeta.
        rewrite Hl. reflexivity. }
      eapply execution_step; [exact Hact|constructor].
    + cbn. rewrite Hl. split; [done|]. split; [done|]. by rewrite Hused.
Qed.

Lemma execution_exhausted (s : session) (w : world) :
  max_customizations - customizations_used s <= 0 ->
  exists w',
    execution show_judge_info max_customizations 1 (inl (Menu, s)) w (inr s) w'.
Proof.
  intros Hle. eexists.
  change 1%nat with (menus_of (Menu, s) + 0)%nat.
  eapply execution_step; [|constructor].
  unfold loop_step. cbn [fst snd]. by apply menu_step_exhausted.
Qed.

Lemma execution_app n c w c' w' n' c'' w'' :
  execution show_judge_info max_customizations n c w c' w' ->
  execution show_judge_info max_customizations n' c' w' c'' w'' ->
  execution show_judge_info max_customizations (n + n') c w c'' w''.
Proof.
  induction 1 as [|cs w c1 w1 n c2 w2 Hstep _ IH]; intros Hrest; [done|].
  rewrite <- Nat.add_assoc. eapply execution_step; [exact Hstep|]. by apply IH.
Qed.

(** Actions that are not cancelled bring the loop to its end within one
    menu more than there is budget left. *)
Lemma turns_reach_the_end (turns : list (list string)) :
  reliable ->
  Forall turn turns ->
  forall (s : session) (w : world) rest,
    stdin w = concat turns ++ rest ->
    Exists accepts turns \/
      max_customizations - customizations_used s <= Z.of_nat (length turns) ->
    exists n s' w',
      execution show_judge_info max_customizations n (inl (Menu, s)) w
        (inr s') w' /\
      Z.of_nat n <= Z.max 0 (max_customizations - customizations_used s) + 1.
Proof.
  intros Hrel Hturns.
  induction Hturns as [|lines turns Hturn Hturns IH]; intros s w rest Hin Hend.
  - destruct Hend as [Hex|Hle]; [by apply Exists_nil in Hex|].
    cbn in Hle. destruct (execution_exhausted s w Hle) as (w' & Hrun).
    exists 1%nat, s, w'. split; [done|lia].
  - destruct (Z.le_gt_cases (max_customizations - customizations_used s) 0)
      as [Hle|Hlt].
    { destruct (execution_exhausted s w Hle) as (w' & Hrun).
      exists 1%nat, s, w'. split; [done|lia]. }
    cbn [concat] in Hin. rewrite <- app_assoc in Hin.
    destruct (turn_progress s w lines (concat turns ++ rest) Hrel) as
      (c & w1 & Hrun & Hin1 & Hc); [lia|done|done|].
    destruct c as [[pc s1]|s1].
    + destruct Hc as (Hnot & Hpc & Hused). cbn in Hpc, Hused. subst pc.
      destruct (IH s1 w1 rest Hin1) as (n & s' & w' & Hrest & Hn).
      { destruct Hend as [Hex|Hle].
        - left. apply Exists_cons in Hex as [?|?]; done.
        - right. cbn [length] in Hle. lia. }
      exists (1 + n)%nat, s', w'. split; [by eapply execution_app|]. lia.
    + exists 1%nat, s1, w1. split; [done|lia].
Qed.

(** C6.  With a budget [max_customizations] that is not negative and a
    service that answers, a requester whose actions are never cancelled, and
    who accepts at some point or takes at least [max_customizations] actions,
    brings the menu to its end: [customization_menu] returns the story and
    the verdict of the last session, having presented the menu at most
    [max_customizations + 1] times.  The reason is the second part: one such
    action at the menu either returns or leaves [customizations_used] one
    more, so [remaining] one less. *)
Theorem noncancelling_actions_terminate
    (initial_request initial_story : string)
    (initial_verdict : gmap string py_value) (reading_level : string)
    (turns : list (list string)) (rest : list string) (w : world) :
  reliable ->
  0 <= max_customizations ->
  Forall turn turns ->
  stdin w = concat turns ++ rest ->
  Exists accepts turns \/ max_customizations <= Z.of_nat (length turns) ->
  (exists n s' w',
     execution show_judge_info max_customizations n
       (inl (Menu, initial_session initial_request initial_story
                     initial_verdict reading_level)) w (inr s') w' /\
     Z.of_nat n <= max_customizations + 1 /\
     customization_menu show_judge_info max_customizations initial_request
       initial_story initial_verdict reading_level w =
     Returned (story s', verdict s') w') /\
  (forall (s : session) (w0 : world) lines rest0,
     0 < max_customizations - customizations_used s ->
     turn lines ->
     stdin w0 = lines ++ rest0 ->
     exists c w1,
       execution show_judge_info max_customizations 1 (inl (Menu, s)) w0 c w1 /\
       match c with
       | inr s' => s' = s
       | inl cs' =>
           cs'.1 = Menu /\
           max_customizations - customizations_used cs'.2 =
           max_customizations - customizations_used s - 1
       end).
Proof.
  intros Hrel Hmax Hturns Hin Hend. split.
  - destruct (turns_reach_the_end turns Hrel Hturns
                (initial_session initial_request initial_story initial_verdict
                   reading_level) w rest Hin)
      as (n & s' & w' & Hrun & Hn).
    { destruct Hend as [?|?]; [by left|right]. cbn. lia. }
    exists n, s', w'. split; [done|]. split; [cbn in Hn; lia|].
    unfold customization_menu. cbv zeta.
    erewrite bind_step; [reflexivity|].
    eapply execution_while_true; [exact Hrun|done|done|done|lia].
  - intros s w0 lines rest0 Hlt Hturn Hin0.
    destruct (turn_progress s w0 lines rest0 Hrel Hlt Hturn Hin0)
      as (c & w1 & Hrun & _ & Hc).
    exists c, w1. split; [done|].
    destruct c as [cs'|s1]; [|by destruct Hc].
    destruct Hc as (_ & Hpc & Hused). split; [done|]. lia.
Qed.

End Loop.

(** * Runs of the program

    The claims above on concrete runs: every hypothesis is met by
    evaluating the program. *)

Lemma storyteller_reliable : @reliable storyteller.
Proof.
  intros history call. unfold completion, storyteller, sample_runtime, scripted.
  by destruct (length (chat_calls history)).
Defined.

Lemma not_a_level_4 : "4" ∉ ({[ "1"; "2"; "3" ]} : gset string).
Proof. rewrite !elem_of_union, !elem_of_singleton. intros [[?|?]|?]; done. Qed.

(** C1: a response the judge's format rules out, the empty object, is not
    answered by the fail-closed verdict: [needs_revision] is false and
    [safety_warnings] is empty. *)
Lemma empty_object_is_not_failed_closed :
  @parses_as_expected terse "{}" = false /\
  @judge_story terse "a cat" "A story." "2" (start []) =
    Returned (with_defaults ∅)
      (record (Chatted (judge_request "a cat" "A story." "2") (Content "{}"))
         (start [])) /\
  with_defaults ∅ !! "needs_revision" = Some (PBool false) /\
  with_defaults ∅ !! "safety_warnings" = Some (PStr EmptyString) /\
  with_defaults ∅ ≠ fail_closed_verdict.
Proof.
  split; [by vm_compute|]. split; [by vm_compute|].
  split; [by vm_compute|]. split; [by vm_compute|].
  intros Heq. apply (f_equal (fun d => d !! "needs_revision")) in Heq.
  vm_compute in Heq. discriminate.
Qed.

Lemma undecodable_response_witness :
  @judge_story chatty "a cat" "A story." "2" (start []) =
  Returned fail_closed_verdict
    (record (Chatted (judge_request "a cat" "A story." "2")
               (Content "Not JSON at all")) (start [])).
Proof.
  apply (@undecodable_response_fails_closed chatty "a cat" "A story." "2"
           (start []) "Not JSON at all").
  - reflexivity.
  - left. vm_compute. reflexivity.
Defined.

(** C9: the judge's verdict carries the evaluator's score of 42, which is
    not between 0 and 10. *)
Lemma score_42_is_passed_through :
  @judge_story generous "a cat" "A story." "2" (start []) =
    Returned (with_defaults {[ "score" := PInt 42 ]})
      (record (Chatted (judge_request "a cat" "A story." "2")
                 (Content json_score_42)) (start [])) /\
  with_defaults {[ "score" := PInt 42 ]} !! "score" = Some (PInt 42) /\
  in_range_0_10 (PInt 42) = false.
Proof. split; [by vm_compute|]. split; by vm_compute. Qed.

Lemma verdict_has_every_field_witness :
  with_defaults {[ "score" := PInt 42 ]} !! "score" = Some (PInt 42) /\
  with_defaults {[ "score" := PInt 42 ]} !! "needs_revision" =
    Some (PBool false).
Proof.
  destruct (@verdict_has_every_field generous "a cat" "A story." "2" (start [])
              (with_defaults {[ "score" := PInt 42 ]})
              (record (Chatted (judge_request "a cat" "A story." "2")
                         (Content json_score_42)) (start [])))
    as (raw & Hreply & _ & Hfields).
  - vm_compute. reflexivity.
  - assert (Hsent : @completion generous (trace (start []))
                      (judge_request "a cat" "A story." "2") =
                    Content json_score_42) by reflexivity.
    rewrite Hsent in Hreply. injection Hreply as <-.
    assert (Hd : @json_loads generous json_score_42 =
                 Some (PDict {[ "score" := PInt 42 ]}))
      by (vm_compute; reflexivity).
    rewrite Hd in Hfields. destruct Hfields as (Hsupplied & _ & Hneeds & _).
    split; [apply Hsupplied|apply Hneeds]; vm_compute; reflexivity.
Defined.

(** C10: for the level 4 the prompts are not those of level 2: the spoken
    style and the length instructions are not the ones of level 2. *)
Lemma unknown_level_prompts_differ :
  generate_story_system_prompt "4" ≠ generate_story_system_prompt "2" /\
  judge_story_system_prompt "4" ≠ judge_story_system_prompt "2" /\
  revise_story_system_prompt "4" ≠ revise_story_system_prompt "2" /\
  get_spoken_style_instructions "4" ≠ get_spoken_style_instructions "2" /\
  get_length_instructions "4" ≠ get_length_instructions "2".
Proof.
  repeat split; apply String.eqb_neq; vm_compute; reflexivity.
Qed.

Lemma unknown_level_witness :
  get_reading_level_label "4" =
  "simple language for ages 7–8, with mostly short sentences (8–14 words) and easy everyday vocabulary".
Proof. exact (proj1 (unknown_level_gets_level_2_label "4" not_a_level_4)). Defined.

(** C3 on a run: the revision is returned although its verdict still asks
    for a revision; the reviser was called once. *)
Example pipeline_returns_unaccepted_revision :
  exists verdict w',
    @generate_story_with_judge demanding "a cat" "2" (start []) =
      Returned ("A better story.", verdict) w' /\
    verdict !! "needs_revision" = Some (PBool true) /\
    revisions (trace w') = 1%nat /\
    length (chat_calls (trace w')) = 4%nat.
Proof.
  eexists _, _. split; [vm_compute; reflexivity|]. by vm_compute.
Qed.



Lemma invalid_choice_witness :
  exists w',
    menu_step 3 (sample_session 1) (start ["5"; "1"]) =
      Returned (inl (Menu, sample_session 1)) w' /\
    stdin w' = ["1"] /\
    chat_calls (trace w') = [].
Proof.
  destruct (@invalid_choice_reprompts storyteller true 3 (sample_session 1)
              (start ["5"; "1"]) "5" ["1"])
    as (w' & Hstep & _ & Hin & Hcalls & _).
  - cbn. lia.
  - reflexivity.
  - rewrite !elem_of_union, !elem_of_singleton.
    intros [[[Heq|Heq]|Heq]|Heq]; vm_compute in Heq; discriminate.
  - exists w'. split; [exact Hstep|]. split; [exact Hin|exact Hcalls].
Defined.

Lemma cancel_witness :
  exists w',
    @execution storyteller true 3 1 (inl (Menu, sample_session 1))
      (start ["2"; "   "; "1"]) (inl (Menu, sample_session 1)) w' /\
    stdin w' = ["1"] /\
    chat_calls (trace w') = [].
Proof.
  destruct (@cancel_is_free storyteller true 3 (sample_session 1)
              (start ["2"; "   "; "1"]) "2" "   " ["1"])
    as (w' & Hrun & Hin & _ & Hcalls).
  - cbn. lia.
  - reflexivity.
  - left. vm_compute. reflexivity.
  - vm_compute. reflexivity.
  - exists w'. split; [exact Hrun|]. split; [exact Hin|exact Hcalls].
Defined.

(** A run that stands between the increment and the decrement of a
    cancelled action. *)
Lemma budget_invariant_witness :
  exists w',
    @execution storyteller true 2 1
      (inl (Menu, initial_session "a cat" "A story." fail_closed_verdict "2"))
      (start ["2"; "   "; "1"])
      (inl (Action "2",
            set_customizations_used 1
              (initial_session "a cat" "A story." fail_closed_verdict "2")))
      w' /\
    0 <= 1 <= 2.
Proof.
  eexists. 
  assert (Hrun : @execution storyteller true 2 1
      (inl (Menu, initial_session "a cat" "A story." fail_closed_verdict "2"))
      (start ["2"; "   "; "1"])
      (inl (Action "2",
            set_customizations_used 1
              (initial_session "a cat" "A story." fail_closed_verdict "2")))
      (final_world
         (@loop_step storyteller true 2
            (Menu, initial_session "a cat" "A story." fail_closed_verdict "2")
            (start ["2"; "   "; "1"])))).
  { change 1%nat
      with (menus_of (Menu, initial_session "a cat" "A story."
                              fail_closed_verdict "2") + 0)%nat.
    eapply execution_step; [|apply execution_here].
    vm_compute. reflexivity. }
  split; [exact Hrun|].
  exact (@budget_invariant storyteller true 2 "a cat" "A story."
           fail_closed_verdict "2" _ _ _ _ ltac:(lia) Hrun).
Defined.

Lemma noncancelling_actions_witness :
  exists n s' w',
    @execution storyteller true 2 n
      (inl (Menu, initial_session "a cat" "A story." fail_closed_verdict "2"))
      (start ["2"; "sillier"; "3"; "9"; "1"; "1"]) (inr s') w' /\
    Z.of_nat n <= 2 + 1 /\
    @customization_menu storyteller true 2 "a cat" "A story."
      fail_closed_verdict "2" (start ["2"; "sillier"; "3"; "9"; "1"; "1"]) =
    Returned (story s', verdict s') w'.
Proof.
  refine (proj1 (@noncancelling_actions_terminate storyteller true 2
                   "a cat" "A story." fail_closed_verdict "2"
                   [["2"; "sillier"]; ["3"; "9"; "1"]] ["1"]
                   (start ["2"; "sillier"; "3"; "9"; "1"; "1"])
                   storyteller_reliable _ _ _ _)).
  - lia.
  - repeat constructor.
    + vm_compute. intros [=].
    + apply (turn_level "3" ["9"] "1"); [reflexivity| |].
      * repeat constructor. rewrite !elem_of_union, !elem_of_singleton.
        intros [[Heq|Heq]|Heq]; vm_compute in Heq; discriminate.
      * rewrite !elem_of_union, !elem_of_singleton. left. left.
        vm_compute. reflexivity.
  - reflexivity.
  - right. cbn. lia.
Defined.

(** * More of the script *)

(** ** Outcomes *)

Lemma ensures_bind {A B : Type} (m : io A) (f : A -> io B) w
    (Q' : A -> world -> Prop) (Q : B -> world -> Prop) (E : world -> Prop) :
  ensures (m w) Q' E ->
  (forall a w', m w = Returned a w' -> Q' a w' -> ensures (f a w') Q E) ->
  ensures ((m ≫= f) w) Q E.
Proof.
  unfold mbind, io_bind. destruct (m w) as [a w'|e w'|w']; cbn; [|done..].
  intros HQ Hf. by apply Hf.
Qed.

Lemma ensures_weaken {A : Type} (r : outcome A)
    (Q Q' : A -> world -> Prop) (E E' : world -> Prop) :
  ensures r Q E ->
  (forall a w, Q a w -> Q' a w) -> (forall w, E w -> E' w) ->
  ensures r Q' E'.
Proof. destruct r; cbn; eauto. Qed.

Lemma ensures_while_true {S A : Type} (body : S -> io (S + A))
    (I : S -> world -> Prop) (Q : A -> world -> Prop) (E : world -> Prop) :
  (forall s w, I s w ->
     ensures (body s w)
       (fun r w' => match r with inl s' => I s' w' | inr a => Q a w' end) E) ->
  (forall s w, I s w -> E w) ->
  forall fuel s w, I s w -> ensures (while_true fuel body s w) Q E.
Proof.
  intros Hbody Hstop fuel.
  induction fuel as [|fuel IH]; intros s w HI; [by eapply Hstop|].
  cbn [while_true]. eapply ensures_bind; [by apply Hbody|].
  intros [s'|a] w' _ Hr; [by apply IH|done].
Qed.

(** ** Loops that ask until the answer is understood *)

Section Question.

Context {A : Type}.
Variable body : unit -> io (unit + A).
Variable classify : string -> option A.

Hypothesis body_at_end : forall w,
  stdin w = [] ->
  exists w',
    body tt w = Raised EOFError w' /\ stdin w' = [] /\
    chat_calls (trace w') = chat_calls (trace w) /\
    lines_read (trace w') = lines_read (trace w).

Hypothesis body_on_line : forall w line rest,
  stdin w = line :: rest ->
  exists w',
    body tt w =
      Returned (match classify line with Some a => inr a | None => inl tt end) w' /\
    stdin w' = rest /\
    chat_calls (trace w') = chat_calls (trace w) /\
    lines_read (trace w') = lines_read (trace w) ++ [line].

Lemma question_answered refused line a rest :
  Forall (fun x => classify x = None) refused ->
  classify line = Some a ->
  forall fuel w,
    (length refused < fuel)%nat ->
    stdin w = refused ++ line :: rest ->
    exists w',
      while_true fuel body tt w = Returned a w' /\
      stdin w' = rest /\
      chat_calls (trace w') = chat_calls (trace w) /\
      lines_read (trace w') = lines_read (trace w) ++ refused ++ [line].
Proof.
  intros Hrefused Hline.
  induction Hrefused as [|x refused Hx _ IH]; intros fuel w Hfuel Hin;
    (destruct fuel as [|fuel]; [cbn in Hfuel; lia|]); cbn [while_true].
  - destruct (body_on_line w line rest Hin) as (w' & Hbody & ? & ? & ?).
    rewrite Hline in Hbody. rewrite (bind_step _ _ _ _ _ Hbody).
    by exists w'.
  - destruct (body_on_line w x (refused ++ line :: rest) Hin)
      as (w1 & Hbody & Hin1 & Hcalls1 & Hread1).
    rewrite Hx in Hbody. rewrite (bind_step _ _ _ _ _ Hbody).
    destruct (IH fuel w1) as (w' & Hrun & ? & Hcalls & Hread);
      [cbn in Hfuel; lia|done|].
    exists w'. split; [done|]. split; [done|].
    split; [congruence|]. rewrite Hread, Hread1. by rewrite <- app_assoc.
Qed.

Lemma question_unanswered lines :
  Forall (fun x => classify x = None) lines ->
  forall fuel w,
    (length lines < fuel)%nat ->
    stdin w = lines ->
    exists w',
      while_true fuel body tt w = Raised EOFError w' /\
      stdin w' = [] /\
      chat_calls (trace w') = chat_calls (trace w) /\
      lines_read (trace w') = lines_read (trace w) ++ lines.
Proof.
  intros Hlines.
  induction Hlines as [|x lines Hx _ IH]; intros fuel w Hfuel Hin;
    (destruct fuel as [|fuel]; [cbn in Hfuel; lia|]); cbn [while_true].
  - destruct (body_at_end w Hin) as (w' & Hbody & ? & ? & Hread).
    unfold mbind, io_bind. rewrite Hbody. exists w'.
    by rewrite app_nil_r.
  - destruct (body_on_line w x lines Hin)
      as (w1 & Hbody & Hin1 & Hcalls1 & Hread1).
    rewrite Hx in Hbody. rewrite (bind_step _ _ _ _ _ Hbody).
    destruct (IH fuel w1) as (w' & Hrun & ? & Hcalls & Hread);
      [cbn in Hfuel; lia|done|].
    exists w'. split; [done|]. split; [done|].
    split; [congruence|]. rewrite Hread, Hread1. by rewrite <- app_assoc.
Qed.

(** The lines ahead either hold a first one that is understood, or none. *)
Lemma first_understood (lines : list string) :
  (exists refused line a rest,
     lines = refused ++ line :: rest /\
     Forall (fun x => classify x = None) refused /\
     classify line = Some a) \/
  Forall (fun x => classify x = None) lines.
Proof.
  induction lines as [|x lines IH]; [by right|].
  destruct (classify x) as [a|] eqn:Hx.
  - left. exists [], x, a, lines. by repeat split.
  - destruct IH as [(refused & line & a & rest & -> & Hrefused & Hline)|Hnone].
    + left. exists (x :: refused), line, a, rest. repeat split; [|done].
      by constructor.
    + right. by constructor.
Qed.

(** Whatever is on the input, the loop returns the reading of the first
    line that is understood, or raises [EOFError] at the end of the input. *)
Lemma question_outcome fuel w :
  (length (stdin w) < fuel)%nat ->
  (exists refused line a rest w',
     stdin w = refused ++ line :: rest /\
     Forall (fun x => classify x = None) refused /\
     classify line = Some a /\
     while_true fuel body tt w = Returned a w' /\
     stdin w' = rest /\
     chat_calls (trace w') = chat_calls (trace w) /\
     lines_read (trace w') = lines_read (trace w) ++ refused ++ [line]) \/
  (Forall (fun x => classify x = None) (stdin w) /\
   exists w',
     while_true fuel body tt w = Raised EOFError w' /\
     stdin w' = [] /\
     chat_calls (trace w') = chat_calls (trace w) /\
     lines_read (trace w') = lines_read (trace w) ++ stdin w).
Proof.
  intros Hfuel.
  destruct (first_understood (stdin w))
    as [(refused & line & a & rest & Hin & Hrefused & Hline)|Hnone].
  - left. exists refused, line, a, rest.
    destruct (question_answered refused line a rest Hrefused Hline fuel w)
      as (w' & ? & ? & ? & ?); [|done|by exists w'].
    rewrite Hin, length_app in Hfuel. lia.
  - right. split; [done|].
    by apply (question_unanswered (stdin w) Hnone fuel w).
Qed.

End Question.

(** ** The two questions *)

Lemma select_reading_level_body_at_end w :
  stdin w = [] ->
  exists w',
    select_reading_level_body tt w = Raised EOFError w' /\ stdin w' = [] /\
    chat_calls (trace w') = chat_calls (trace w) /\
    lines_read (trace w') = lines_read (trace w).
Proof.
  intros Hin. unfold select_reading_level_body, mbind, io_bind, input.
  cbn [stdin record]. rewrite Hin. eexists. split; [reflexivity|].
  split; [done|]. by observe.
Qed.

Lemma select_reading_level_body_on_line w line rest :
  stdin w = line :: rest ->
  exists w',
    select_reading_level_body tt w =
      Returned (match level_of line with Some a => inr a | None => inl tt end) w' /\
    stdin w' = rest /\
    chat_calls (trace w') = chat_calls (trace w) /\
    lines_read (trace w') = lines_read (trace w) ++ [line].
Proof.
  intros Hin. unfold select_reading_level_body, level_of.
  erewrite bind_input by exact Hin. cbv zeta.
  case_bool_decide.
  - eexists. split; [reflexivity|]. split; [done|]. by observe.
  - rewrite bind_print. eexists. split; [reflexivity|]. split; [done|].
    by observe.
Qed.

Lemma level_of_Some line lvl :
  level_of line = Some lvl <->
  strip line ∈ ({[ "1"; "2"; "3" ]} : gset string) /\ lvl = strip line.
Proof.
  unfold level_of. case_bool_decide; split; try done.
  - by intros [= <-].
  - by intros [_ ->].
  - by intros [? _].
Qed.

Lemma level_of_None line :
  level_of line = None <->
  strip line ∉ ({[ "1"; "2"; "3" ]} : gset string).
Proof. unfold level_of. by case_bool_decide. Qed.

Lemma ask_show_judge_info_body_at_end w :
  stdin w = [] ->
  exists w',
    ask_show_judge_info_body tt w = Raised EOFError w' /\ stdin w' = [] /\
    chat_calls (trace w') = chat_calls (trace w) /\
    lines_read (trace w') = lines_read (trace w).
Proof.
  intros Hin. unfold ask_show_judge_info_body, mbind, io_bind, input.
  cbn [stdin record]. rewrite Hin. eexists. split; [reflexivity|].
  split; [done|]. by observe.
Qed.

Lemma ask_show_judge_info_body_on_line w line rest :
  stdin w = line :: rest ->
  exists w',
    ask_show_judge_info_body tt w =
      Returned (match answer_of line with Some a => inr a | None => inl tt end) w' /\
    stdin w' = rest /\
    chat_calls (trace w') = chat_calls (trace w) /\
    lines_read (trace w') = lines_read (trace w) ++ [line].
Proof.
  intros Hin. unfold ask_show_judge_info_body, answer_of.
  erewrite bind_input by exact Hin. cbv zeta.
  case_bool_decide.
  - eexists. split; [reflexivity|]. split; [done|]. by observe.
  - case_bool_decide.
    + eexists. split; [reflexivity|]. split; [done|]. by observe.
    + rewrite bind_print. eexists. split; [reflexivity|]. split; [done|].
      by observe.
Qed.

(** What [select_reading_level] does on any input. *)
Lemma select_reading_level_outcome w :
  (exists refused line lvl rest w',
     stdin w = refused ++ line :: rest /\
     Forall (fun x => level_of x = None) refused /\
     level_of line = Some lvl /\
     select_reading_level w = Returned lvl w' /\
     stdin w' = rest /\
     chat_calls (trace w') = chat_calls (trace w) /\
     lines_read (trace w') = lines_read (trace w) ++ refused ++ [line]) \/
  (Forall (fun x => level_of x = None) (stdin w) /\
   exists w',
     select_reading_level w = Raised EOFError w' /\
     stdin w' = [] /\
     chat_calls (trace w') = chat_calls (trace w) /\
     lines_read (trace w') = lines_read (trace w) ++ stdin w).
Proof.
  unfold select_reading_level. rewrite !bind_print.
  set (w0 := record _ _).
  assert (Hcalls : chat_calls (trace w0) = chat_calls (trace w))
    by (unfold w0; by observe).
  assert (Hread : lines_read (trace w0) = lines_read (trace w))
    by (unfold w0; by observe).
  rewrite <- Hcalls, <- Hread. change (stdin w) with (stdin w0).
  apply (question_outcome select_reading_level_body level_of
           select_reading_level_body_at_end
           select_reading_level_body_on_line).
  lia.
Qed.

(** What [ask_show_judge_info] does on any input. *)
Lemma ask_show_judge_info_outcome w :
  (exists refused line b rest w',
     stdin w = refused ++ line :: rest /\
     Forall (fun x => answer_of x = None) refused /\
     answer_of line = Some b /\
     ask_show_judge_info w = Returned b w' /\
     stdin w' = rest /\
     chat_calls (trace w') = chat_calls (trace w) /\
     lines_read (trace w') = lines_read (trace w) ++ refused ++ [line]) \/
  (Forall (fun x => answer_of x = None) (stdin w) /\
   exists w',
     ask_show_judge_info w = Raised EOFError w' /\
     stdin w' = [] /\
     chat_calls (trace w') = chat_calls (trace w) /\
     lines_read (trace w') = lines_read (trace w) ++ stdin w).
Proof.
  unfold ask_show_judge_info. rewrite !bind_print.
  set (w0 := record _ _).
  assert (Hcalls : chat_calls (trace w0) = chat_calls (trace w))
    by (unfold w0; by observe).
  assert (Hread : lines_read (trace w0) = lines_read (trace w))
    by (unfold w0; by observe).
  rewrite <- Hcalls, <- Hread. change (stdin w) with (stdin w0).
  apply (question_outcome ask_show_judge_info_body answer_of
           ask_show_judge_info_body_at_end
           ask_show_judge_info_body_on_line).
  lia.
Qed.

(** X1.  When [select_reading_level] returns, its result is 1, 2 or 3: it is
    the first line of the input that, stripped, is one of them.  The lines
    before it were refused, the lines after it are left on the input, and
    the service was not called. *)
Theorem select_reading_level_returns_first_level (w : world) lvl (w' : world) :
  select_reading_level w = Returned lvl w' ->
  lvl ∈ ({[ "1"; "2"; "3" ]} : gset string) /\
  exists refused line,
    stdin w = refused ++ line :: stdin w' /\
    Forall (fun x => strip x ∉ ({[ "1"; "2"; "3" ]} : gset string)) refused /\
    lvl = strip line /\
    lines_read (trace w') = lines_read (trace w) ++ refused ++ [line] /\
    chat_calls (trace w') = chat_calls (trace w).
Proof.
  intros Hrun.
  destruct (select_reading_level_outcome w)
    as [(refused & line & lvl0 & rest & w0 & Hin & Hrefused & Hline & Hrun0
         & Hrest & Hcalls & Hread)|(_ & w0 & Hrun0 & _)];
    rewrite Hrun0 in Hrun; [|done].
  injection Hrun as <- <-. apply level_of_Some in Hline as [Hlvl ->].
  split; [done|]. exists refused, line. rewrite Hrest.
  repeat split; try done.
  eapply Forall_impl; [exact Hrefused|]. intros x. by rewrite level_of_None.
Qed.

(** X2.  [select_reading_level] has no default: when no line left on the
    input is, stripped, one of 1, 2 and 3, it reads them all and raises
    [EOFError]; the service was not called. *)
Theorem select_reading_level_without_level_raises (w : world) :
  Forall (fun x => strip x ∉ ({[ "1"; "2"; "3" ]} : gset string)) (stdin w) ->
  exists w',
    select_reading_level w = Raised EOFError w' /\
    stdin w' = [] /\
    lines_read (trace w') = lines_read (trace w) ++ stdin w /\
    chat_calls (trace w') = chat_calls (trace w).
Proof.
  intros Hnone.
  destruct (select_reading_level_outcome w)
    as [(refused & line & lvl0 & rest & w0 & Hin & _ & Hline & _)
       |(_ & w0 & Hrun0 & ? & ? & ?)]; [|by exists w0].
  apply level_of_Some in Hline as [Hlvl _].
  rewrite Hin in Hnone. apply Forall_app in Hnone as [_ Hnone].
  by apply Forall_cons in Hnone as [? _].
Qed.

(** X3.  [ask_show_judge_info] returns [True] for y and yes and [False] for
    n and no, in any mix of capitals and with blanks around: the answer is
    the first line of the input that, stripped and lowered, is one of the
    four.  The lines before it were refused, the lines after it are left on
    the input, and the service was not called. *)
Theorem ask_show_judge_info_returns_first_answer (w : world) (b : bool)
    (w' : world) :
  ask_show_judge_info w = Returned b w' ->
  exists refused line,
    stdin w = refused ++ line :: stdin w' /\
    Forall (fun x => lower (strip x) ∉ ({[ "y"; "yes"; "n"; "no" ]} : gset string))
      refused /\
    (if b then lower (strip line) ∈ ({[ "y"; "yes" ]} : gset string)
     else lower (strip line) ∈ ({[ "n"; "no" ]} : gset string)) /\
    lines_read (trace w') = lines_read (trace w) ++ refused ++ [line] /\
    chat_calls (trace w') = chat_calls (trace w).
Proof.
  intros Hrun.
  destruct (ask_show_judge_info_outcome w)
    as [(refused & line & b0 & rest & w0 & Hin & Hrefused & Hline & Hrun0
         & Hrest & Hcalls & Hread)|(_ & w0 & Hrun0 & _)];
    rewrite Hrun0 in Hrun; [|done].
  injection Hrun as <- <-. exists refused, line. rewrite Hrest.
  split; [done|]. split.
  { eapply Forall_impl; [exact Hrefused|]. intros x. unfold answer_of.
    repeat case_bool_decide; try done. intros _.
    rewrite !elem_of_union, !elem_of_singleton in *. tauto. }
  split; [|done].
  unfold answer_of in Hline. repeat case_bool_decide; by simplify_eq.
Qed.

(** ** Prompts for a level that the selector does not offer *)

Lemma instructions_fall_to_level_3 (level : string) :
  level ≠ "1" -> level ≠ "2" ->
  get_spoken_style_instructions level = get_spoken_style_instructions "3" /\
  get_length_instructions level = get_length_instructions "3".
Proof.
  intros H1 H2. unfold get_spoken_style_instructions, get_length_instructions.
  destruct (String.eqb_spec level "1"); [done|].
  destruct (String.eqb_spec level "2"); [done|]. done.
Qed.

(** X4.  For a reading level other than 1, 2 and 3 the three prompts are
    those of level 3 with the label of level 2 in the place of the label of
    level 3: the spoken style and the length instructions come from the last
    branch of their functions, the label from the default of the lookup. *)
Theorem unknown_level_mixes_levels_2_and_3 (level : string) :
  level ∉ ({[ "1"; "2"; "3" ]} : gset string) ->
  (exists rest,
     generate_story_system_prompt level =
       ln "You are a warm, imaginative children's storyteller who tells bedtime stories for kids ages 5 to 10." +:+
       "Target style: " +:+ get_reading_level_label "2" +:+ rest /\
     generate_story_system_prompt "3" =
       ln "You are a warm, imaginative children's storyteller who tells bedtime stories for kids ages 5 to 10." +:+
       "Target style: " +:+ get_reading_level_label "3" +:+ rest) /\
  (exists rest,
     judge_story_system_prompt level =
       ln "You are a children's book editor reviewing a bedtime story." +:+
       "Target reading level: " +:+ get_reading_level_label "2" +:+ rest /\
     judge_story_system_prompt "3" =
       ln "You are a children's book editor reviewing a bedtime story." +:+
       "Target reading level: " +:+ get_reading_level_label "3" +:+ rest) /\
  (exists rest,
     revise_story_system_prompt level =
       ln "Revise the bedtime story using the editor's feedback and the user's suggestions." +:+
       "Keep the reading level: " +:+ get_reading_level_label "2" +:+ rest /\
     revise_story_system_prompt "3" =
       ln "Revise the bedtime story using the editor's feedback and the user's suggestions." +:+
       "Keep the reading level: " +:+ get_reading_level_label "3" +:+ rest).
Proof.
  intros Hout.
  assert (Hlabel : get_reading_level_label level = get_reading_level_label "2").
  { unfold get_reading_level_label. cbv zeta.
    by rewrite (level_labels_unknown level Hout). }
  destruct (instructions_fall_to_level_3 level) as [Hstyle Hlength].
  { intros ->. apply Hout. rewrite !elem_of_union, !elem_of_singleton. tauto. }
  { intros ->. apply Hout. rewrite !elem_of_union, !elem_of_singleton. tauto. }
  unfold generate_story_system_prompt, judge_story_system_prompt,
    revise_story_system_prompt. cbv zeta.
  rewrite Hlabel, Hstyle, Hlength.
  repeat split; eexists; split; reflexivity.
Qed.

(** ** The judge and the pipeline, once more *)

Section Agents.

Context `{!Runtime}.

Lemma setdefault_subseteq k x (d : gmap string py_value) :
  d ⊆ setdefault k x d.
Proof.
  unfold setdefault. destruct (d !! k) eqn:Hk; [done|].
  by apply insert_subseteq.
Qed.

Lemma dom_setdefault k x (d : gmap string py_value) :
  dom (setdefault k x d) = {[ k ]} ∪ dom d.
Proof.
  unfold setdefault. destruct (d !! k) as [y|] eqn:Hk.
  - apply elem_of_dom_2 in Hk. symmetry. apply subseteq_union_1_L.
    by apply singleton_subseteq_l.
  - by rewrite dom_insert_L.
Qed.

(** X5.  The judge adds to the evaluator's object and takes nothing from
    it: every field that the object has, one of the four or not, null or
    not, is in the verdict with the value it had, and the keys of the
    verdict are those of the object and the four of the format. *)
Theorem judge_keeps_the_fields_supplied
    (user_request story reading_level : string) (w : world) (raw : string)
    (d : gmap string py_value) :
  completion (trace w) (judge_request user_request story reading_level) =
    Content raw ->
  json_loads raw = Some (PDict d) ->
  exists v w',
    judge_story user_request story reading_level w = Returned v w' /\
    d ⊆ v /\
    dom v = dom d ∪ {[ "score"; "needs_revision"; "feedback_for_author";
                       "safety_warnings" ]}.
Proof.
  intros Hreply Hd. eexists _, _. split.
  { rewrite judge_story_outcome. cbv zeta. rewrite Hreply.
    unfold verdict_of_response. rewrite (parse_verdict_object raw d Hd).
    reflexivity. }
  unfold with_defaults. split.
  - repeat (etrans; [|apply setdefault_subseteq]). done.
  - rewrite !dom_setdefault. apply set_eq. intros k.
    rewrite !elem_of_union, !elem_of_singleton. tauto.
Qed.

(** X6.  The pipeline does not catch a failure of the service and does not
    try again: it never stops for any other reason than [TransportError],
    the request that failed is then the last event, and every request before
    it was answered.  When the pipeline returns, every request was
    answered. *)
Theorem pipeline_stops_at_the_first_failure
    (user_request reading_level : string) (w : world) :
  match generate_story_with_judge user_request reading_level w with
  | Returned _ w' =>
      exists evs, trace w' = trace w ++ evs /\ Forall answered evs
  | Raised e w' =>
      e = TransportError /\
      exists evs call,
        trace w' = trace w ++ evs ++ [Chatted call Failure] /\
        Forall answered evs
  | Exhausted _ => False
  end.
Proof.
  unfold generate_story_with_judge, generate_story, revise_story, mbind, io_bind.
  rewrite call_chat_outcome. cbv zeta.
  destruct (completion (trace w) _) as [story1|].
  2:{ split; [done|]. eexists [], _. split; [reflexivity|]. constructor. }
  rewrite judge_story_outcome. cbv zeta.
  destruct (completion _ _) as [raw1|].
  2:{ split; [done|]. eexists [_], _. cbn. rewrite <- app_assoc.
      split; [done|]. by repeat constructor. }
  destruct (truthy _).
  2:{ eexists [_; _]. cbn. rewrite <- app_assoc.
      split; [done|]. by repeat constructor. }
  rewrite call_chat_outcome. cbv zeta.
  destruct (completion _ _) as [story2|].
  2:{ split; [done|]. eexists [_; _], _. cbn. rewrite <- !app_assoc.
      split; [done|]. by repeat constructor. }
  rewrite judge_story_outcome. cbv zeta.
  destruct (completion _ _) as [raw2|].
  2:{ split; [done|]. eexists [_; _; _], _. cbn. rewrite <- !app_assoc.
      split; [done|]. by repeat constructor. }
  eexists [_; _; _; _]. cbn. rewrite <- !app_assoc.
  split; [done|]. by repeat constructor.
Qed.

(** X7.  The pipeline returns a story with the verdict of that story: the
    last thing it did was to ask the judge about the story it returns, for
    the request and the level it was given, and the verdict it returns is
    what [judge_story] makes of the answer. *)
Theorem pipeline_returns_a_judged_story
    (user_request reading_level : string) (w : world)
    (story : string) (verdict : gmap string py_value) (w' : world) :
  generate_story_with_judge user_request reading_level w =
    Returned (story, verdict) w' ->
  exists evs raw,
    trace w' =
      trace w ++ evs ++
      [Chatted (judge_request user_request story reading_level) (Content raw)] /\
    verdict = verdict_of_response raw.
Proof.
  unfold generate_story_with_judge, generate_story, revise_story.
  intros Hrun.
  apply bind_returned in Hrun as (story1 & w1 & Hgen & Hrun).
  apply call_chat_returned in Hgen as [_ ->].
  apply bind_returned in Hrun as (verdict1 & w2 & Hjudge & Hrun).
  apply judge_story_returned in Hjudge as (raw1 & _ & -> & ->).
  destruct (truthy _).
  - apply bind_returned in Hrun as (story2 & w3 & Hrev & Hrun).
    apply call_chat_returned in Hrev as [_ ->].
    apply bind_returned in Hrun as (verdict2 & w4 & Hjudge2 & Hrun).
    apply judge_story_returned in Hjudge2 as (raw2 & _ & -> & ->).
    injection Hrun as <- <- <-. eexists [_; _; _], raw2.
    split; [|done]. cbn. by rewrite <- !app_assoc.
  - injection Hrun as <- <- <-. eexists [_], raw1.
    split; [|done]. cbn. by rewrite <- !app_assoc.
Qed.

End Agents.

(** ** What a run spends *)

Section Spending.

Context `{!Runtime}.
Variable P : chat_call -> Prop.

Lemma spent_refl n w : 0 <= n -> spent P n w w.
Proof.
  intros Hn. exists []. rewrite app_nil_r. split; [done|]. split; [constructor|].
  cbn. lia.
Qed.

Lemma spent_trans n1 n2 w0 w1 w2 :
  spent P n1 w0 w1 -> spent P n2 w1 w2 -> spent P (n1 + n2) w0 w2.
Proof.
  intros (evs1 & Htr1 & HP1 & Hn1) (evs2 & Htr2 & HP2 & Hn2).
  exists (evs1 ++ evs2). rewrite Htr2, Htr1, app_assoc.
  split; [done|]. rewrite chat_calls_app. split; [by apply Forall_app|].
  rewrite length_app. lia.
Qed.

Lemma spent_mono n n' w w' : n <= n' -> spent P n w w' -> spent P n' w w'.
Proof.
  intros Hle (evs & Htr & HP & Hn). exists evs. split; [done|].
  split; [done|]. lia.
Qed.

Lemma spent_wrote text w : spent P 0 w (record (Wrote text) w).
Proof.
  exists [Wrote text]. split; [done|]. split; [constructor|]. cbn. lia.
Qed.

Lemma spent_chatted call reply w :
  P call -> spent P 1 w (record (Chatted call reply) w).
Proof.
  intros HP. exists [Chatted call reply]. split; [done|].
  split; [by repeat constructor|]. cbn. lia.
Qed.

(** Writing on the way does not count. *)
Lemma spent_after_wrote n text w w' :
  spent P n (record (Wrote text) w) w' -> spent P n w w'.
Proof.
  intros Hrest. replace n with (0 + n) by lia.
  eapply spent_trans; [apply spent_wrote|done].
Qed.

Lemma judged_grows req story lvl verdict n w w' :
  judged req story lvl verdict w -> spent P n w w' ->
  judged req story lvl verdict w'.
Proof.
  intros (raw & Hin & Hv) (evs & Htr & _). exists raw. split; [|done].
  rewrite Htr. apply elem_of_app. by left.
Qed.

Lemma ensures_bind_spent {A B : Type} (m : io A) (f : A -> io B) w0 w
    (Q' : A -> world -> Prop) (Q : B -> world -> Prop) n n' :
  n' <= n ->
  ensures (m w) Q' (spent P n' w0) ->
  (forall a w', Q' a w' -> ensures (f a w') Q (spent P n w0)) ->
  ensures ((m ≫= f) w) Q (spent P n w0).
Proof.
  intros Hle Hm Hf. unfold mbind, io_bind.
  destruct (m w) as [a w'|e w'|w']; cbn in *.
  - by apply Hf.
  - by eapply spent_mono.
  - by eapply spent_mono.
Qed.

Lemma input_spent prompt w0 w n :
  spent P n w0 w ->
  ensures (input prompt w) (fun _ w' => spent P n w0 w') (spent P n w0).
Proof.
  intros Hw. unfold input. cbn [stdin record].
  assert (Hprompt : spent P n w0 (record (Wrote prompt) w)).
  { replace n with (n + 0) by lia. eapply spent_trans; [done|apply spent_wrote]. }
  destruct (stdin w) as [|line rest]; cbn; [done|].
  replace n with (n + 0) by lia. eapply spent_trans; [exact Hprompt|].
  exists [Read line]. split; [done|]. split; [constructor|]. cbn. lia.
Qed.

Lemma print_spent text w0 w n :
  spent P n w0 w -> spent P n w0 (record (Wrote (ln text)) w).
Proof.
  intros Hw. replace n with (n + 0) by lia.
  eapply spent_trans; [done|apply spent_wrote].
Qed.

Lemma call_chat_spent messages max_tokens temperature w0 w n :
  P (chat_request messages max_tokens temperature) ->
  spent P n w0 w ->
  ensures (call_chat messages max_tokens temperature w)
    (fun text w' =>
       w' = record (Chatted (chat_request messages max_tokens temperature)
                      (Content text)) w /\
       spent P (n + 1) w0 w')
    (spent P (n + 1) w0).
Proof.
  intros HP Hw. rewrite call_chat_outcome. cbv zeta.
  destruct (completion _ _) as [text|]; cbn.
  - split; [done|]. eapply spent_trans; [done|by apply spent_chatted].
  - eapply spent_trans; [done|by apply spent_chatted].
Qed.

Lemma judge_story_spent req story lvl w0 w n :
  P (judge_request req story lvl) ->
  spent P n w0 w ->
  ensures (judge_story req story lvl w)
    (fun v w' => spent P (n + 1) w0 w' /\ judged req story lvl v w')
    (spent P (n + 1) w0).
Proof.
  intros HP Hw. rewrite judge_story_outcome. cbv zeta.
  destruct (completion _ _) as [raw|]; cbn.
  - split; [eapply spent_trans; [done|by apply spent_chatted]|].
    exists raw. split; [|done]. rewrite trace_record. apply elem_of_app.
    right. by apply list_elem_of_singleton.
  - eapply spent_trans; [done|by apply spent_chatted].
Qed.

(** The pipeline spends at most four requests and judges what it returns. *)
Lemma pipeline_spent req lvl w0 w n :
  serves P lvl ->
  spent P n w0 w ->
  ensures (generate_story_with_judge req lvl w)
    (fun sv w' => spent P (n + 4) w0 w' /\ judged req sv.1 lvl sv.2 w')
    (spent P (n + 4) w0).
Proof.
  intros Hserves Hw.
  unfold generate_story_with_judge, generate_story, revise_story.
  eapply (ensures_bind_spent _ _ _ _ _ _ _ (n + 1)); [lia| |].
  { apply call_chat_spent; [|done].
    apply (Hserves req EmptyString ∅ None). }
  intros story1 w1 [_ Hw1].
  eapply (ensures_bind_spent _ _ _ _ _ _ _ (n + 1 + 1)); [lia| |].
  { apply judge_story_spent; [|done].
    apply (Hserves req story1 ∅ None). }
  intros verdict1 w2 [Hw2 Hjudged].
  destruct (truthy _).
  - eapply (ensures_bind_spent _ _ _ _ _ _ _ (n + 1 + 1 + 1)); [lia| |].
    { apply call_chat_spent; [|done].
      apply (Hserves req story1 verdict1 None). }
    intros story2 w3 [_ Hw3].
    eapply (ensures_bind_spent _ _ _ _ _ _ _ (n + 1 + 1 + 1 + 1)); [lia| |].
    { apply judge_story_spent; [|done].
      apply (Hserves req story2 ∅ None). }
    intros verdict2 w4 [Hw4 Hjudged2]. cbn. split; [|done].
    eapply spent_mono; [|done]. lia.
  - cbn. split; [|done]. eapply spent_mono; [|done]. lia.
Qed.

Lemma select_reading_level_spent w0 w n :
  spent P n w0 w ->
  ensures (select_reading_level w)
    (fun lvl w' =>
       lvl ∈ ({[ "1"; "2"; "3" ]} : gset string) /\ spent P n w0 w')
    (spent P n w0).
Proof.
  intros Hw.
  assert (Hgrow : ensures (select_reading_level w)
                    (fun _ w' => spent P n w0 w') (spent P n w0)).
  { unfold select_reading_level. rewrite !bind_print.
    apply (ensures_while_true _ (fun _ w' => spent P n w0 w'));
      [|done|by repeat apply print_spent].
    intros [] w1 Hw1. unfold select_reading_level_body.
    eapply (ensures_bind_spent _ _ _ _ _ _ _ n); [lia|by apply input_spent|].
    intros line w2 Hw2. cbv zeta. case_bool_decide; [done|].
    rewrite bind_print. cbn. by apply print_spent. }
  destruct (select_reading_level w) as [lvl w'|e w'|w'] eqn:Hrun; cbn in *;
    [|done..].
  split; [|done]. by apply select_reading_level_returned in Hrun as [? _].
Qed.

Lemma ask_show_judge_info_spent w0 w n :
  spent P n w0 w ->
  ensures (ask_show_judge_info w) (fun _ w' => spent P n w0 w') (spent P n w0).
Proof.
  intros Hw. unfold ask_show_judge_info. rewrite !bind_print.
  apply (ensures_while_true _ (fun _ w' => spent P n w0 w'));
    [|done|by repeat apply print_spent].
  intros [] w1 Hw1. unfold ask_show_judge_info_body.
  eapply (ensures_bind_spent _ _ _ _ _ _ _ n); [lia|by apply input_spent|].
  intros line w2 Hw2. cbv zeta. case_bool_decide; [done|].
  case_bool_decide; [done|].
  rewrite bind_print. cbn. by apply print_spent.
Qed.

End Spending.

(** ** What the customization menu spends and keeps *)

Section MenuAccounts.

Context `{!Runtime}.
Variable P : chat_call -> Prop.
Variable show_judge_info : bool.
Variable max_customizations : Z.

Lemma show_update_grows (s : session) (w : world) :
  exists w',
    show_update show_judge_info s w = Returned (inl (Menu, s)) w' /\
    spent P 0 w w'.
Proof.
  unfold show_update. rewrite !bind_print.
  destruct show_judge_info.
  - unfold mbind at 1, io_bind. rewrite !bind_print.
    eexists. split; [reflexivity|].
    repeat apply print_spent. by apply spent_refl.
  - eexists. split; [reflexivity|].
    repeat apply print_spent. by apply spent_refl.
Qed.

Lemma action_step_spent choice (s : session) (w : world) :
  serves P (reading_level s) ->
  (forall lvl, lvl ∈ ({[ "1"; "2"; "3" ]} : gset string) -> serves P lvl) ->
  ensures (action_step show_judge_info choice s w)
    (action_post P choice s w) (spent P 4 w).
Proof.
  intros Hserves Hlevels. unfold action_step.
  assert (Hstart : forall text, spent P 0 w (record (Wrote (ln text)) w))
    by (intros; apply print_spent; by apply spent_refl).
  destruct (String.eqb_spec choice "2") as [->|Hne2].
  { rewrite bind_print.
    eapply ensures_bind_spent with (n' := 0); [lia|by apply input_spent|].
    intros line w1 Hw1. cbv zeta.
    destruct (String.eqb_spec (strip line) EmptyString) as [Hempty|Hfull].
    - rewrite bind_print. cbn. eexists. split; [reflexivity|]. left.
      split; [by left|]. split; [done|]. by apply print_spent.
    - rewrite bind_print. unfold revise_story.
      eapply ensures_bind_spent with (n' := (0 + 1)); [lia| |].
      { apply call_chat_spent; [|by apply print_spent].
        apply (Hserves (current_request s) (story s) (verdict s)
                 (Some (strip line))). }
      intros new_story w2 [_ Hw2].
      eapply ensures_bind_spent with (n' := (0 + 1 + 1)); [lia| |].
      { apply judge_story_spent; [|done].
        apply (Hserves (current_request s) new_story ∅ None). }
      intros new_verdict w3 [Hw3 Hjudged].
      destruct (show_update_grows
                  (set_story_verdict (new_story, new_verdict) s) w3)
        as (w4 & -> & Hgrow).
      cbn. eexists. split; [reflexivity|]. right. left.
      split; [done|]. split.
      { eapply spent_mono; [|eapply spent_trans; [exact Hw3|exact Hgrow]]. lia. }
      split; [by eapply judged_grows|]. by left. }
  destruct (String.eqb_spec choice "3") as [->|Hne3].
  { rewrite bind_print.
    eapply ensures_bind_spent with (n' := 0); [lia| |].
    { by apply select_reading_level_spent. }
    intros lvl w1 [Hlvl Hw1]. cbv zeta. rewrite bind_print.
    eapply ensures_bind_spent with (n' := (0 + 4)); [lia| |].
    { apply pipeline_spent; [by apply Hlevels|by apply print_spent]. }
    intros sv w2 [Hw2 Hjudged].
    destruct (show_update_grows
                (set_story_verdict sv (set_reading_level lvl s)) w2)
      as (w3 & -> & Hgrow).
    cbn. eexists. split; [reflexivity|]. right. left.
    split; [done|]. split.
    { eapply spent_mono; [|eapply spent_trans; [exact Hw2|exact Hgrow]]. lia. }
    split; [by eapply judged_grows|]. right. left. done. }
  destruct (String.eqb_spec choice "4") as [->|Hne4].
  { rewrite bind_print.
    eapply ensures_bind_spent with (n' := 0); [lia|by apply input_spent|].
    intros line w1 Hw1. cbv zeta.
    destruct (String.eqb_spec (strip line) EmptyString) as [Hempty|Hfull].
    - rewrite bind_print. cbn. eexists. split; [reflexivity|]. left.
      split; [by right|]. split; [done|]. by apply print_spent.
    - rewrite bind_print.
      eapply ensures_bind_spent with (n' := (0 + 4)); [lia| |].
      { apply pipeline_spent; [exact Hserves|by apply print_spent]. }
      intros sv w2 [Hw2 Hjudged].
      destruct (show_update_grows
                  (set_story_verdict sv (set_current_request (strip line) s)) w2)
        as (w3 & -> & Hgrow).
      cbn. eexists. split; [reflexivity|]. right. left.
      split; [done|]. split.
      { eapply spent_mono; [|eapply spent_trans; [exact Hw2|exact Hgrow]]. lia. }
      split; [by eapply judged_grows|]. right. right. done. }
  destruct (show_update_grows s w) as (w1 & -> & Hgrow).
  cbn. eexists. split; [reflexivity|]. right. right.
  split; [|done]. rewrite !elem_of_union, !elem_of_singleton. tauto.
Qed.

Lemma menu_step_spent (s : session) (w : world) :
  ensures (menu_step max_customizations s w)
    (fun c w' =>
       spent P 0 w w' /\
       (c = inr s \/ c = inl (Menu, s) \/
        (0 < max_customizations - customizations_used s /\
         exists choice,
           choice ∈ ({[ "2"; "3"; "4" ]} : gset string) /\
           c = inl (Action choice,
                    set_customizations_used (customizations_used s + 1) s))))
    (spent P 0 w).
Proof.
  unfold menu_step. rewrite !bind_print.
  destruct (Z.leb_spec (max_customizations - customizations_used s) 0).
  - rewrite !bind_print. cbn. split; [|by left].
    repeat apply print_spent. by apply spent_refl.
  - eapply ensures_bind_spent with (n' := 0); [lia| |].
    { apply input_spent. repeat apply print_spent. by apply spent_refl. }
    intros line w1 Hw1. cbv zeta.
    destruct (String.eqb _ _); [cbn; split; [done|by left]|].
    case_bool_decide; cbn [negb].
    + cbn. split; [done|]. right. right. split; [lia|]. eauto.
    + rewrite bind_print. cbn. split; [by apply print_spent|]. right. by left.
Qed.

Lemma loop_step_keeps_invariant (w0 : world) (story0 : string)
    (verdict0 : gmap string py_value) cs w :
  (forall lvl, lvl ∈ ({[ "1"; "2"; "3" ]} : gset string) -> serves P lvl) ->
  menu_invariant P max_customizations w0 story0 verdict0 cs w ->
  ensures (loop_step show_judge_info max_customizations cs w)
    (fun r w' =>
       match r with
       | inl cs' => menu_invariant P max_customizations w0 story0 verdict0 cs' w'
       | inr s' =>
           spent P (4 * max_customizations) w0 w' /\
           ((story s', verdict s') = (story0, verdict0) \/ session_judged s' w')
       end)
    (spent P (4 * max_customizations) w0).
Proof.
  intros Hlevels (Hbudget & Hserves & Hspent & Hpair).
  destruct cs as [[|choice] s]; unfold loop_step, within_budget in *;
    cbn [fst snd] in *.
  - eapply ensures_weaken; [apply menu_step_spent| |].
    + intros c w' [Hgrow Hc].
      assert (Hpair' : (story s, verdict s) = (story0, verdict0) \/
                       session_judged s w').
      { destruct Hpair as [?|?]; [by left|right]. by eapply judged_grows. }
      assert (Hspent' : spent P (4 * (customizations_used s - 0)) w0 w').
      { eapply spent_mono; [|eapply spent_trans; [exact Hspent|exact Hgrow]].
        lia. }
      destruct Hc as [->|[->|(Hlt & choice & Hchoice & ->)]].
      * split; [|done]. eapply spent_mono; [|exact Hspent']. lia.
      * done.
      * split; [unfold within_budget; cbn; split; [lia|done]|].
        split; [done|]. split; [|done]. cbn.
        eapply spent_mono; [|exact Hspent']. lia.
    + intros w' Hgrow.
      eapply spent_mono; [|eapply spent_trans; [exact Hspent|exact Hgrow]]. lia.
  - destruct Hbudget as [Hused Hchoice].
    eapply ensures_weaken; [by apply action_step_spent| |].
    + intros c w' (s' & -> & [(_ & -> & Hgrow)|[(Hsame & Hgrow & Hjudged & Hkind)
                                               |(Hnot & _)]]); [| |done].
      * split; [unfold within_budget; cbn; lia|]. split; [done|]. cbn. split.
        { eapply spent_mono; [|eapply spent_trans; [exact Hspent|exact Hgrow]].
          lia. }
        destruct Hpair as [?|?]; [by left|right]. by eapply judged_grows.
      * split; [unfold within_budget; cbn; lia|]. cbn. split.
        { destruct Hkind as [(_ & _ & ->)|[(_ & _ & Hlvl)|(_ & -> & _)]];
            [done|by apply Hlevels|done]. }
        split; [|by right].
        eapply spent_mono; [|eapply spent_trans; [exact Hspent|exact Hgrow]].
        lia.
    + intros w' Hgrow.
      eapply spent_mono; [|eapply spent_trans; [exact Hspent|exact Hgrow]]. lia.
Qed.

(** The menu as a whole: whatever its outcome it has spent at most four
    requests for each customization of the budget, and when it returns, the
    story is the one it was given, with its verdict, or has been judged. *)
Lemma customization_menu_spent
    (initial_request initial_story : string)
    (initial_verdict : gmap string py_value) (reading_level : string)
    (w : world) :
  0 <= max_customizations ->
  serves P reading_level ->
  (forall lvl, lvl ∈ ({[ "1"; "2"; "3" ]} : gset string) -> serves P lvl) ->
  ensures
    (customization_menu show_judge_info max_customizations initial_request
       initial_story initial_verdict reading_level w)
    (fun sv w' =>
       spent P (4 * max_customizations) w w' /\
       (sv = (initial_story, initial_verdict) \/
        exists req lvl, judged req sv.1 lvl sv.2 w'))
    (spent P (4 * max_customizations) w).
Proof.
  intros Hmax Hserves Hlevels. unfold customization_menu. cbv zeta.
  eapply ensures_bind.
  - apply (ensures_while_true _
             (menu_invariant P max_customizations w initial_story
                initial_verdict)).
    + intros cs w1 Hinv. by apply loop_step_keeps_invariant.
    + intros [pc s] w1 (Hbudget & _ & Hspent & _).
      eapply spent_mono; [|exact Hspent].
      unfold within_budget in Hbudget. destruct pc; cbn in *; lia.
    + split; [unfold within_budget; cbn; lia|]. split; [done|].
      split; [by apply spent_refl|]. by left.
  - intros s w' _ [Hspent Hpair]. cbn. split; [done|].
    destruct Hpair as [?|?]; [by left|right].
    unfold session_judged in *. eauto.
Qed.

End MenuAccounts.

(** ** The menu: what an action changes, what a run costs, what it returns *)

Section MenuFacts.

Context `{!Runtime}.
Variable show_judge_info : bool.
Variable max_customizations : Z.

Lemma serves_anything lvl : serves (fun _ => True) lvl.
Proof. by intros req story feedback instr. Qed.

Lemma spent_final {A : Type} (P : chat_call -> Prop) n w (r : outcome A) :
  ensures r (fun _ w' => spent P n w w') (spent P n w) ->
  spent P n w (final_world r).
Proof. by destruct r. Qed.

(** X8.  As the docstring of [customization_menu] says, the reading level
    is preserved unless it is changed by choice 3, and then it is one of 1,
    2 and 3; likewise the request is preserved unless it is changed by
    choice 4, and then it is not empty.  This holds of every stretch of the
    loop body that returns. *)
Theorem level_and_request_change_only_on_demand
    (cs : control * session) (w : world)
    (c : control * session + session) (w' : world) :
  loop_step show_judge_info max_customizations cs w = Returned c w' ->
  (cs.1 ≠ Action "3" ->
   reading_level (session_of c) = reading_level cs.2) /\
  (cs.1 = Action "3" ->
   reading_level (session_of c) ∈ ({[ "1"; "2"; "3" ]} : gset string)) /\
  (cs.1 ≠ Action "4" ->
   current_request (session_of c) = current_request cs.2) /\
  (cs.1 = Action "4" ->
   current_request (session_of c) = current_request cs.2 \/
   current_request (session_of c) ≠ EmptyString).
Proof.
  destruct cs as [[|choice] s]; unfold loop_step; cbn [fst snd]; intros Hrun.
  - apply menu_step_returned in Hrun
      as [(_ & -> & _)|(_ & line & _ & [[_ ->]|[[_ ->]|[_ ->]]])];
      by repeat split.
  - pose proof (action_step_spent (fun _ => True) show_judge_info choice s w
                  (serves_anything _) (fun lvl _ => serves_anything lvl))
      as Hspec.
    rewrite Hrun in Hspec. cbn in Hspec.
    destruct Hspec as (s' & -> & [(Hc & -> & _)|[(_ & _ & _ & Hkind)|(Hnot & -> & _)]]);
      cbn [session_of snd].
    + split; [done|]. split; [by intros [= ->]; destruct Hc|].
      split; [done|]. by left.
    + destruct Hkind as [(-> & Hreq & Hlvl)|[(-> & Hreq & Hlvl)|(-> & Hlvl & Hreq)]].
      * split; [done|]. split; [by intros [=]|]. split; [done|]. by left.
      * split; [by intros []|]. split; [done|]. split; [done|]. by left.
      * split; [done|]. split; [by intros [=]|]. split; [by intros []|].
        by right.
    + split; [done|]. split.
      { intros [= ->]. exfalso. apply Hnot.
        rewrite !elem_of_union, !elem_of_singleton. tauto. }
      split; [done|]. by left.
Qed.

(** The menu with a negative budget returns at its first test. *)
Lemma customization_menu_negative_budget
    (initial_request initial_story : string)
    (initial_verdict : gmap string py_value) (reading_level : string)
    (w : world) :
  max_customizations <= 0 ->
  exists w',
    customization_menu show_judge_info max_customizations initial_request
      initial_story initial_verdict reading_level w =
    Returned (initial_story, initial_verdict) w' /\
    spent (fun _ => True) 0 w w'.
Proof.
  intros Hneg. unfold customization_menu. cbv zeta.
  set (s := initial_session _ _ _ _).
  assert (Hle : max_customizations - customizations_used s <= 0) by (cbn; lia).
  eexists. split.
  - erewrite bind_step; last first.
    { cbn [while_true]. unfold loop_step. cbn [fst snd].
      by rewrite (bind_step _ _ _ _ _ (menu_step_exhausted _ s w Hle)). }
    reflexivity.
  - cbn [foldl printed map app menu_lines].
    repeat apply print_spent. by apply spent_refl.
Qed.

(** X9.  A run of the menu costs at most four requests to the service for
    each customization of the budget, however it ends: by a return, by the
    end of the input or by a failure of the service. *)
Theorem menu_spends_at_most_four_requests_per_customization
    (initial_request initial_story : string)
    (initial_verdict : gmap string py_value) (reading_level : string)
    (w : world) :
  exists evs,
    trace (final_world
             (customization_menu show_judge_info max_customizations
                initial_request initial_story initial_verdict reading_level w))
      = trace w ++ evs /\
    Z.of_nat (length (chat_calls evs)) <= 4 * Z.max 0 max_customizations.
Proof.
  assert (Hspent : spent (fun _ => True) (4 * Z.max 0 max_customizations) w
            (final_world
               (customization_menu show_judge_info max_customizations
                  initial_request initial_story initial_verdict reading_level
                  w))).
  { destruct (Z.le_gt_cases 0 max_customizations) as [Hmax|Hneg].
    - rewrite Z.max_r by done. apply spent_final.
      eapply ensures_weaken;
        [apply (customization_menu_spent (fun _ => True)); [done|..]| |];
        [apply serves_anything|intros; apply serves_anything| |done].
      by intros sv w' [? _].
    - destruct (customization_menu_negative_budget initial_request
                  initial_story initial_verdict reading_level w)
        as (w' & -> & Hgrow); [lia|].
      eapply spent_mono; [|exact Hgrow]. lia. }
  destruct Hspent as (evs & Htr & _ & Hn). by exists evs.
Qed.

(** X10.  The menu returns a story with the verdict of that story: either
    the pair it was given, or a story about which the judge was asked, with
    what [judge_story] made of the answer. *)
Theorem menu_returns_a_judged_story
    (initial_request initial_story : string)
    (initial_verdict : gmap string py_value) (reading_level : string)
    (w : world) (story : string) (verdict : gmap string py_value)
    (w' : world) :
  customization_menu show_judge_info max_customizations initial_request
    initial_story initial_verdict reading_level w =
  Returned (story, verdict) w' ->
  (story, verdict) = (initial_story, initial_verdict) \/
  exists req lvl raw,
    Chatted (judge_request req story lvl) (Content raw) ∈ trace w' /\
    verdict = verdict_of_response raw.
Proof.
  intros Hrun.
  destruct (Z.le_gt_cases 0 max_customizations) as [Hmax|Hneg].
  - pose proof (customization_menu_spent (fun _ => True) show_judge_info
                  max_customizations initial_request initial_story
                  initial_verdict reading_level w Hmax (serves_anything _)
                  (fun lvl _ => serves_anything lvl)) as Hspec.
    rewrite Hrun in Hspec. cbn in Hspec.
    destruct Hspec as [_ [?|(req & lvl & raw & ? & ?)]]; [by left|right].
    by exists req, lvl, raw.
  - destruct (customization_menu_negative_budget initial_request
                initial_story initial_verdict reading_level w)
      as (w1 & Hrun1 & _); [lia|].
    rewrite Hrun1 in Hrun. injection Hrun as <- <- _. by left.
Qed.

(** X11.  With budget left, the menu at the end of the input raises
    [EOFError]: it does not take the end of the input for an accept, and it
    does not call the service. *)
Theorem menu_at_end_of_input_raises
    (initial_request initial_story : string)
    (initial_verdict : gmap string py_value) (reading_level : string)
    (w : world) :
  0 < max_customizations ->
  stdin w = [] ->
  exists w',
    customization_menu show_judge_info max_customizations initial_request
      initial_story initial_verdict reading_level w = Raised EOFError w' /\
    chat_calls (trace w') = chat_calls (trace w).
Proof.
  intros Hmax Hin.
  set (s := initial_session initial_request initial_story initial_verdict
              reading_level).
  assert (Hstep : exists w',
            menu_step max_customizations s w = Raised EOFError w' /\
            chat_calls (trace w') = chat_calls (trace w)).
  { unfold menu_step. rewrite !bind_print.
    destruct (Z.leb_spec (max_customizations - customizations_used s) 0);
      [cbn in *; lia|].
    unfold mbind, io_bind, input. cbn [stdin record]. rewrite Hin.
    eexists. split; [reflexivity|]. by observe. }
  destruct Hstep as (w' & Hstep & Hcalls). exists w'. split; [|done].
  unfold customization_menu. cbv zeta. fold s.
  unfold mbind at 1, io_bind. cbn [while_true].
  unfold loop_step. cbn [fst snd].
  unfold mbind at 1, io_bind. by rewrite Hstep.
Qed.

End MenuFacts.

(** ** [main] *)

Section MainFacts.

Context `{!Runtime}.

Lemma bind_assoc {A B C : Type} (m : io A) (f : A -> io B) (g : B -> io C) w :
  ((m ≫= f) ≫= g) w = (m ≫= fun a => f a ≫= g) w.
Proof. unfold mbind, io_bind. by destruct (m w). Qed.

Lemma bind_ret {A B : Type} (a : A) (g : A -> io B) w :
  (mret a ≫= g) w = g a w.
Proof. reflexivity. Qed.

Lemma agents_serve_the_levels lvl :
  lvl ∈ ({[ "1"; "2"; "3" ]} : gset string) -> serves agent_request lvl.
Proof.
  intros Hlvl req story feedback instr. unfold agent_request.
  repeat split; exists lvl; (split; [done|]); eauto 10.
Qed.

(** From the first story on: [main] shows it, runs the menu with a budget
    of three and says goodbye. *)
Lemma main_tail_spent (P : chat_call -> Prop) (show_judge : bool)
    (user_request reading_level : string)
    (sv : string * gmap string py_value) w0 w n :
  (forall lvl, lvl ∈ ({[ "1"; "2"; "3" ]} : gset string) -> serves P lvl) ->
  reading_level ∈ ({[ "1"; "2"; "3" ]} : gset string) ->
  spent P n w0 w ->
  ensures
    ((print ("========== YOUR BEDTIME STORY ==========" +:+ nl);;
      print sv.1;;
      print (nl +:+ "========================================" +:+ nl);;
      (if show_judge then
         print "Judge Summary:";;
         print ("- Score: " +:+ py_str (dict_get "score" PNone sv.2));;
         print ("- Needs revision? " +:+ py_str (dict_get "needs_revision" PNone sv.2));;
         print ("- Safety notes: " +:+ py_str (dict_get "safety_warnings" PNone sv.2));;
         print ("- Feedback: " +:+ py_str (dict_get "feedback_for_author" PNone sv.2))
       else mret tt);;
      customization_menu show_judge 3 user_request sv.1 sv.2 reading_level;;
      print (nl +:+ "🌟 Final story selected. Sweet dreams! 🌟")) w)
    (fun _ w' => spent P (n + 12) w0 w')
    (spent P (n + 12) w0).
Proof.
  intros Hlevels Hlvl Hw. rewrite !bind_print.
  assert (Hmenu : forall w1,
            spent P n w0 w1 ->
            ensures
              ((customization_menu show_judge 3 user_request sv.1 sv.2
                  reading_level;;
                print (nl +:+ "🌟 Final story selected. Sweet dreams! 🌟")) w1)
              (fun _ w' => spent P (n + 12) w0 w')
              (spent P (n + 12) w0)).
  { intros w1 Hw1. eapply ensures_bind.
    - eapply ensures_weaken;
        [apply (customization_menu_spent P show_judge 3); [lia|by apply Hlevels|done]
        | |].
      + intros sv' w' [Hmenu _]. exact (spent_trans P _ _ _ _ _ Hw1 Hmenu).
      + intros w' Hmenu. exact (spent_trans P _ _ _ _ _ Hw1 Hmenu).
    - intros sv' w' _ Hw'. cbn. by apply print_spent. }
  destruct show_judge.
  - rewrite !bind_assoc, !bind_print. apply Hmenu.
    by repeat apply print_spent.
  - rewrite bind_ret. apply Hmenu. by repeat apply print_spent.
Qed.

Lemma main_spent (P : chat_call -> Prop) (w : world) :
  (forall lvl, lvl ∈ ({[ "1"; "2"; "3" ]} : gset string) -> serves P lvl) ->
  ensures (main w) (fun _ w' => spent P 16 w w') (spent P 16 w).
Proof.
  intros Hlevels. unfold main. rewrite !bind_print.
  eapply ensures_bind_spent with (n' := 0); [lia| |].
  { apply input_spent. repeat apply print_spent. by apply spent_refl. }
  intros user_request w1 Hw1.
  eapply ensures_bind_spent with (n' := 0); [lia| |].
  { by apply select_reading_level_spent. }
  intros reading_level w2 [Hlvl Hw2].
  eapply ensures_bind_spent with (n' := 0); [lia| |].
  { by apply ask_show_judge_info_spent. }
  intros show_judge w3 Hw3. rewrite bind_print.
  eapply ensures_bind_spent with (n' := 0 + 4); [lia| |].
  { apply pipeline_spent; [by apply Hlevels|by apply print_spent]. }
  intros sv w4 [Hw4 _].
  by apply (main_tail_spent P show_judge user_request reading_level sv w w4 (0 + 4)).
Qed.

(** X12.  Whatever is typed and whatever the service answers, every request
    that [main] sends is one that the storyteller, the judge or the reviser
    builds for a reading level of the selector, 1, 2 or 3: no other level
    reaches the prompts. *)
Theorem main_sends_requests_for_the_three_levels_only (w : world) :
  exists evs,
    trace (final_world (main w)) = trace w ++ evs /\
    Forall agent_request (chat_calls evs).
Proof.
  destruct (spent_final agent_request 16 w (main w)
              (main_spent agent_request w agents_serve_the_levels))
    as (evs & Htr & Hreq & _).
  by exists evs.
Qed.

(** X13.  A session costs at most sixteen requests to the service, however
    [main] ends and whatever is typed: four for the first story and four
    for each of the three customizations. *)
Theorem main_spends_at_most_sixteen_requests (w : world) :
  exists evs,
    trace (final_world (main w)) = trace w ++ evs /\
    (length (chat_calls evs) <= 16)%nat.
Proof.
  destruct (spent_final (fun _ => True) 16 w (main w)
              (main_spent (fun _ => True) w
                 (fun lvl _ => serves_anything lvl)))
    as (evs & Htr & _ & Hn).
  exists evs. split; [done|]. lia.
Qed.

(** The questions of [main]: where it stands when they are answered, or
    how it ends when the input ends first.  No request has been sent. *)
Lemma main_questions (w : world) :
  (exists w',
     main w = Raised EOFError w' /\
     chat_calls (trace w') = chat_calls (trace w) /\
     stdin w' = []) \/
  (exists user_request rest reading_level show_judge w3,
     stdin w = user_request :: rest /\
     reading_level ∈ ({[ "1"; "2"; "3" ]} : gset string) /\
     chat_calls (trace w3) = chat_calls (trace w) /\
     (length (stdin w3) + 3 <= length (stdin w))%nat /\
     main w =
       (sv ← generate_story_with_judge user_request reading_level;
        print ("========== YOUR BEDTIME STORY ==========" +:+ nl);;
        print sv.1;;
        print (nl +:+ "========================================" +:+ nl);;
        (if show_judge then
           print "Judge Summary:";;
           print ("- Score: " +:+ py_str (dict_get "score" PNone sv.2));;
           print ("- Needs revision? " +:+ py_str (dict_get "needs_revision" PNone sv.2));;
           print ("- Safety notes: " +:+ py_str (dict_get "safety_warnings" PNone sv.2));;
           print ("- Feedback: " +:+ py_str (dict_get "feedback_for_author" PNone sv.2))
         else mret tt);;
        customization_menu show_judge 3 user_request sv.1 sv.2 reading_level;;
        print (nl +:+ "🌟 Final story selected. Sweet dreams! 🌟")) w3).
Proof.
  unfold main. rewrite !bind_print.
  set (w0 := record _ (record _ w)).
  assert (Hcalls0 : chat_calls (trace w0) = chat_calls (trace w))
    by (unfold w0; by observe).
  destruct (stdin w) as [|user_request rest] eqn:Hin.
  { left. unfold mbind at 1, io_bind, input. cbn [stdin record].
    assert (Hin0 : stdin w0 = []) by done. rewrite Hin0.
    eexists. split; [reflexivity|]. split; [by observe|done]. }
  erewrite bind_input by exact Hin.
  set (w1 := {| stdin := rest; trace := _ |}).
  assert (Hcalls1 : chat_calls (trace w1) = chat_calls (trace w))
    by (unfold w1; cbn [trace]; observe; by rewrite Hcalls0, ?app_nil_r).
  destruct (select_reading_level_outcome w1)
    as [(refused & line & lvl & rest1 & w2 & Hin1 & _ & Hline & Hsel & Hrest1
         & Hcalls2 & _)|(_ & w2 & Hsel & Hend & Hcalls2 & _)].
  2:{ left. unfold mbind at 1, io_bind. rewrite Hsel. exists w2.
      split; [done|]. split; [congruence|done]. }
  rewrite (bind_step _ _ _ _ _ Hsel).
  apply level_of_Some in Hline as [Hlvl ->].
  destruct (ask_show_judge_info_outcome w2)
    as [(refused' & line' & b & rest2 & w3 & Hin2 & _ & _ & Hask & Hrest2
         & Hcalls3 & _)|(_ & w3 & Hask & Hend & Hcalls3 & _)].
  2:{ left. unfold mbind at 1, io_bind. rewrite Hask. exists w3.
      split; [done|]. split; [congruence|done]. }
  rewrite (bind_step _ _ _ _ _ Hask). rewrite bind_print. right.
  eexists user_request, rest, (strip line), b, _.
  split; [done|]. split; [done|]. split; [|split; [|reflexivity]].
  - observe. rewrite ?app_nil_r. congruence.
  - cbn [stdin record]. rewrite Hrest2.
    assert (Hr : rest = refused ++ line :: rest1) by exact Hin1.
    rewrite Hrest1 in Hin2. rewrite Hr, Hin2.
    cbn [length]. rewrite !length_app. cbn [length]. rewrite !length_app.
    cbn [length]. lia.
Qed.

(** X14.  [main] asks its three questions before anything else: on an
    input of fewer than three lines it raises [EOFError] and no request has
    been sent to the service. *)
Theorem main_needs_three_lines (w : world) :
  (length (stdin w) < 3)%nat ->
  exists w',
    main w = Raised EOFError w' /\
    chat_calls (trace w') = chat_calls (trace w).
Proof.
  intros Hshort.
  destruct (main_questions w)
    as [(w' & Hrun & Hcalls & _)|(? & ? & ? & ? & w3 & _ & _ & _ & Hlen & _)].
  - by exists w'.
  - lia.
Qed.

(** X15.  When [main] sends any request at all, the first one is the
    storyteller's, for the first line of the input exactly as it was typed
    (it is not stripped, and an empty line is a request like any other) and
    for a level of the selector. *)
Theorem main_first_asks_for_the_story_as_typed (w : world)
    (call : chat_call) (more : list chat_call) :
  chat_calls (trace (final_world (main w))) =
    chat_calls (trace w) ++ call :: more ->
  exists user_request rest reading_level,
    stdin w = user_request :: rest /\
    reading_level ∈ ({[ "1"; "2"; "3" ]} : gset string) /\
    call = generate_request user_request reading_level.
Proof.
  intros Hfirst.
  destruct (main_questions w)
    as [(w' & Hrun & Hcalls & _)
       |(user_request & rest & reading_level & show_judge & w3 & Hin & Hlvl
         & Hcalls & _ & Hrun)].
  { rewrite Hrun in Hfirst. cbn [final_world] in Hfirst.
    rewrite Hcalls in Hfirst. apply (f_equal length) in Hfirst.
    rewrite length_app in Hfirst. cbn in Hfirst. lia. }
  exists user_request, rest, reading_level. split; [done|]. split; [done|].
  assert (Hbegins : exists others,
            chat_calls (trace (final_world (main w))) =
            chat_calls (trace w) ++
            generate_request user_request reading_level :: others).
  { rewrite Hrun. clear Hrun Hfirst.
    unfold generate_story_with_judge, generate_story.
    rewrite bind_assoc. unfold mbind at 1, io_bind.
    rewrite call_chat_outcome. cbv zeta.
    fold (generate_request user_request reading_level).
    set (gen := generate_request user_request reading_level).
    destruct (completion (trace w3) gen) as [story1|].
    2:{ exists []. cbn [final_world]. observe. by rewrite Hcalls. }
    set (w4 := record (Chatted gen (Content story1)) w3).
    match goal with
    | |- context [final_world ?r] =>
        assert (Hspent : spent (fun _ => True) 15 w4 (final_world r))
    end.
    { apply spent_final. rewrite bind_assoc.
      eapply ensures_bind_spent with (n' := 0 + 1); [lia| |].
      { apply judge_story_spent; [done|by apply spent_refl]. }
      intros verdict1 w5 [Hw5 _].
      assert (Htail : forall sv w6,
                spent (fun _ => True) 3 w4 w6 ->
                ensures
                  ((mret sv ≫= fun sv =>
                    print ("========== YOUR BEDTIME STORY ==========" +:+ nl);;
                    print sv.1;;
                    print (nl +:+ "========================================" +:+ nl);;
                    (if show_judge then
                       print "Judge Summary:";;
                       print ("- Score: " +:+ py_str (dict_get "score" PNone sv.2));;
                       print ("- Needs revision? " +:+ py_str (dict_get "needs_revision" PNone sv.2));;
                       print ("- Safety notes: " +:+ py_str (dict_get "safety_warnings" PNone sv.2));;
                       print ("- Feedback: " +:+ py_str (dict_get "feedback_for_author" PNone sv.2))
                     else mret tt);;
                    customization_menu show_judge 3 user_request sv.1 sv.2
                      reading_level;;
                    print (nl +:+ "🌟 Final story selected. Sweet dreams! 🌟")) w6)
                  (fun _ w' => spent (fun _ => True) 15 w4 w')
                  (spent (fun _ => True) 15 w4)).
      { intros sv w6 Hw6. rewrite bind_ret.
        apply (main_tail_spent (fun _ => True) show_judge user_request
                 reading_level sv w4 w6 3);
          [intros; apply serves_anything|done|done]. }
      destruct (truthy _).
      - rewrite bind_assoc. unfold revise_story.
        eapply ensures_bind_spent with (n' := 0 + 1 + 1); [lia| |].
        { by apply call_chat_spent. }
        intros story2 w6 [_ Hw6]. rewrite bind_assoc.
        eapply ensures_bind_spent with (n' := 0 + 1 + 1 + 1); [lia| |].
        { by apply judge_story_spent. }
        intros verdict2 w7 [Hw7 _]. apply Htail.
        eapply spent_mono; [|exact Hw7]. lia.
      - apply Htail. eapply spent_mono; [|exact Hw5]. lia. }
    destruct Hspent as (evs & -> & _). exists (chat_calls evs).
    unfold w4. observe. by rewrite Hcalls, <- app_assoc. }
  destruct Hbegins as (others & Hbegins). rewrite Hbegins in Hfirst.
  apply app_inv_head in Hfirst. by injection Hfirst as <- _.
Qed.

(** X16.  The script runs [main] only with a key: when [OPENAI_API_KEY] is
    not set, or set to the empty string, loading the module raises
    [RuntimeError] and [main] is not run; with any other value [main] is
    run. *)
Theorem script_runs_main_only_with_a_key
    (environ : gmap string string) (w : world) :
  ((environ !! "OPENAI_API_KEY" = None \/
    environ !! "OPENAI_API_KEY" = Some EmptyString) /\
   exists message, script environ w = Aborted message) \/
  (exists key,
     environ !! "OPENAI_API_KEY" = Some key /\ key ≠ EmptyString /\
     script environ w = Ran (main w)).
Proof.
  unfold script, get_client. cbv zeta.
  destruct (environ !! "OPENAI_API_KEY") as [key|]; [|left; eauto].
  destruct (String.eqb_spec key EmptyString) as [->|Hkey].
  - left. eauto.
  - right. by exists key.
Qed.

End MainFacts.

(** ** Runs

    The properties above that have a precondition, each on a concrete run
    of the script. *)

Lemma select_reading_level_returns_first_level_witness :
  exists refused line,
    stdin (start ["five"; " 2 "; "y"]) =
      refused ++ line ::
      stdin (final_world (select_reading_level (start ["five"; " 2 "; "y"]))) /\
    "2" = strip line.
Proof.
  destruct (select_reading_level_returns_first_level
              (start ["five"; " 2 "; "y"]) "2"
              (final_world (select_reading_level (start ["five"; " 2 "; "y"]))))
    as (_ & refused & line & Hin & _ & Hline & _).
  - vm_compute. reflexivity.
  - exists refused, line. split; [exact Hin|exact Hline].
Defined.

Lemma select_reading_level_without_level_raises_witness :
  exists w',
    select_reading_level (start ["five"; "22"]) = Raised EOFError w' /\
    stdin w' = [] /\
    lines_read (trace w') = ["five"; "22"].
Proof.
  destruct (select_reading_level_without_level_raises (start ["five"; "22"]))
    as (w' & Hrun & Hin & Hread & _).
  - repeat constructor; rewrite !elem_of_union, !elem_of_singleton;
      intros [[Heq|Heq]|Heq]; vm_compute in Heq; discriminate.
  - exists w'. split; [exact Hrun|]. split; [exact Hin|exact Hread].
Defined.

Lemma ask_show_judge_info_returns_first_answer_witness :
  exists refused line,
    stdin (start ["maybe"; " YES "; "1"]) =
      refused ++ line ::
      stdin (final_world (ask_show_judge_info (start ["maybe"; " YES "; "1"]))) /\
    lower (strip line) ∈ ({[ "y"; "yes" ]} : gset string).
Proof.
  destruct (ask_show_judge_info_returns_first_answer
              (start ["maybe"; " YES "; "1"]) true
              (final_world (ask_show_judge_info (start ["maybe"; " YES "; "1"]))))
    as (refused & line & Hin & _ & Hline & _).
  - vm_compute. reflexivity.
  - exists refused, line. split; [exact Hin|exact Hline].
Defined.

Lemma unknown_level_mixes_levels_2_and_3_witness :
  exists rest,
    judge_story_system_prompt "4" =
      ln "You are a children's book editor reviewing a bedtime story." +:+
      "Target reading level: " +:+ get_reading_level_label "2" +:+ rest /\
    judge_story_system_prompt "3" =
      ln "You are a children's book editor reviewing a bedtime story." +:+
      "Target reading level: " +:+ get_reading_level_label "3" +:+ rest.
Proof.
  exact (proj1 (proj2 (unknown_level_mixes_levels_2_and_3 "4" not_a_level_4))).
Defined.

Lemma judge_keeps_the_fields_supplied_witness :
  exists v w',
    @judge_story generous "a cat" "A story." "2" (start []) = Returned v w' /\
    ({[ "score" := PInt 42 ]} : gmap string py_value) ⊆ v /\
    dom v =
      dom ({[ "score" := PInt 42 ]} : gmap string py_value) ∪
      {[ "score"; "needs_revision"; "feedback_for_author"; "safety_warnings" ]}.
Proof.
  apply (@judge_keeps_the_fields_supplied generous "a cat" "A story." "2"
           (start []) json_score_42 {[ "score" := PInt 42 ]}).
  - vm_compute. reflexivity.
  - vm_compute. reflexivity.
Defined.

Lemma pipeline_returns_a_judged_story_witness :
  exists evs raw,
    trace (final_world
             (@generate_story_with_judge demanding "a cat" "2" (start []))) =
      trace (start []) ++ evs ++
      [Chatted (judge_request "a cat" "A better story." "2") (Content raw)] /\
    @verdict_of_response demanding (json_verdict "4" "true") =
      @verdict_of_response demanding raw.
Proof.
  apply (@pipeline_returns_a_judged_story demanding "a cat" "2" (start [])
           "A better story."
           (@verdict_of_response demanding (json_verdict "4" "true"))
           (final_world
              (@generate_story_with_judge demanding "a cat" "2" (start [])))).
  vm_compute. reflexivity.
Defined.

Lemma level_and_request_change_only_on_demand_witness :
  reading_level
    (session_of
       (inl (Menu,
             {| story := "Once upon a time, Mia found a kite.";
                verdict := fail_closed_verdict;
                current_request := "a cat"; reading_level := "1";
                customizations_used := 1 |}) : control * session + session))
    ∈ ({[ "1"; "2"; "3" ]} : gset string) /\
  current_request
    (session_of
       (inl (Menu,
             {| story := "Once upon a time, Mia found a kite.";
                verdict := fail_closed_verdict;
                current_request := "a cat"; reading_level := "1";
                customizations_used := 1 |}) : control * session + session))
    = current_request (sample_session 1).
Proof.
  destruct (@level_and_request_change_only_on_demand storyteller true 3
              (Action "3", sample_session 1) (start ["9"; "1"])
              (inl (Menu,
                    {| story := "Once upon a time, Mia found a kite.";
                       verdict := fail_closed_verdict;
                       current_request := "a cat"; reading_level := "1";
                       customizations_used := 1 |}))
              (final_world
                 (@loop_step storyteller true 3 (Action "3", sample_session 1)
                    (start ["9"; "1"]))))
    as (_ & Hlevel & Hrequest & _).
  - vm_compute. reflexivity.
  - split; [apply Hlevel; reflexivity|apply Hrequest; discriminate].
Defined.

Lemma menu_returns_a_judged_story_witness :
  ("Once upon a time, Mia found a kite.", fail_closed_verdict) =
    ("A story.", fail_closed_verdict) \/
  exists req lvl raw,
    Chatted (judge_request req "Once upon a time, Mia found a kite." lvl)
      (Content raw)
      ∈ trace (final_world
                 (@customization_menu storyteller true 2 "a cat" "A story."
                    fail_closed_verdict "2" (start ["2"; "sillier"; "1"]))) /\
    fail_closed_verdict = @verdict_of_response storyteller raw.
Proof.
  apply (@menu_returns_a_judged_story storyteller true 2 "a cat" "A story."
           fail_closed_verdict "2" (start ["2"; "sillier"; "1"])).
  vm_compute. reflexivity.
Defined.

Lemma menu_at_end_of_input_raises_witness :
  exists w',
    @customization_menu storyteller true 3 "a cat" "A story."
      fail_closed_verdict "2" (start []) = Raised EOFError w' /\
    chat_calls (trace w') = chat_calls (trace (start [])).
Proof.
  apply (@menu_at_end_of_input_raises storyteller true 3 "a cat" "A story."
           fail_closed_verdict "2" (start [])).
  - lia.
  - reflexivity.
Defined.

Lemma main_needs_three_lines_witness :
  exists w',
    @main storyteller (start ["a cat"; "2"]) = Raised EOFError w' /\
    chat_calls (trace w') = chat_calls (trace (start ["a cat"; "2"])).
Proof.
  apply (@main_needs_three_lines storyteller (start ["a cat"; "2"])).
  cbn. lia.
Defined.

Lemma main_first_asks_for_the_story_as_typed_witness :
  exists user_request rest reading_level,
    stdin (start [" a cat "; "2"; "n"; "1"]) = user_request :: rest /\
    reading_level ∈ ({[ "1"; "2"; "3" ]} : gset string) /\
    generate_request " a cat " "2" =
      generate_request user_request reading_level.
Proof.
  apply (@main_first_asks_for_the_story_as_typed storyteller
           (start [" a cat "; "2"; "n"; "1"])
           (generate_request " a cat " "2")
           (tail (chat_calls
                    (trace (final_world
                              (@main storyteller
                                 (start [" a cat "; "2"; "n"; "1"]))))))).
  vm_compute. reflexivity.
Defined.
